(** * Trip planner: scoring engine, viability aggregator and routing

    A shallow embedding of the planning workflow of the trip planner
    ([tools/weather_tool.py], [tools/travel_tools.py],
    [agents/trip_planner.py]) and the properties its specification states
    about scores, verdicts and routing decisions.

    Conventions of the embedding.
    - A Python [dict] with a fixed set of keys is a record whose fields are
      options: [None] is an absent key.  Where the code only tests the
      truthiness of [state.get(key)], a stored [None] behaves as an absent
      key and is not distinguished from it.
    - A Python number is a [PyNum]: an [int] carries its [Z], a [float]
      the rational it denotes.  The one float operation of the code, the
      true division [sum / len] of two ints, rounds its quotient to the
      nearest double ([true_div]).  Temperatures and wind speeds are only
      ever compared, so they are plain rationals.
    - A Python [str] is the [string] of the bytes of its UTF-8 encoding.
      [len(s)] counts characters, not bytes ([len]); [x in s] is
      [contains x s], the encoding of [x] occurring in the encoding of
      [s]; [s.lower()] is [lower s], which maps the ASCII letters.
      Python lower-cases the other letters too, but only U+0130 and
      U+212A give an ASCII letter (an i followed by a combining dot, and
      a k), and no keyword looked for in a lower-cased text contains a k
      or ends in an i: every keyword test comes out the same.
    - Decision keys and node names are the strings of the source. *)

From Stdlib Require Import ZArith QArith Qround Qabs Qpower Bool List String.
From Stdlib Require Import Ascii Lia Lqa DecimalString.
Import ListNotations.

Local Open Scope string_scope.
Local Open Scope Z_scope.

(** ** Python values *)

Module Py.

Inductive PyNum : Type :=
| PyInt (z : Z)
| PyFloat (q : Q).

(** The rational a number denotes. *)
Definition num_val (n : PyNum) : Q :=
  match n with
  | PyInt z => inject_Z z
  | PyFloat q => q
  end.

Definition Qlt_bool (x y : Q) : bool := negb (Qle_bool y x).

(** *** Floats

    A [float] is a double: a multiple [m * 2^e] of a power of two whose
    [m] has at most 53 bits and whose [e] is at least [-1074].
    [float_round x] is the double nearest to [x], the one with the even
    [m] when two are equally near (the default rounding of IEEE 754),
    for [x] within the range of the doubles (below [2^1024] in
    magnitude). *)

(** The integer nearest to [x], the even one of two equally near. *)
Definition round_half_even (x : Q) : Z :=
  let f := Qfloor x in
  match (x - inject_Z f ?= 1 # 2)%Q with
  | Lt => f
  | Gt => f + 1
  | Eq => if Z.even f then f else f + 1
  end.

(** The [k] with [2^k <= x < 2^(k+1)], for a positive [x]. *)
Definition floor_log2 (x : Q) : Z :=
  if Qle_bool 1 x then Z.log2 (Qfloor x) else - Z.log2_up (Qceiling (/ x)).

(** The exponent of the doubles around [x]: 52 below that of [x], and
    never below that of the least positive double. *)
Definition ulp_exponent (x : Q) : Z := Z.max (-1074) (floor_log2 x - 52).

Definition float_round (x : Q) : Q :=
  let e := ulp_exponent (Qabs x) in
  (inject_Z (round_half_even (x / 2 ^ e)) * 2 ^ e)%Q.

(** [a / b] on two ints, [b] not zero: the double nearest to the
    quotient.  (Python raises [OverflowError] when the quotient is beyond
    the range of the doubles; the quotients taken here are means of
    scores between 0 and 100.) *)
Definition true_div (a b : Z) : PyNum :=
  PyFloat (Qred (float_round (inject_Z a / inject_Z b))).

(** [a >= b] and [a < b] on Python numbers. *)
Definition num_ge (a b : PyNum) : bool := Qle_bool (num_val b) (num_val a).
Definition num_lt (a b : PyNum) : bool := Qlt_bool (num_val a) (num_val b).

(** [str(z)] for an [int]. *)
Definition str_of_Z (z : Z) : string := NilZero.string_of_int (Z.to_int z).

(** [f"{n}"] for a number; [float_repr] is the text Python prints for a
    [float]. *)
Definition py_str (float_repr : Q -> string) (n : PyNum) : string :=
  match n with
  | PyInt z => str_of_Z z
  | PyFloat q => float_repr q
  end.

(** [s.lower()] *)
Definition lower_char (c : ascii) : ascii :=
  let n := nat_of_ascii c in
  if ((65 <=? n) && (n <=? 90))%nat then ascii_of_nat (n + 32) else c.

Fixpoint lower (s : string) : string :=
  match s with
  | EmptyString => EmptyString
  | String c s' => String (lower_char c) (lower s')
  end.

(** [needle in hay] on strings: [needle] occurs as a contiguous block. *)
Fixpoint contains (needle hay : string) : bool :=
  prefix needle hay ||
  match hay with
  | EmptyString => false
  | String _ hay' => contains needle hay'
  end.

(** [any(w in s for w in words)] and [all(w in s for w in words)] *)
Definition any_in (words : list string) (s : string) : bool :=
  existsb (fun w => contains w s) words.

Definition all_in (words : list string) (s : string) : bool :=
  forallb (fun w => contains w s) words.

(** [len(s)]: the number of characters of [s].  In UTF-8 a character is
    one leading byte followed by its continuation bytes, the bytes of the
    form [10xxxxxx]. *)
Definition continuation_byte (c : ascii) : bool :=
  let n := nat_of_ascii c in ((128 <=? n) && (n <? 192))%nat.

Fixpoint len (s : string) : nat :=
  match s with
  | EmptyString => O
  | String c s' => if continuation_byte c then len s' else S (len s')
  end.

(** Truthiness of a [str] and of an optional [str]. *)
Definition str_truthy (s : string) : bool :=
  match s with EmptyString => false | String _ _ => true end.

Definition opt_str_truthy (o : option string) : bool :=
  match o with None => false | Some s => str_truthy s end.

(** [", ".join(l)] and friends *)
Fixpoint join (sep : string) (l : list string) : string :=
  match l with
  | [] => ""
  | [x] => x
  | x :: rest => x ++ sep ++ join sep rest
  end.

(** [d.get(key, default)] on an optional field. *)
Definition dict_get {A : Type} (field : option A) (default : A) : A :=
  match field with Some v => v | None => default end.

Definition has {A : Type} (field : option A) : bool :=
  match field with Some _ => true | None => false end.

(** [s.split(sep)] for a non-empty separator: the pieces between the
    occurrences of [sep], found from the left.  [skip] counts the
    characters of an occurrence that are still to be passed over and
    [piece] is the piece read so far. *)
Fixpoint split_from (sep : string) (skip : nat) (piece s : string)
  : list string :=
  match s with
  | EmptyString => [piece]
  | String c s' =>
    match skip with
    | S k => split_from sep k piece s'
    | O =>
      if prefix sep s
      then piece :: split_from sep (String.length sep - 1) "" s'
      else split_from sep 0 (piece ++ String c "") s'
    end
  end.

Definition split (s sep : string) : list string := split_from sep 0 "" s.

End Py.

Import Py.

(** ** tools/weather_tool.py *)

Module WeatherTool.

(** The dicts [current_weather] and [forecast[i]]: the keys the scoring
    code reads. *)
Record Observation : Type := mkObservation {
  obs_error : option string;
  obs_temperature : option Q;
  obs_description : option string;
  obs_wind_speed : option Q
}.

Definition empty_observation : Observation :=
  mkObservation None None None None.

(** One entry of [daily_forecasts].  [df_date] is the day as an ordinal;
    the source stores its renderings [strftime('%Y-%m-%d')] and
    [strftime('%A')]. *)
Record DailyForecast : Type := mkDailyForecast {
  df_date : Z;
  df_temperature : Q;
  df_description : string;
  df_wind_speed : Q;
  df_suitability_score : Z;
  df_suitability_level : string;
  df_recommendations : list string
}.

(** The dict under ['extended_analysis']. *)
Record ExtendedAnalysis : Type := mkExtendedAnalysis {
  ea_daily_forecasts : option (list DailyForecast);
  ea_trip_duration : option Z;
  ea_overall_trip_score : option PyNum;
  ea_overall_recommendation : option string
}.

(** The weather bundle returned by [get_weather_forecast] and
    [get_extended_weather_forecast]. *)
Record WeatherData : Type := mkWeatherData {
  wd_error : option string;
  wd_city : option string;
  wd_current_weather : option Observation;
  wd_forecast : option (list Observation);
  wd_weather_analysis : option string;
  wd_viability_score : option PyNum;
  wd_viability_reason : option string;
  wd_recommendations : option (list string);
  wd_coordinates : option (Q * Q);
  wd_extended_analysis : option ExtendedAnalysis
}.

Definition empty_weather_data : WeatherData :=
  mkWeatherData None None None None None None None None None None.

Definition error_weather_data (msg : string) : WeatherData :=
  mkWeatherData (Some msg) None None None None None None None None None.

(** Truthiness of the dicts: a dict is truthy when it has a key. *)
Definition extended_analysis_truthy (ea : ExtendedAnalysis) : bool :=
  has (ea_daily_forecasts ea) || has (ea_trip_duration ea)
  || has (ea_overall_trip_score ea) || has (ea_overall_recommendation ea).

Definition weather_data_truthy (wd : WeatherData) : bool :=
  has (wd_error wd) || has (wd_city wd) || has (wd_current_weather wd)
  || has (wd_forecast wd) || has (wd_weather_analysis wd)
  || has (wd_viability_score wd) || has (wd_viability_reason wd)
  || has (wd_recommendations wd) || has (wd_coordinates wd)
  || has (wd_extended_analysis wd).

(** *** [_calculate_daily_suitability_score]

    The three blocks of the function, each updating the running [score]. *)

(** [# Temperature adjustments] *)
Definition temperature_adjustments (temp : Q) (score : Z) : Z :=
  if Qlt_bool temp 0 || Qlt_bool 40 temp then score - 40
  else if Qlt_bool temp 5 || Qlt_bool 35 temp then score - 25
  else if Qlt_bool temp 10 || Qlt_bool 30 temp then score - 15
  else if Qle_bool 18 temp && Qle_bool temp 28 then score + 10
  else score.

(** [# Weather condition adjustments] *)
Definition condition_adjustments (desc_lower : string) (score : Z) : Z :=
  if any_in ["storm"; "hurricane"; "tornado"] desc_lower then score - 50
  else if any_in ["heavy rain"; "thunderstorm"] desc_lower then score - 40
  else if any_in ["rain"; "shower"] desc_lower then score - 20
  else if any_in ["snow"; "sleet"] desc_lower then score - 30
  else if any_in ["clear"; "sunny"] desc_lower then score + 15
  else if contains "cloud" desc_lower then score + 5
  else score.

(** [# Wind adjustments] *)
Definition wind_adjustments (wind : Q) (score : Z) : Z :=
  if Qlt_bool 25 wind then score - 20
  else if Qlt_bool 15 wind then score - 10
  else score.

Definition _calculate_daily_suitability_score
  (temp : Q) (description : string) (wind : Q) (rain_prob : Q) : Z :=
  let score := 100 in
  let score := temperature_adjustments temp score in
  let desc_lower := lower description in
  let score := condition_adjustments desc_lower score in
  let score := wind_adjustments wind score in
  Z.max 0 (Z.min 100 score).

(** *** [_get_suitability_level] *)
Definition _get_suitability_level (score : PyNum) : string :=
  if num_ge score (PyInt 80) then "Excellent"
  else if num_ge score (PyInt 60) then "Good"
  else if num_ge score (PyInt 40) then "Fair"
  else if num_ge score (PyInt 20) then "Poor"
  else "Very Poor".

(** *** [_get_daily_recommendations] *)
Definition _get_daily_recommendations
  (temp : Q) (description : string) (rain_prob : Q) : list string :=
  let recommendations : list string := [] in
  let desc_lower := lower description in
  let recommendations :=
    if Qlt_bool 30 temp then
      (recommendations ++
        ["Stay hydrated"; "Wear light clothing"; "Seek shade during peak hours"])%list
    else if Qlt_bool temp 10 then
      (recommendations ++
        ["Warm layers needed"; "Limit outdoor exposure";
         "Hot beverages recommended"])%list
    else recommendations in
  let recommendations :=
    if any_in ["rain"; "drizzle"] desc_lower then
      (recommendations ++
        ["Carry umbrella"; "Waterproof footwear"; "Have indoor backup plans"])%list
    else if any_in ["storm"; "thunder"] desc_lower then
      (recommendations ++
        ["Avoid outdoor activities"; "Seek shelter if needed";
         "Check weather alerts"])%list
    else if contains "clear" desc_lower || contains "sunny" desc_lower then
      (recommendations ++
        ["Perfect for outdoor activities"; "Sunscreen recommended";
         "Great for photography"])%list
    else recommendations in
  match recommendations with
  | [] => ["Generally good conditions for activities"]
  | _ :: _ => recommendations
  end.

(** *** [_get_overall_recommendation] *)
Definition _get_overall_recommendation (score : PyNum) : string :=
  if num_ge score (PyInt 80) then
    "Excellent weather conditions for your trip!"
  else if num_ge score (PyInt 60) then
    "Good weather conditions with minor considerations."
  else if num_ge score (PyInt 40) then
    "Fair weather - some days may require alternative plans."
  else
    "Poor weather conditions - consider rescheduling or indoor alternatives.".

(** *** [get_extended_weather_forecast]

    The library function [datetime.strptime] is a parameter: [strptime s]
    is the ordinal of the day that [s] denotes in the format ['%Y-%m-%d'],
    or [inl msg] when the parse raises [ValueError(msg)]. *)

Section WithStrptime.

Variable strptime : string -> string + Z.

(** The body of [for day in range(duration)]: the entry appended to
    [daily_forecasts]. *)
Definition daily_forecast_entry
  (start_dt : Z) (current_weather : Observation)
  (forecast_data : list Observation) (day : nat) : DailyForecast :=
  let day_data := nth day forecast_data empty_observation in
  let in_forecast :=
    (day <? List.length forecast_data)%nat
    && match forecast_data with [] => false | _ :: _ => true end in
  let temp :=
    if in_forecast
    then dict_get (obs_temperature day_data)
                  (dict_get (obs_temperature current_weather) 25%Q)
    else dict_get (obs_temperature current_weather) 25%Q in
  let description :=
    if in_forecast
    then dict_get (obs_description day_data)
                  (dict_get (obs_description current_weather) "clear sky")
    else dict_get (obs_description current_weather) "clear sky" in
  let wind_speed :=
    if in_forecast
    then dict_get (obs_wind_speed day_data)
                  (dict_get (obs_wind_speed current_weather) 5%Q)
    else dict_get (obs_wind_speed current_weather) 5%Q in
  let daily_score :=
    _calculate_daily_suitability_score temp description wind_speed 0%Q in
  {| df_date := start_dt + Z.of_nat day;
     df_temperature := temp;
     df_description := description;
     df_wind_speed := wind_speed;
     df_suitability_score := daily_score;
     df_suitability_level := _get_suitability_level (PyInt daily_score);
     df_recommendations := _get_daily_recommendations temp description 0%Q |}.

(** [sum(daily_scores)] *)
Definition sum (l : list Z) : Z := fold_left Z.add l 0.

(** [sum(daily_scores) / len(daily_scores)]: true division of two ints. *)
Definition mean (daily_scores : list Z) : PyNum :=
  true_div (sum daily_scores) (Z.of_nat (List.length daily_scores)).

(** [get_extended_weather_forecast], given the result [basic_forecast] of
    its call to [get_weather_forecast(city)] (the weather provider). *)
Definition get_extended_weather_forecast
  (basic_forecast : WeatherData) (start_date end_date : string)
  : WeatherData :=
  if has (wd_error basic_forecast) then basic_forecast
  else
    match strptime start_date with
    | inl e => error_weather_data ("Extended weather forecast error: " ++ e)
    | inr start_dt =>
      match strptime end_date with
      | inl e => error_weather_data ("Extended weather forecast error: " ++ e)
      | inr end_dt =>
        let duration := (end_dt - start_dt) + 1 in
        let current_weather :=
          dict_get (wd_current_weather basic_forecast) empty_observation in
        let forecast_data := dict_get (wd_forecast basic_forecast) [] in
        let daily_forecasts :=
          map (daily_forecast_entry start_dt current_weather forecast_data)
              (seq 0 (Z.to_nat duration)) in
        let daily_scores := map df_suitability_score daily_forecasts in
        let overall_score :=
          match daily_scores with
          | _ :: _ => mean daily_scores
          | [] => dict_get (wd_viability_score basic_forecast) (PyInt 50)
          end in
        {| wd_error := wd_error basic_forecast;
           wd_city := wd_city basic_forecast;
           wd_current_weather := wd_current_weather basic_forecast;
           wd_forecast := wd_forecast basic_forecast;
           wd_weather_analysis := wd_weather_analysis basic_forecast;
           wd_viability_score := Some overall_score;
           wd_viability_reason := wd_viability_reason basic_forecast;
           wd_recommendations := wd_recommendations basic_forecast;
           wd_coordinates := wd_coordinates basic_forecast;
           wd_extended_analysis :=
             Some {| ea_daily_forecasts := Some daily_forecasts;
                     ea_trip_duration := Some duration;
                     ea_overall_trip_score := Some overall_score;
                     ea_overall_recommendation :=
                       Some (_get_overall_recommendation overall_score) |} |}
      end
    end.

End WithStrptime.

(** *** [get_consistent_weather_score]

    The dict it returns; the error branch
    has no ['display_text']. *)
Record ConsistentScore : Type := mkConsistentScore {
  cs_score : PyNum;
  cs_level : string;
  cs_recommendation : string;
  cs_display_text : option string
}.

(** The guarded read both score readers share: the value of
    [extended_analysis['overall_trip_score']] when
    [extended_analysis and 'overall_trip_score' in extended_analysis]. *)
Definition guarded_overall_trip_score (extended_analysis : ExtendedAnalysis)
  : option PyNum :=
  if extended_analysis_truthy extended_analysis
  then ea_overall_trip_score extended_analysis
  else None.

Section WithFloatRepr.

Variable float_repr : Q -> string.

Definition get_consistent_weather_score (weather_data : WeatherData)
  : ConsistentScore :=
  if has (wd_error weather_data) then
    {| cs_score := PyInt 0; cs_level := "Unknown";
       cs_recommendation := "Weather data unavailable";
       cs_display_text := None |}
  else
    let extended_analysis :=
      dict_get (wd_extended_analysis weather_data)
               (mkExtendedAnalysis None None None None) in
    let '(score, recommendation) :=
      match guarded_overall_trip_score extended_analysis with
      | Some overall_trip_score =>
        (overall_trip_score,
         dict_get (ea_overall_recommendation extended_analysis) "")
      | None =>
        (dict_get (wd_viability_score weather_data) (PyInt 50),
         dict_get (wd_viability_reason weather_data) "")
      end in
    let level :=
      if num_ge score (PyInt 80) then "Excellent"
      else if num_ge score (PyInt 60) then "Good"
      else if num_ge score (PyInt 40) then "Fair"
      else if num_ge score (PyInt 20) then "Poor"
      else "Very Poor" in
    {| cs_score := score; cs_level := level;
       cs_recommendation := recommendation;
       cs_display_text :=
         Some (py_str float_repr score ++ "/100 - " ++ level) |}.

End WithFloatRepr.

(** *** [_calculate_viability_score]

    The single-point score.  [reasons] and [recommendations] are threaded
    with the running [score] through the three blocks. *)
Record ViabilityScore : Type := mkViabilityScore {
  vs_score : Z;
  vs_reason : string;
  vs_recommendations : list string
}.

Definition _calculate_viability_score
  (current_weather : Observation) (forecast : list Observation)
  : ViabilityScore :=
  if has (obs_error current_weather) then
    {| vs_score := 0; vs_reason := "Weather data unavailable";
       vs_recommendations := [] |}
  else
    let score := 100 in
    let reasons : list string := [] in
    let recommendations : list string := [] in
    let temp := dict_get (obs_temperature current_weather) 20%Q in
    let description := lower (dict_get (obs_description current_weather) "") in
    let wind_speed := dict_get (obs_wind_speed current_weather) 0%Q in
    (* Temperature scoring *)
    let '(score, reasons, recommendations) :=
      if Qle_bool 18 temp && Qle_bool temp 28 then
        (score + 10, (reasons ++ ["Perfect temperature"])%list,
         recommendations)
      else if Qle_bool 15 temp && Qle_bool temp 30 then
        (score + 5, (reasons ++ ["Good temperature"])%list, recommendations)
      else if Qlt_bool temp 5 || Qlt_bool 35 temp then
        (score - 40, (reasons ++ ["Extreme temperature"])%list,
         (recommendations
          ++ ["Consider rescheduling due to extreme temperatures"])%list)
      else if Qlt_bool temp 10 || Qlt_bool 32 temp then
        (score - 20, (reasons ++ ["Uncomfortable temperature"])%list,
         recommendations)
      else (score, reasons, recommendations) in
    (* Weather condition scoring *)
    let '(score, reasons, recommendations) :=
      if any_in ["clear"; "sunny"; "fair"] description then
        (score + 20, (reasons ++ ["Excellent weather conditions"])%list,
         recommendations)
      else if any_in ["cloud"; "overcast"] description then
        (score + 5, (reasons ++ ["Cloudy but suitable"])%list,
         recommendations)
      else if any_in ["drizzle"; "light rain"] description then
        (score - 10, (reasons ++ ["Light rain expected"])%list,
         (recommendations ++ ["Carry umbrella or raincoat"])%list)
      else if any_in ["rain"; "shower"] description then
        (score - 25, (reasons ++ ["Rain expected"])%list,
         (recommendations ++ ["Plan indoor activities"])%list)
      else if any_in ["storm"; "thunder"] description then
        (score - 50, (reasons ++ ["Storm conditions"])%list,
         (recommendations
          ++ ["Consider rescheduling - storm warning"])%list)
      else if any_in ["snow"; "ice"] description then
        (score - 30, (reasons ++ ["Snow conditions"])%list,
         (recommendations ++ ["Check travel advisories"])%list)
      else (score, reasons, recommendations) in
    (* Wind scoring *)
    let '(score, reasons, recommendations) :=
      if Qlt_bool 20 wind_speed then
        (score - 15, (reasons ++ ["High winds"])%list,
         (recommendations ++ ["Secure outdoor items"])%list)
      else if Qlt_bool 15 wind_speed then
        (score - 5, (reasons ++ ["Moderate winds"])%list, recommendations)
      else (score, reasons, recommendations) in
    let score := Z.max 0 (Z.min 100 score) in
    {| vs_score := score;
       vs_reason := join "; " reasons;
       vs_recommendations := recommendations |}.

(** *** [_get_5day_forecast]

    [status_code] and [items] are the status of the HTTP response and the
    entries of its [data['list']]; an entry carries the keys the function
    reads. *)
Record ForecastItem : Type := mkForecastItem {
  fi_dt_txt : string;
  fi_temp : Q;
  fi_description : string;
  fi_humidity : Q;
  fi_wind_speed : Q
}.

Definition default_forecast_item : ForecastItem :=
  mkForecastItem "" 0%Q "" 0%Q 0%Q.

(** [range(0, stop, step)] for a positive [step]. *)
Definition range_step (stop step : nat) : list nat :=
  map (fun k => (k * step)%nat) (seq 0 ((stop + step - 1) / step)).

Definition _get_5day_forecast (status_code : Z) (items : list ForecastItem)
  : list Observation :=
  if status_code =? 200 then
    map (fun i =>
           let item := nth i items default_forecast_item in
           {| obs_error := None;
              obs_temperature := Some (fi_temp item);
              obs_description := Some (fi_description item);
              obs_wind_speed := Some (fi_wind_speed item) |})
        (range_step (Nat.min (5 * 8) (List.length items)) 8)
  else [].

(** *** [analyze_weather_conditions] and [get_weather_forecast]

    A failed dict lookup [d[key]] raises [KeyError(key)]; a function that
    can raise returns [inl] of the text of the exception. *)
Definition key_error (key : string) : string := "'" ++ key ++ "'".

Definition lookup_key {A : Type} (field : option A) (key : string)
  : string + A :=
  match field with Some v => inr v | None => inl (key_error key) end.

(** The degree sign, as the two bytes of its UTF-8 encoding. *)
Definition degree_sign : string :=
  String (ascii_of_nat 194) (String (ascii_of_nat 176) EmptyString).

(** The outcome of the geocoding request of [get_weather_forecast]: the
    coordinates, a status other than 200, or an exception. *)
Inductive GeoResponse : Type :=
| GeoOk (lat lon : Q)
| GeoNotFound
| GeoRaised (msg : string).

Section WithNumberFormat.

(** The text Python prints for a temperature. *)
Variable float_repr : Q -> string.

Definition analyze_weather_conditions (weather_data : WeatherData)
  : string + string :=
  match wd_error weather_data with
  | Some error => inr ("Weather analysis unavailable: " ++ error)
  | None =>
    match lookup_key (wd_current_weather weather_data) "current_weather" with
    | inl e => inl e
    | inr current =>
    match lookup_key (obs_temperature current) "temperature" with
    | inl e => inl e
    | inr temp =>
    match lookup_key (obs_description current) "description" with
    | inl e => inl e
    | inr description =>
    let viability_score :=
      dict_get (wd_viability_score weather_data) (PyInt 50) in
    match lookup_key (wd_city weather_data) "city" with
    | inl e => inl e
    | inr city =>
    let analysis :=
      "Current weather in " ++ city ++ ": " ++ float_repr temp
      ++ degree_sign ++ "C, " ++ description ++ ". " in
    let analysis :=
      analysis ++ "Weather viability score: "
      ++ py_str float_repr viability_score ++ "/100. " in
    let analysis :=
      if num_ge viability_score (PyInt 80) then
        analysis ++ "Excellent conditions for travel! "
      else if num_ge viability_score (PyInt 60) then
        analysis ++ "Good conditions with minor considerations. "
      else if num_ge viability_score (PyInt 40) then
        analysis ++ "Fair conditions - some adjustments needed. "
      else
        analysis ++ "Challenging conditions - consider alternatives. " in
    let analysis :=
      if Qlt_bool 30 temp then
        analysis ++ "Hot weather - stay hydrated and seek shade. "
      else if Qlt_bool temp 10 then
        analysis ++ "Cold weather - pack warm clothing. "
      else analysis in
    let desc_lower := lower description in
    let analysis :=
      if contains "rain" desc_lower then
        analysis ++ "Rain expected - pack rain gear. "
      else analysis in
    let analysis :=
      if contains "wind" desc_lower
         || Qlt_bool 15 (dict_get (obs_wind_speed current) 0%Q) then
        analysis ++ "Windy conditions expected. "
      else analysis in
    inr analysis
    end end end end
  end.

(** [get_weather_forecast], given the outcomes of its three requests: the
    geocoding response and what [_get_current_weather] and
    [_get_5day_forecast] return ([inl] when the call raises). *)
Definition get_weather_forecast
  (city : string) (geo_response : GeoResponse)
  (current_weather_call : string + Observation)
  (forecast_call : string + list Observation) : WeatherData :=
  match geo_response with
  | GeoRaised e => error_weather_data ("Weather API error: " ++ e)
  | GeoNotFound =>
    error_weather_data ("Could not find weather data for " ++ city)
  | GeoOk lat lon =>
    match current_weather_call with
    | inl e => error_weather_data ("Weather API error: " ++ e)
    | inr current_weather =>
    match forecast_call with
    | inl e => error_weather_data ("Weather API error: " ++ e)
    | inr forecast =>
    match analyze_weather_conditions
            {| wd_error := None; wd_city := Some city;
               wd_current_weather := Some current_weather;
               wd_forecast := Some forecast;
               wd_weather_analysis := None; wd_viability_score := None;
               wd_viability_reason := None; wd_recommendations := None;
               wd_coordinates := None; wd_extended_analysis := None |} with
    | inl e => error_weather_data ("Weather API error: " ++ e)
    | inr weather_analysis =>
      let viability := _calculate_viability_score current_weather forecast in
      {| wd_error := None;
         wd_city := Some city;
         wd_current_weather := Some current_weather;
         wd_forecast := Some forecast;
         wd_weather_analysis := Some weather_analysis;
         wd_viability_score := Some (PyInt (vs_score viability));
         wd_viability_reason := Some (vs_reason viability);
         wd_recommendations := Some (vs_recommendations viability);
         wd_coordinates := Some (lat, lon);
         wd_extended_analysis := None |}
    end end end
  end.

End WithNumberFormat.

End WeatherTool.

(** ** tools/travel_tools.py *)

Module TravelTools.

Import WeatherTool.

(** The dict returned by [check_weather_viability]. *)
Record Viability : Type := mkViability {
  viable : bool;
  score : PyNum;
  reason : string;
  warnings : list string;
  recommendations : list string
}.

Definition check_weather_viability (weather_data : WeatherData)
  : Viability :=
  if has (wd_error weather_data) then
    {| viable := false;
       score := PyInt 0;
       reason := "Weather data unavailable";
       warnings := ["Cannot verify weather conditions"];
       recommendations := ["Check weather manually"] |}
  else
    let extended_analysis :=
      dict_get (wd_extended_analysis weather_data)
               (mkExtendedAnalysis None None None None) in
    let '(trip_score, recommendation) :=
      match guarded_overall_trip_score extended_analysis with
      | Some overall_trip_score =>
        (overall_trip_score,
         dict_get (ea_overall_recommendation extended_analysis) "")
      | None =>
        (dict_get (wd_viability_score weather_data) (PyInt 50),
         dict_get (wd_viability_reason weather_data) "")
      end in
    let viability_warnings : list string := [] in
    let viability_warnings :=
      if num_lt trip_score (PyInt 30) then
        (viability_warnings ++ ["Poor weather conditions expected"])%list
      else if num_lt trip_score (PyInt 50) then
        (viability_warnings ++ ["Moderate weather conditions"])%list
      else viability_warnings in
    {| viable := num_ge trip_score (PyInt 40);
       score := trip_score;
       reason := recommendation;
       warnings := viability_warnings;
       recommendations := dict_get (wd_recommendations weather_data) [] |}.

(** *** [get_comprehensive_travel_data]

    An entry of the lists of hotels, attractions, flights and search
    results: the keys this model tracks. *)
Record Listing : Type := mkListing {
  listing_error : option string;
  listing_name : option string;
  listing_price : option Q
}.

(** The dict returned by [flight_tools.search_flights]. *)
Record FlightResult : Type := mkFlightResult {
  fr_status : option string;
  fr_flights : option (list Listing)
}.

(** The two shapes of the dict [get_comprehensive_travel_data] returns:
    the one with ["status": "success"] and the one with
    ["status": "error"]. *)
Inductive TravelData : Type :=
| TravelSuccess (weather_data : WeatherData) (weather_analysis : string)
                (weather_viability : Viability)
                (hotel_options attraction_options flight_options
                   search_results : list Listing)
                (destination : string)
| TravelError (error : string).

Section WithServices.

(** The services behind the tools.  [weather_requests city] gives the
    outcomes of the three requests of [get_weather_forecast];
    [search_hotels], [search_attractions] and [search_travel_info] stand
    for the methods of [search_tool], which catch every exception;
    [search_flights] stands for [flight_tools.search_flights], [inl] when
    it raises. *)
Variable float_repr : Q -> string.
Variable strptime : string -> string + Z.
Variable weather_requests :
  string -> GeoResponse * (string + Observation) * (string + list Observation).
Variable search_hotels : string -> Q -> list Listing.
Variable search_attractions : string -> list string -> list Listing.
Variable search_flights : string -> string -> string -> Q -> string + FlightResult.
Variable search_travel_info : string -> string -> list Listing.

(** [weather_tool.get_extended_weather_forecast(city, start, end)] with
    its call to [get_weather_forecast(city)]. *)
Definition extended_weather_forecast_for
  (city start_date end_date : string) : WeatherData :=
  let '(geo_response, current_weather_call, forecast_call) :=
    weather_requests city in
  get_extended_weather_forecast strptime
    (get_weather_forecast float_repr city geo_response
       current_weather_call forecast_call)
    start_date end_date.

Definition get_comprehensive_travel_data
  (destination dates : string) (budget : Q) (preferences : list string)
  (origin_city : string) : TravelData :=
  let date_parts := split dates " to " in
  let start_date := nth 0 date_parts "" in
  let end_date :=
    if (1 <? List.length date_parts)%nat then nth 1 date_parts ""
    else start_date in
  let weather_data :=
    extended_weather_forecast_for destination start_date end_date in
  let weather_analysis :=
    dict_get (wd_weather_analysis weather_data)
             "Weather information not available" in
  let hotels := search_hotels destination budget in
  let attractions := search_attractions destination preferences in
  match search_flights origin_city destination start_date budget with
  | inl e => TravelError ("Travel data collection failed: " ++ e)
  | inr flight_result =>
    let flight_list := dict_get (fr_flights flight_result) [] in
    let travel_info := search_travel_info destination "general" in
    let viability := check_weather_viability weather_data in
    TravelSuccess weather_data weather_analysis viability hotels
                  attractions flight_list travel_info destination
  end.

End WithServices.

End TravelTools.

(** ** agents/trip_planner.py *)

Module TripPlanner.

Import WeatherTool TravelTools.

(** [TripPlannerState], the keys the modelled nodes and routing functions
    read or write.  A node returns a partial state (the keys it sets) that
    the graph merges into the running state. *)
Record TripPlannerState : Type := mkState {
  destination : option string;
  travel_dates : option string;
  user_feedback : option string;
  current_step : option string;
  requires_input : option bool;
  conversation_history : option (list (string * string));
  weather_data : option WeatherData;
  weather_analysis : option string;
  weather_viability : option Viability;
  weather_score : option PyNum;
  itinerary : option string;
  alternative_suggestions : option (list string);
  itinerary_quality_score : option Z;
  error_message : option string
}.

Definition empty_state : TripPlannerState :=
  mkState None None None None None None None None None None None None None
          None.

(** Last writer wins, key by key. *)
Definition override {A : Type} (old new : option A) : option A :=
  match new with Some _ => new | None => old end.

Definition merge (state update : TripPlannerState) : TripPlannerState :=
  {| destination := override (destination state) (destination update);
     travel_dates := override (travel_dates state) (travel_dates update);
     user_feedback := override (user_feedback state) (user_feedback update);
     current_step := override (current_step state) (current_step update);
     requires_input :=
       override (requires_input state) (requires_input update);
     conversation_history :=
       override (conversation_history state) (conversation_history update);
     weather_data := override (weather_data state) (weather_data update);
     weather_analysis :=
       override (weather_analysis state) (weather_analysis update);
     weather_viability :=
       override (weather_viability state) (weather_viability update);
     weather_score := override (weather_score state) (weather_score update);
     itinerary := override (itinerary state) (itinerary update);
     alternative_suggestions :=
       override (alternative_suggestions state)
                (alternative_suggestions update);
     itinerary_quality_score :=
       override (itinerary_quality_score state)
                (itinerary_quality_score update);
     error_message := override (error_message state) (error_message update)
  |}.

Definition newline : string := String (ascii_of_nat 10) EmptyString.

(** [state.get("conversation_history", []) + [{"role": "system", ...}]] *)
Definition add_system_message (state : TripPlannerState) (content : string)
  : option (list (string * string)) :=
  Some (dict_get (conversation_history state) []
        ++ [("system", content)])%list.

(** [viability.get('viable', False)] and [viability.get('score', 0)] on
    [state.get('weather_viability', {})]. *)
Definition viability_viable (state : TripPlannerState) : bool :=
  match weather_viability state with
  | Some viability => viable viability
  | None => false
  end.

Definition viability_score (state : TripPlannerState) : PyNum :=
  match weather_viability state with
  | Some viability => score viability
  | None => PyInt 0
  end.

Section Nodes.

Variable float_repr : Q -> string.

(** The number [analyze_weather] interpolates into its analysis text. *)
Definition analyze_weather_displayed_score (state : TripPlannerState)
  : PyNum :=
  dict_get (weather_score state) (PyInt 0).

(** Node [analyze_weather]: the partial state it returns.  The [try] of
    the source guards reads that fail only on a stored [None]; on the
    states of this model its body always completes, so the [except]
    branch is not taken. *)
Definition analyze_weather (state : TripPlannerState) : TripPlannerState :=
  let weather_score := analyze_weather_displayed_score state in
  let analysis_update :=
    dict_get (weather_analysis state) ""
    ++ newline ++ "Weather Viability Score: "
    ++ py_str float_repr weather_score ++ "/100" in
  if viability_viable state then
    {| destination := None; travel_dates := None; user_feedback := None;
       current_step := Some "accommodation_search";
       requires_input := None;
       conversation_history :=
         add_system_message state "Weather conditions favorable";
       weather_data := None;
       weather_analysis := Some analysis_update;
       weather_viability := None; weather_score := None; itinerary := None;
       alternative_suggestions := None; itinerary_quality_score := None;
       error_message := None |}
  else
    let alternatives :=
      ["Consider alternative dates"; "Look for nearby destinations";
       "Plan indoor activities"] in
    {| destination := None; travel_dates := None; user_feedback := None;
       current_step := Some "alternative_planning";
       requires_input := None;
       conversation_history :=
         add_system_message state
           "Weather conditions unfavorable, generating alternatives";
       weather_data := None;
       weather_analysis := Some analysis_update;
       weather_viability := None; weather_score := None; itinerary := None;
       alternative_suggestions := Some alternatives;
       itinerary_quality_score := None;
       error_message := None |}.

End Nodes.

(** Node [gather_travel_data] on its success path, given the bundle
    [weather_data] that [get_comprehensive_travel_data] obtained from the
    weather tool: the keys of the returned partial state that this model
    tracks (the lodging, attraction, flight and search results are left
    out). *)
Definition gather_travel_data_success
  (state : TripPlannerState) (weather_data : WeatherData)
  : TripPlannerState :=
  let weather_analysis :=
    dict_get (wd_weather_analysis weather_data)
             "Weather information not available" in
  let weather_viability := check_weather_viability weather_data in
  {| destination := None; travel_dates := None; user_feedback := None;
     current_step := Some "weather_analysis";
     requires_input := None;
     conversation_history :=
       add_system_message state "Travel data collected successfully";
     weather_data := Some weather_data;
     weather_analysis := Some weather_analysis;
     weather_viability := Some weather_viability;
     weather_score := None; itinerary := None;
     alternative_suggestions := None; itinerary_quality_score := None;
     error_message := None |}.

(** Node [handle_feedback]: the [next_action] it announces. *)
Definition handle_feedback_next_action (state : TripPlannerState) : string :=
  let feedback := lower (dict_get (user_feedback state) "") in
  if any_in ["weather"; "rain"; "storm"] feedback then "weather_recheck"
  else if any_in ["hotel"; "accommodation"; "stay"] feedback then "new_search"
  else if any_in ["itinerary"; "schedule"; "plan"] feedback then "regenerate"
  else "regenerate".

Definition handle_feedback (state : TripPlannerState) : TripPlannerState :=
  let next_action := handle_feedback_next_action state in
  {| destination := None; travel_dates := None; user_feedback := None;
     current_step := Some next_action;
     requires_input := None;
     conversation_history :=
       add_system_message state
         ("Processing feedback, next action: " ++ next_action);
     weather_data := None; weather_analysis := None;
     weather_viability := None; weather_score := None; itinerary := None;
     alternative_suggestions := None; itinerary_quality_score := None;
     error_message := None |}.

(** *** Decision methods *)

Definition decide_after_input_collection (state : TripPlannerState)
  : string :=
  if opt_str_truthy (error_message state) then "error"
  else if negb (dict_get (requires_input state) true) then "complete"
  else "incomplete".

Definition decide_after_data_collection (state : TripPlannerState)
  : string :=
  if opt_str_truthy (error_message state) then "error"
  else if match weather_data state with
          | Some wd => weather_data_truthy wd && negb (has (wd_error wd))
          | None => false
          end
  then "weather_check"
  else "direct_planning".

Definition decide_after_weather_analysis (state : TripPlannerState)
  : string :=
  if viability_viable state then "favorable"
  else if num_lt (viability_score state) (PyInt 30) then "unfavorable"
  else "conditional".

Definition decide_after_itinerary (state : TripPlannerState) : string :=
  if opt_str_truthy (error_message state) then "error"
  else if 70 <=? dict_get (itinerary_quality_score state) 0 then "success"
  else "needs_improvement".

Definition decide_after_finalization (state : TripPlannerState) : string :=
  "accepted".

Definition decide_after_feedback (state : TripPlannerState) : string :=
  let feedback := lower (dict_get (user_feedback state) "") in
  if any_in ["weather"; "rain"] feedback then "weather_recheck"
  else if any_in ["hotel"; "flight"] feedback then "new_search"
  else "regenerate".

(** *** [_calculate_itinerary_quality] *)
Definition _calculate_itinerary_quality
  (itinerary : string) (state : TripPlannerState) : Z :=
  if negb (str_truthy itinerary) then 0
  else
    let score := 50 in
    let score :=
      if (500 <? len itinerary)%nat then score + 20 else score in
    let score :=
      if any_in ["Day 1"; "Day 2"; "Morning"; "Afternoon"] itinerary
      then score + 20 else score in
    let score :=
      if all_in ["hotel"; "activities"; "restaurant"] itinerary
      then score + 10 else score in
    Z.min 100 score.

(** *** [_build_graph]

    The edges of the workflow: a node has either one successor
    ([add_edge]) or a routing function with the dict that maps its
    decision keys to successors ([add_conditional_edges]). *)

Definition END : string := "__end__".

Inductive Edge : Type :=
| Direct (target : string)
| Conditional (route : TripPlannerState -> string)
              (targets : list (string * string)).

Definition entry_point : string := "collect_user_input".

Definition edges : list (string * Edge) :=
  [ ("collect_user_input",
     Conditional decide_after_input_collection
       [("complete", "gather_travel_data");
        ("incomplete", "collect_user_input");
        ("error", "provide_alternatives")]);
    ("gather_travel_data",
     Conditional decide_after_data_collection
       [("weather_check", "analyze_weather");
        ("direct_planning", "search_flights");
        ("error", "provide_alternatives")]);
    ("analyze_weather",
     Conditional decide_after_weather_analysis
       [("favorable", "search_accommodations");
        ("unfavorable", "provide_alternatives");
        ("conditional", "search_flights")]);
    ("search_accommodations", Direct "search_flights");
    ("search_flights", Direct "generate_itinerary");
    ("generate_itinerary",
     Conditional decide_after_itinerary
       [("success", "finalize_recommendation");
        ("needs_improvement", "provide_alternatives");
        ("error", "provide_alternatives")]);
    ("finalize_recommendation",
     Conditional decide_after_finalization
       [("accepted", END);
        ("needs_revision", "handle_feedback");
        ("rejected", "provide_alternatives")]);
    ("handle_feedback",
     Conditional decide_after_feedback
       [("regenerate", "generate_itinerary");
        ("new_search", "gather_travel_data");
        ("weather_recheck", "analyze_weather")]);
    ("provide_alternatives", Direct "finalize_recommendation") ].

Fixpoint lookup {A : Type} (key : string) (l : list (string * A))
  : option A :=
  match l with
  | [] => None
  | (k, v) :: rest => if String.eqb key k then Some v else lookup key rest
  end.

(** The node that runs after [node] has left the state [state]. *)
Definition next_node (node : string) (state : TripPlannerState)
  : option string :=
  match lookup node edges with
  | Some (Direct target) => Some target
  | Some (Conditional route targets) => lookup (route state) targets
  | None => None
  end.

End TripPlanner.

(** ** Concrete inputs used by the examples below *)

Module Samples.

Import WeatherTool TravelTools TripPlanner.

(** A date parser that knows the two dates of the sample trip. *)
Definition sample_strptime (s : string) : string + Z :=
  if String.eqb s "2024-06-01" then inr 739038
  else if String.eqb s "2024-06-03" then inr 739040
  else inl "time data does not match format '%Y-%m-%d'".

(** A three-day forecast whose days score 80, 60 and 40. *)
Definition sample_basic_forecast : WeatherData :=
  {| wd_error := None;
     wd_city := Some "Bergen";
     wd_current_weather :=
       Some (mkObservation None (Some 15%Q) (Some "light rain") (Some 3%Q));
     wd_forecast :=
       Some [ mkObservation None (Some 15%Q) (Some "light rain") (Some 3%Q);
              mkObservation None (Some 15%Q) (Some "heavy rain") (Some 3%Q);
              mkObservation None (Some (-5)%Q) (Some "mist") (Some 30%Q) ];
     wd_weather_analysis := Some "Current weather in Bergen: 15 C, light rain. ";
     wd_viability_score := Some (PyInt 80);
     wd_viability_reason := Some "Good temperature; Light rain expected";
     wd_recommendations := Some ["Carry umbrella or raincoat"];
     wd_coordinates := Some (60.39%Q, 5.32%Q);
     wd_extended_analysis := None |}.

Definition sample_weather_data : WeatherData :=
  get_extended_weather_forecast sample_strptime sample_basic_forecast
    "2024-06-01" "2024-06-03".

(** The extended analysis of the sample bundle and its per-day entries,
    evaluated. *)
Definition sample_extended_analysis : ExtendedAnalysis :=
  Eval vm_compute in
    dict_get (wd_extended_analysis sample_weather_data)
             (mkExtendedAnalysis None None None None).

Definition sample_days : list DailyForecast :=
  Eval vm_compute in
    dict_get (ea_daily_forecasts sample_extended_analysis) [].

(** The state in which [analyze_weather] runs on the sample trip: the
    request facts merged with what [gather_travel_data] returned. *)
Definition sample_request : TripPlannerState :=
  {| destination := Some "Bergen";
     travel_dates := Some "2024-06-01 to 2024-06-03";
     user_feedback := None; current_step := None; requires_input := None;
     conversation_history := Some []; weather_data := None;
     weather_analysis := None; weather_viability := None;
     weather_score := None; itinerary := None;
     alternative_suggestions := None; itinerary_quality_score := None;
     error_message := None |}.

Definition sample_state : TripPlannerState :=
  merge sample_request
        (gather_travel_data_success sample_request sample_weather_data).

(** States that differ from the request in one key. *)
Definition with_feedback (text : string) : TripPlannerState :=
  merge sample_request
    (mkState None None (Some text) None None None None None None None None
             None None None).

Definition with_error (state : TripPlannerState) (msg : string)
  : TripPlannerState :=
  merge state
    (mkState None None None None None None None None None None None None
             None (Some msg)).

(** A bundle whose per-day entries are those of the sample trip, which
    score 80, 60 and 40, and whose stored scores are 10. *)
Definition sample_stale_bundle : WeatherData :=
  {| wd_error := None;
     wd_city := Some "Bergen";
     wd_current_weather := wd_current_weather sample_basic_forecast;
     wd_forecast := wd_forecast sample_basic_forecast;
     wd_weather_analysis := wd_weather_analysis sample_basic_forecast;
     wd_viability_score := Some (PyInt 10);
     wd_viability_reason := wd_viability_reason sample_basic_forecast;
     wd_recommendations := wd_recommendations sample_basic_forecast;
     wd_coordinates := wd_coordinates sample_basic_forecast;
     wd_extended_analysis :=
       Some {| ea_daily_forecasts := Some sample_days;
               ea_trip_duration := Some 3;
               ea_overall_trip_score := Some (PyInt 10);
               ea_overall_recommendation :=
                 Some (_get_overall_recommendation (PyInt 10)) |} |}.

(** [text * n] *)
Fixpoint repeat_string (text : string) (n : nat) : string :=
  match n with
  | O => ""
  | S n' => text ++ repeat_string text n'
  end.

(** An itinerary of 600 characters (601 bytes: the degree sign takes
    two) with a day marker and the three category keywords. *)
Definition sample_itinerary : string :=
  "Day 1: 15" ++ degree_sign
  ++ "C, check in at the hotel, activities in town, restaurant. "
  ++ repeat_string "." 532.

(** A text of 300 characters in 600 bytes. *)
Definition sample_degrees : string := repeat_string degree_sign 300.

End Samples.

(** ** agents/trip_planner.py: the remaining nodes and the run of the graph *)

Module Workflow.

Import WeatherTool TravelTools TripPlanner.

(** The dict [finalize_recommendation] stores under
    [final_recommendation]; the other nodes store a text there. *)
Record Recommendation : Type := mkRecommendation {
  rec_status : string;
  rec_itinerary : option string;
  rec_alternative_suggestions : list string;
  rec_quality_score : Z;
  rec_weather_analysis : option string;
  rec_hotel_options : list Listing;
  rec_flight_options : list Listing
}.

Inductive FinalRecommendation : Type :=
| RecommendationText (text : string)
| RecommendationSummary (recommendation : Recommendation).

(** The whole state of the planner: the keys of [TripPlannerState] above
    in [core], and the other keys the nodes and [plan_trip] read or
    write. *)
Record PlannerState : Type := mkPlannerState {
  core : TripPlannerState;
  duration : option Z;
  budget : option Q;
  preferences : option (list string);
  travel_type : option string;
  origin_city : option string;
  missing_information : option (list string);
  hotel_options : option (list Listing);
  attraction_options : option (list Listing);
  flight_options : option (list Listing);
  search_results : option (list Listing);
  final_recommendation : option FinalRecommendation;
  should_continue : option bool;
  max_iterations : option Z;
  current_iteration : option Z;
  retry_count : option Z
}.

(** The update that sets no key. *)
Definition no_update : PlannerState :=
  mkPlannerState empty_state None None None None None None None None None
                 None None None None None None.

(** An update that sets keys of [core] only. *)
Definition core_update (update : TripPlannerState) : PlannerState :=
  mkPlannerState update None None None None None None None None None
                 None None None None None None.

(** The graph merges the partial state a node returns into the running
    state, key by key. *)
Definition merge_state (state update : PlannerState) : PlannerState :=
  {| core := merge (core state) (core update);
     duration := override (duration state) (duration update);
     budget := override (budget state) (budget update);
     preferences := override (preferences state) (preferences update);
     travel_type := override (travel_type state) (travel_type update);
     origin_city := override (origin_city state) (origin_city update);
     missing_information :=
       override (missing_information state) (missing_information update);
     hotel_options := override (hotel_options state) (hotel_options update);
     attraction_options :=
       override (attraction_options state) (attraction_options update);
     flight_options :=
       override (flight_options state) (flight_options update);
     search_results :=
       override (search_results state) (search_results update);
     final_recommendation :=
       override (final_recommendation state) (final_recommendation update);
     should_continue :=
       override (should_continue state) (should_continue update);
     max_iterations :=
       override (max_iterations state) (max_iterations update);
     current_iteration :=
       override (current_iteration state) (current_iteration update);
     retry_count := override (retry_count state) (retry_count update) |}.

(** The update of [core] that sets [current_step] and
    [conversation_history], the two keys every node but the first
    returns. *)
Definition step_update
  (state : PlannerState) (step message : string) : TripPlannerState :=
  {| destination := None; travel_dates := None; user_feedback := None;
     current_step := Some step;
     requires_input := None;
     conversation_history := add_system_message (core state) message;
     weather_data := None; weather_analysis := None;
     weather_viability := None; weather_score := None; itinerary := None;
     alternative_suggestions := None; itinerary_quality_score := None;
     error_message := None |}.

(** Truthiness of an optional [int] and of an optional number. *)
Definition opt_int_truthy (o : option Z) : bool :=
  match o with Some z => negb (z =? 0) | None => false end.

Definition opt_num_truthy (o : option Q) : bool :=
  match o with Some q => negb (Qeq_bool q 0) | None => false end.

(** *** [collect_user_input] *)

(** [[field for field, value in current_state.items() if not value]] *)
Definition new_missing (state : PlannerState) : list string :=
  (if opt_str_truthy (destination (core state)) then [] else ["destination"])
  ++ (if opt_str_truthy (travel_dates (core state))
      then [] else ["travel_dates"])
  ++ (if opt_int_truthy (duration state) then [] else ["duration"])
  ++ (if opt_num_truthy (budget state) then [] else ["budget"]).

Definition collect_user_input (state : PlannerState) : PlannerState :=
  let missing_info := dict_get (missing_information state) [] in
  let new_missing := new_missing state in
  match new_missing, missing_info with
  | [], [] =>
    {| core :=
         {| destination := None; travel_dates := None;
            user_feedback := None;
            current_step := Some "data_collection";
            requires_input := Some false;
            conversation_history := None;
            weather_data := None; weather_analysis := None;
            weather_viability := None; weather_score := None;
            itinerary := None; alternative_suggestions := None;
            itinerary_quality_score := None; error_message := None |};
       duration := None; budget := None; preferences := None;
       travel_type := None; origin_city := None;
       missing_information := Some [];
       hotel_options := None; attraction_options := None;
       flight_options := None; search_results := None;
       final_recommendation := None; should_continue := None;
       max_iterations := None; current_iteration := None;
       retry_count := None |}
  | _ :: _, _ =>
    {| core :=
         {| destination := None; travel_dates := None;
            user_feedback := None;
            current_step := Some "input_collection";
            requires_input := Some true;
            conversation_history :=
              add_system_message (core state)
                ("Need information: " ++ join ", " new_missing);
            weather_data := None; weather_analysis := None;
            weather_viability := None; weather_score := None;
            itinerary := None; alternative_suggestions := None;
            itinerary_quality_score := None; error_message := None |};
       duration := None; budget := None; preferences := None;
       travel_type := None; origin_city := None;
       missing_information := Some new_missing;
       hotel_options := None; attraction_options := None;
       flight_options := None; search_results := None;
       final_recommendation := None; should_continue := None;
       max_iterations := None; current_iteration := None;
       retry_count := None |}
  | [], _ :: _ =>
    core_update
      {| destination := None; travel_dates := None; user_feedback := None;
         current_step := Some "data_collection";
         requires_input := Some false;
         conversation_history := None;
         weather_data := None; weather_analysis := None;
         weather_viability := None; weather_score := None;
         itinerary := None; alternative_suggestions := None;
         itinerary_quality_score := None; error_message := None |}
  end.

(** *** [search_accommodations], [search_flights] *)

Definition _is_within_budget (hotel : Listing) (budget : Q) : bool := true.

(** [settings.DEFAULT_BUDGET] *)
Definition DEFAULT_BUDGET : Q := 1000.

Definition len_text {A : Type} (l : list A) : string :=
  str_of_Z (Z.of_nat (List.length l)).

Definition search_accommodations (state : PlannerState) : PlannerState :=
  let hotels := dict_get (hotel_options state) [] in
  let budget := dict_get (budget state) DEFAULT_BUDGET in
  let filtered_hotels :=
    firstn 3
      (filter (fun hotel =>
                 negb (opt_str_truthy (listing_error hotel))
                 && _is_within_budget hotel budget)
              hotels) in
  {| core :=
       step_update state "flight_search"
         ("Found " ++ len_text filtered_hotels ++ " accommodation options");
     duration := None; budget := None; preferences := None;
     travel_type := None; origin_city := None; missing_information := None;
     hotel_options := Some filtered_hotels;
     attraction_options := None; flight_options := None;
     search_results := None; final_recommendation := None;
     should_continue := None; max_iterations := None;
     current_iteration := None; retry_count := None |}.

Definition search_flights (state : PlannerState) : PlannerState :=
  let flights := dict_get (flight_options state) [] in
  {| core :=
       step_update state "itinerary_generation"
         ("Found " ++ len_text flights ++ " flight options");
     duration := None; budget := None; preferences := None;
     travel_type := None; origin_city := None; missing_information := None;
     hotel_options := None; attraction_options := None;
     flight_options := Some flights;
     search_results := None; final_recommendation := None;
     should_continue := None; max_iterations := None;
     current_iteration := None; retry_count := None |}.

(** *** [finalize_recommendation] *)

Definition finalize_recommendation (state : PlannerState) : PlannerState :=
  let recommendation :=
    {| rec_status := "completed";
       rec_itinerary := itinerary (core state);
       rec_alternative_suggestions :=
         dict_get (alternative_suggestions (core state)) [];
       rec_quality_score :=
         dict_get (itinerary_quality_score (core state)) 0;
       rec_weather_analysis := weather_analysis (core state);
       rec_hotel_options := dict_get (hotel_options state) [];
       rec_flight_options := dict_get (flight_options state) [] |} in
  {| core :=
       {| destination := None; travel_dates := None; user_feedback := None;
          current_step := Some "completed";
          requires_input := Some false;
          conversation_history :=
            add_system_message (core state) "Recommendation finalized";
          weather_data := None; weather_analysis := None;
          weather_viability := None; weather_score := None;
          itinerary := None; alternative_suggestions := None;
          itinerary_quality_score := None; error_message := None |};
     duration := None; budget := None; preferences := None;
     travel_type := None; origin_city := None; missing_information := None;
     hotel_options := None; attraction_options := None;
     flight_options := None; search_results := None;
     final_recommendation := Some (RecommendationSummary recommendation);
     should_continue := Some false;
     max_iterations := None; current_iteration := None;
     retry_count := None |}.

Section WithServices.

(** The services of the nodes: those of [get_comprehensive_travel_data]
    and the two methods of [itinerary_chain], which catch every exception
    and so always return; [generate_itinerary_text state] is the text
    [itinerary_chain.generate_itinerary] returns for the arguments the
    node reads from [state]. *)
Variable float_repr : Q -> string.
Variable strptime : string -> string + Z.
Variable weather_requests :
  string -> GeoResponse * (string + Observation) * (string + list Observation).
Variable search_hotels : string -> Q -> list Listing.
Variable search_attractions : string -> list string -> list Listing.
Variable search_flights_tool :
  string -> string -> string -> Q -> string + FlightResult.
Variable search_travel_info : string -> string -> list Listing.
Variable generate_itinerary_text : PlannerState -> string.
Variable generate_alternative_suggestions :
  string -> string -> list string -> list string.

(** *** [gather_travel_data] *)
Definition gather_travel_data (state : PlannerState) : PlannerState :=
  let travel_data :=
    get_comprehensive_travel_data float_repr strptime weather_requests
      search_hotels search_attractions search_flights_tool
      search_travel_info
      (dict_get (destination (core state)) "")
      (dict_get (travel_dates (core state)) "")
      (dict_get (budget state) DEFAULT_BUDGET)
      (dict_get (preferences state) [])
      (dict_get (origin_city state) "New York") in
  match travel_data with
  | TravelSuccess weather_data weather_analysis _ hotel_options
                  attraction_options flight_options search_results _ =>
    let weather_viability := check_weather_viability weather_data in
    {| core :=
         {| destination := None; travel_dates := None;
            user_feedback := None;
            current_step := Some "weather_analysis";
            requires_input := None;
            conversation_history :=
              add_system_message (core state)
                "Travel data collected successfully";
            weather_data := Some weather_data;
            weather_analysis := Some weather_analysis;
            weather_viability := Some weather_viability;
            weather_score := None; itinerary := None;
            alternative_suggestions := None;
            itinerary_quality_score := None; error_message := None |};
       duration := None; budget := None; preferences := None;
       travel_type := None; origin_city := None;
       missing_information := None;
       hotel_options := Some hotel_options;
       attraction_options := Some attraction_options;
       flight_options := Some flight_options;
       search_results := Some search_results;
       final_recommendation := None; should_continue := None;
       max_iterations := None; current_iteration := None;
       retry_count := None |}
  | TravelError error =>
    core_update
      {| destination := None; travel_dates := None; user_feedback := None;
         current_step := Some "error_handling";
         requires_input := None;
         conversation_history :=
           add_system_message (core state)
             ("Data collection error: " ++ error);
         weather_data := None; weather_analysis := None;
         weather_viability := None; weather_score := None;
         itinerary := None; alternative_suggestions := None;
         itinerary_quality_score := None;
         error_message := Some error |}
  end.

(** *** [generate_itinerary] *)
Definition generate_itinerary (state : PlannerState) : PlannerState :=
  let itinerary := generate_itinerary_text state in
  let quality_score := _calculate_itinerary_quality itinerary (core state) in
  {| core :=
       {| destination := None; travel_dates := None; user_feedback := None;
          current_step := Some "finalization";
          requires_input := None;
          conversation_history :=
            add_system_message (core state)
              "Itinerary generated successfully";
          weather_data := None; weather_analysis := None;
          weather_viability := None; weather_score := None;
          itinerary := Some itinerary;
          alternative_suggestions := None;
          itinerary_quality_score := Some quality_score;
          error_message := None |};
     duration := None; budget := None; preferences := None;
     travel_type := None; origin_city := None; missing_information := None;
     hotel_options := None; attraction_options := None;
     flight_options := None; search_results := None;
     final_recommendation :=
       Some (RecommendationText
               ("Trip plan generated with quality score: "
                ++ str_of_Z quality_score ++ "/100"));
     should_continue := None; max_iterations := None;
     current_iteration := None; retry_count := None |}.

(** *** [provide_alternatives] *)
Definition provide_alternatives (state : PlannerState) : PlannerState :=
  let alternatives :=
    generate_alternative_suggestions
      (dict_get (destination (core state)) "")
      (dict_get (error_message (core state))
                "Planning constraints encountered")
      (dict_get (preferences state) []) in
  {| core :=
       {| destination := None; travel_dates := None; user_feedback := None;
          current_step := Some "finalization";
          requires_input := None;
          conversation_history :=
            add_system_message (core state)
              "Generated alternative suggestions";
          weather_data := None; weather_analysis := None;
          weather_viability := None; weather_score := None;
          itinerary := None;
          alternative_suggestions := Some alternatives;
          itinerary_quality_score := None; error_message := None |};
     duration := None; budget := None; preferences := None;
     travel_type := None; origin_city := None; missing_information := None;
     hotel_options := None; attraction_options := None;
     flight_options := None; search_results := None;
     final_recommendation :=
       Some (RecommendationText "Alternative travel suggestions provided");
     should_continue := None; max_iterations := None;
     current_iteration := None; retry_count := None |}.

(** *** The compiled graph and [plan_trip] *)

(** [add_node]: the function of each node. *)
Definition node_function (node : string)
  : option (PlannerState -> PlannerState) :=
  if String.eqb node "collect_user_input" then Some collect_user_input
  else if String.eqb node "gather_travel_data" then Some gather_travel_data
  else if String.eqb node "analyze_weather" then
    Some (fun state => core_update (analyze_weather float_repr (core state)))
  else if String.eqb node "search_accommodations" then
    Some search_accommodations
  else if String.eqb node "search_flights" then Some search_flights
  else if String.eqb node "generate_itinerary" then Some generate_itinerary
  else if String.eqb node "provide_alternatives" then
    Some provide_alternatives
  else if String.eqb node "finalize_recommendation" then
    Some finalize_recommendation
  else if String.eqb node "handle_feedback" then
    Some (fun state => core_update (handle_feedback (core state)))
  else None.

(** One step of the graph: run the node, merge what it returns, and pick
    the next node from the merged state. *)
Definition superstep (node : string) (state : PlannerState)
  : option (string * PlannerState) :=
  match node_function node with
  | None => None
  | Some run =>
    let state' := merge_state state (run state) in
    match next_node node (core state') with
    | Some next => Some (next, state')
    | None => None
    end
  end.

(** The run of the graph from [node] on, allowed [steps] steps: the
    final state, or [None] when the steps run out before the graph
    reaches [END] (the graph then raises its recursion error). *)
Fixpoint invoke_from (steps : nat) (node : string) (state : PlannerState)
  : option PlannerState :=
  if String.eqb node END then Some state
  else
    match steps with
    | O => None
    | S steps' =>
      match superstep node state with
      | Some (next, state') => invoke_from steps' next state'
      | None => None
      end
    end.

(** What the graph takes from the dict it is invoked on.  The graph is
    compiled from [StateGraph(TripPlannerState)] and holds the keys that
    [TripPlannerState] declares ([agents/state.py]); a key of the input
    that is not declared is not stored.  Of the keys of [PlannerState]
    the declaration lacks [origin_city] alone, so the value a caller
    passes under it reaches no node. *)
Definition graph_input (state : PlannerState) : PlannerState :=
  {| core := core state;
     duration := duration state;
     budget := budget state;
     preferences := preferences state;
     travel_type := travel_type state;
     origin_city := None;
     missing_information := missing_information state;
     hotel_options := hotel_options state;
     attraction_options := attraction_options state;
     flight_options := flight_options state;
     search_results := search_results state;
     final_recommendation := final_recommendation state;
     should_continue := should_continue state;
     max_iterations := max_iterations state;
     current_iteration := current_iteration state;
     retry_count := retry_count state |}.

(** [graph.invoke(state)] *)
Definition invoke (recursion_limit : nat) (state : PlannerState)
  : option PlannerState :=
  invoke_from recursion_limit entry_point (graph_input state).

(** [settings.MAX_ITERATIONS] *)
Definition MAX_ITERATIONS : Z := 10.

(** [plan_trip]; [recursion_limit] is the number of steps the graph
    allows and [recursion_error] the text of the error it raises when
    they run out. *)
Definition plan_trip
  (recursion_limit : nat) (recursion_error : string)
  (initial_state : PlannerState) : PlannerState :=
  let defaults :=
    {| core :=
         {| destination := None; travel_dates := None;
            user_feedback := None; current_step := None;
            requires_input := None;
            conversation_history := Some [];
            weather_data := None; weather_analysis := None;
            weather_viability := None; weather_score := None;
            itinerary := None; alternative_suggestions := None;
            itinerary_quality_score := None; error_message := None |};
       duration := None; budget := None; preferences := None;
       travel_type := None; origin_city := None;
       missing_information := Some [];
       hotel_options := None; attraction_options := None;
       flight_options := None; search_results := None;
       final_recommendation := None;
       should_continue := Some true;
       max_iterations := Some MAX_ITERATIONS;
       current_iteration := Some 0;
       retry_count := Some 0 |} in
  let state := merge_state defaults initial_state in
  match invoke recursion_limit state with
  | Some final_state => final_state
  | None =>
    {| core :=
         {| destination := None; travel_dates := None;
            user_feedback := None; current_step := None;
            requires_input := None;
            conversation_history :=
              add_system_message (core state)
                ("Planning process error: " ++ recursion_error);
            weather_data := None; weather_analysis := None;
            weather_viability := None; weather_score := None;
            itinerary := None; alternative_suggestions := None;
            itinerary_quality_score := None;
            error_message :=
              Some ("Trip planning failed: " ++ recursion_error) |};
       duration := None; budget := None; preferences := None;
       travel_type := None; origin_city := None;
       missing_information := None;
       hotel_options := None; attraction_options := None;
       flight_options := None; search_results := None;
       final_recommendation :=
         Some (RecommendationText
                 "Unable to generate travel plan. Please try again.");
       should_continue := None; max_iterations := None;
       current_iteration := None; retry_count := None |}
  end.

End WithServices.

End Workflow.

(** ** Concrete services and requests used by the examples below *)

Module WorkflowSamples.

Import WeatherTool TravelTools TripPlanner Samples Workflow.

Definition sample_float_repr (q : Q) : string := "?".

(** A weather provider that knows Bergen only. *)
Definition sample_weather_requests (city : string)
  : GeoResponse * (string + Observation) * (string + list Observation) :=
  if String.eqb city "Bergen" then
    (GeoOk 60.39 5.32,
     inr (mkObservation None (Some 15%Q) (Some "light rain") (Some 3%Q)),
     inr [ mkObservation None (Some 15%Q) (Some "light rain") (Some 3%Q);
           mkObservation None (Some 15%Q) (Some "heavy rain") (Some 3%Q);
           mkObservation None (Some (-5)%Q) (Some "mist") (Some 30%Q) ])
  else (GeoNotFound, inl "not requested", inl "not requested").

Definition sample_search_hotels (destination : string) (budget : Q)
  : list Listing :=
  [ mkListing None (Some "Harbour Hotel") (Some 120%Q);
    mkListing (Some "listing unavailable") (Some "Closed Inn") None;
    mkListing None (Some "Fjord Lodge") (Some 2500%Q);
    mkListing None (Some "City Hostel") (Some 40%Q);
    mkListing None (Some "Mountain Cabin") (Some 90%Q) ].

Definition sample_search_attractions
  (destination : string) (preferences : list string) : list Listing :=
  [ mkListing None (Some "Fish market") None ].

(** A flight search that fails on an empty origin. *)
Definition sample_search_flights
  (origin destination date : string) (budget : Q) : string + FlightResult :=
  if String.eqb origin "" then inl "list index out of range"
  else inr (mkFlightResult (Some "success")
              (Some [ mkListing None (Some "Morning flight") (Some 150%Q) ])).

(** A flight search whose result names the origin it was asked for. *)
Definition sample_search_flights_from
  (origin destination date : string) (budget : Q) : string + FlightResult :=
  inr (mkFlightResult (Some "success")
         (Some [ mkListing None (Some ("Flight from " ++ origin))
                           (Some 150%Q) ])).

Definition sample_search_travel_info (destination query_type : string)
  : list Listing := [].

Definition sample_generate_itinerary_text (state : PlannerState) : string :=
  sample_itinerary.

Definition sample_generate_alternative_suggestions
  (destination issue : string) (preferences : list string) : list string :=
  [ "Consider visiting " ++ destination ++ " during different dates";
    "Explore indoor activities and museums in " ++ destination;
    "Look for nearby destinations with better weather conditions" ].

(** A request with the four required fields. *)
Definition sample_trip_request : PlannerState :=
  {| core :=
       {| destination := Some "Bergen";
          travel_dates := Some "2024-06-01 to 2024-06-03";
          user_feedback := None; current_step := None;
          requires_input := None; conversation_history := None;
          weather_data := None; weather_analysis := None;
          weather_viability := None; weather_score := None;
          itinerary := None; alternative_suggestions := None;
          itinerary_quality_score := None; error_message := None |};
     duration := Some 3; budget := Some 1500%Q;
     preferences := Some ["hiking"]; travel_type := Some "leisure";
     origin_city := Some "Oslo"; missing_information := None;
     hotel_options := None; attraction_options := None;
     flight_options := None; search_results := None;
     final_recommendation := None; should_continue := None;
     max_iterations := None; current_iteration := None;
     retry_count := None |}.

(** The same request without a destination. *)
Definition sample_incomplete_request : PlannerState :=
  {| core :=
       {| destination := None;
          travel_dates := Some "2024-06-01 to 2024-06-03";
          user_feedback := None; current_step := None;
          requires_input := None; conversation_history := None;
          weather_data := None; weather_analysis := None;
          weather_viability := None; weather_score := None;
          itinerary := None; alternative_suggestions := None;
          itinerary_quality_score := None; error_message := None |};
     duration := Some 3; budget := Some 1500%Q;
     preferences := None; travel_type := None;
     origin_city := None; missing_information := None;
     hotel_options := None; attraction_options := None;
     flight_options := None; search_results := None;
     final_recommendation := None; should_continue := None;
     max_iterations := None; current_iteration := None;
     retry_count := None |}.

(** The planner over the sample services. *)
Definition sample_plan_trip (recursion_limit : nat)
  (initial_state : PlannerState) : PlannerState :=
  plan_trip sample_float_repr sample_strptime sample_weather_requests
    sample_search_hotels sample_search_attractions sample_search_flights
    sample_search_travel_info sample_generate_itinerary_text
    sample_generate_alternative_suggestions
    recursion_limit "Recursion limit reached" initial_state.

Definition sample_gather (state : PlannerState) : PlannerState :=
  gather_travel_data sample_float_repr sample_strptime
    sample_weather_requests sample_search_hotels sample_search_attractions
    sample_search_flights sample_search_travel_info state.

Definition sample_forecast_for (city start_date end_date : string)
  : WeatherData :=
  extended_weather_forecast_for sample_float_repr sample_strptime
    sample_weather_requests city start_date end_date.

Definition sample_travel_data_for
  (destination dates : string) (budget : Q) (preferences : list string)
  (origin_city : string) : TravelData :=
  get_comprehensive_travel_data sample_float_repr sample_strptime
    sample_weather_requests sample_search_hotels sample_search_attractions
    sample_search_flights sample_search_travel_info
    destination dates budget preferences origin_city.

End WorkflowSamples.

(** ** utils/helpers.py *)

Module Helpers.

Import TripPlanner Workflow.

(** The dict returned by [validate_user_input]. *)
Record Validation : Type := mkValidation {
  valid : bool;
  errors : list string
}.

(** [validate_user_input]; its argument is the dict the application then
    passes to [plan_trip]. *)
Definition validate_user_input (input_data : PlannerState) : Validation :=
  let errors : list string := [] in
  let errors :=
    if negb (opt_str_truthy (destination (core input_data)))
    then (errors ++ ["Destination is required"])%list else errors in
  let errors :=
    if negb (opt_str_truthy (travel_dates (core input_data)))
    then (errors ++ ["Travel dates are required"])%list else errors in
  let errors :=
    if negb (opt_int_truthy (duration input_data))
       || (dict_get (duration input_data) 0 <? 1)
    then (errors ++ ["Duration must be at least 1 day"])%list
    else errors in
  let errors :=
    if negb (opt_num_truthy (budget input_data))
       || Qlt_bool (dict_get (budget input_data) 0%Q) 50
    then (errors ++ ["Budget must be at least $50"])%list else errors in
  {| valid := (List.length errors =? 0)%nat; errors := errors |}.

End Helpers.

(** * Properties *)

Import WeatherTool TravelTools TripPlanner Samples.

(** ** Comparisons *)

Lemma Qlt_bool_true_iff (x y : Q) : Qlt_bool x y = true <-> (x < y)%Q.
Proof.
  unfold Qlt_bool. rewrite negb_true_iff.
  destruct (Qle_bool y x) eqn:E.
  - apply Qle_bool_iff in E. split; [discriminate | intro H].
    exfalso. apply (Qlt_not_le _ _ H E).
  - split; [intros _ | reflexivity].
    apply Qnot_le_lt. intro H. apply Qle_bool_iff in H. congruence.
Qed.

Lemma Qlt_bool_false_iff (x y : Q) : Qlt_bool x y = false <-> (y <= x)%Q.
Proof.
  unfold Qlt_bool. rewrite negb_false_iff. apply Qle_bool_iff.
Qed.

Lemma Qle_bool_false_iff (x y : Q) : Qle_bool x y = false <-> (y < x)%Q.
Proof.
  rewrite <- Qlt_bool_true_iff. unfold Qlt_bool.
  now rewrite negb_true_iff.
Qed.

(** Turn every boolean comparison in the context into its proposition. *)
Ltac reflect_comparisons :=
  repeat match goal with
  | H : Qlt_bool _ _ = true |- _ => apply Qlt_bool_true_iff in H
  | H : Qlt_bool _ _ = false |- _ => apply Qlt_bool_false_iff in H
  | H : Qle_bool _ _ = true |- _ => apply Qle_bool_iff in H
  | H : Qle_bool _ _ = false |- _ => apply Qle_bool_false_iff in H
  end.

(** ** The daily suitability score *)

(** C5, as the code evaluates it: at -5 degrees, "thunderstorm", wind 10
    the daily score is 10.  The temperature costs 40, the description
    contains "storm" and so falls in the first condition tier, which costs
    50, the wind costs nothing, and 10 needs no clamping. *)
Theorem daily_score_thunderstorm :
  _calculate_daily_suitability_score (-5) "thunderstorm" 10 0 = 10
  /\ temperature_adjustments (-5) 100 = 100 - 40
  /\ any_in ["storm"; "hurricane"; "tornado"] (lower "thunderstorm") = true
  /\ condition_adjustments (lower "thunderstorm") 60 = 60 - 50
  /\ wind_adjustments 10 10 = 10.
Proof. repeat split; vm_compute; reflexivity. Qed.

(** C5, the value the claim gives: the score at that input is not 0. *)
Lemma daily_score_thunderstorm_not_zero :
  _calculate_daily_suitability_score (-5) "thunderstorm" 10 0 <> 0.
Proof. vm_compute. discriminate. Qed.

(** C6, the claim as stated fails at both ends: a temperature of exactly 0
    or exactly 40 degrees lowers the score by 25, not by 40. *)
Lemma temperature_boundary_not_minus_40 :
  (0 <= 0)%Q /\ (40 >= 40)%Q
  /\ temperature_adjustments 0 100 - 100 = -25
  /\ temperature_adjustments 40 100 - 100 = -25
  /\ temperature_adjustments 0 100 - 100 <> -40
  /\ temperature_adjustments 40 100 - 100 <> -40.
Proof. repeat split; vm_compute; discriminate. Qed.

(** C6, amended: for every temperature [t] the temperature block changes
    the running score by -40 when t < 0 or t > 40, by -25 when
    0 <= t < 5 or 35 < t <= 40, by -15 when 5 <= t < 10 or 30 < t <= 35,
    by +10 when 18 <= t <= 28 and by 0 otherwise, that is when
    10 <= t < 18 or 28 < t <= 30. *)
Theorem temperature_adjustment_table (t : Q) (s : Z) :
  let adjustment := temperature_adjustments t s - s in
  ((t < 0 \/ 40 < t)%Q -> adjustment = -40)
  /\ ((0 <= t < 5 \/ 35 < t <= 40)%Q -> adjustment = -25)
  /\ ((5 <= t < 10 \/ 30 < t <= 35)%Q -> adjustment = -15)
  /\ ((18 <= t <= 28)%Q -> adjustment = 10)
  /\ ((10 <= t < 18 \/ 28 < t <= 30)%Q -> adjustment = 0).
Proof.
  cbv zeta. unfold temperature_adjustments.
  destruct (Qlt_bool t 0) eqn:E1, (Qlt_bool 40 t) eqn:E2,
           (Qlt_bool t 5) eqn:E3, (Qlt_bool 35 t) eqn:E4,
           (Qlt_bool t 10) eqn:E5, (Qlt_bool 30 t) eqn:E6,
           (Qle_bool 18 t) eqn:E7, (Qle_bool t 28) eqn:E8;
    cbn [orb andb]; reflect_comparisons;
    repeat split; intros H; try lia; exfalso; destruct H; lra.
Qed.

Lemma temperature_adjustment_table_witness :
  temperature_adjustments 0 100 - 100 = -25
  /\ temperature_adjustments 40 100 - 100 = -25
  /\ temperature_adjustments 7 100 - 100 = -15
  /\ temperature_adjustments 20 100 - 100 = 10
  /\ temperature_adjustments (-3) 100 - 100 = -40
  /\ temperature_adjustments 29 100 - 100 = 0.
Proof.
  refine (conj _ (conj _ (conj _ (conj _ (conj _ _))))).
  - apply (proj1 (proj2 (temperature_adjustment_table 0 100))). lra.
  - apply (proj1 (proj2 (temperature_adjustment_table 40 100))). lra.
  - apply (proj1 (proj2 (proj2 (temperature_adjustment_table 7 100)))). lra.
  - apply (proj1 (proj2 (proj2 (proj2
             (temperature_adjustment_table 20 100))))). lra.
  - apply (proj1 (temperature_adjustment_table (-3) 100)). lra.
  - apply (proj2 (proj2 (proj2 (proj2
             (temperature_adjustment_table 29 100))))). lra.
Defined.

(** The other two blocks, for reference: each changes the score by a
    constant of its table. *)
Lemma wind_adjustment_table (w : Q) (s : Z) :
  let adjustment := wind_adjustments w s - s in
  ((25 < w)%Q /\ adjustment = -20)
  \/ ((15 < w <= 25)%Q /\ adjustment = -10)
  \/ ((w <= 15)%Q /\ adjustment = 0).
Proof.
  cbv zeta. unfold wind_adjustments.
  destruct (Qlt_bool 25 w) eqn:E1; [left | destruct (Qlt_bool 15 w) eqn:E2;
    [right; left | right; right]]; reflect_comparisons;
    repeat split; try assumption; try lia; lra.
Qed.

Lemma condition_adjustment_values (d : string) (s : Z) :
  In (condition_adjustments d s - s) [-50; -40; -20; -30; 15; 5; 0].
Proof.
  unfold condition_adjustments.
  repeat match goal with
  | |- context [if ?b then _ else _] => destruct b
  end; cbn [In];
    repeat (first [left; lia | right]).
Qed.

(** C7: for every temperature, description and wind speed the daily score
    lies in [0, 100]; and the score is a function of these three inputs
    alone, the fourth parameter (the rain probability) has no effect on
    it. *)
Theorem daily_score_range_and_inputs :
  forall (t : Q) (d : string) (w : Q) (rain_prob : Q),
    0 <= _calculate_daily_suitability_score t d w rain_prob <= 100
    /\ forall rain_prob' : Q,
         _calculate_daily_suitability_score t d w rain_prob'
         = _calculate_daily_suitability_score t d w rain_prob.
Proof.
  intros t d w rain_prob. split.
  - unfold _calculate_daily_suitability_score. cbv zeta. lia.
  - intros rain_prob'. reflexivity.
Qed.

(** Two representations of the same rational temperature and wind speed
    give the same score. *)
#[local] Instance Qlt_bool_compat :
  Morphisms.Proper (Qeq ==> Qeq ==> eq) Qlt_bool.
Proof. intros x x' Hx y y' Hy. unfold Qlt_bool. now rewrite Hx, Hy. Qed.

Lemma daily_score_equal_rationals
  (t t' : Q) (d : string) (w w' : Q) (r r' : Q) :
  (t == t')%Q -> (w == w')%Q ->
  _calculate_daily_suitability_score t d w r
  = _calculate_daily_suitability_score t' d w' r'.
Proof.
  intros Ht Hw.
  unfold _calculate_daily_suitability_score, temperature_adjustments,
    wind_adjustments.
  repeat match goal with
  | |- context [Qlt_bool t ?y] =>
      rewrite (Qlt_bool_compat t t' Ht y y (Qeq_refl y))
  | |- context [Qlt_bool ?x t] =>
      rewrite (Qlt_bool_compat x x (Qeq_refl x) t t' Ht)
  | |- context [Qle_bool t ?y] =>
      rewrite (Qleb_comp t t' Ht y y (Qeq_refl y))
  | |- context [Qle_bool ?x t] =>
      rewrite (Qleb_comp x x (Qeq_refl x) t t' Ht)
  | |- context [Qlt_bool ?x w] =>
      rewrite (Qlt_bool_compat x x (Qeq_refl x) w w' Hw)
  end.
  reflexivity.
Qed.

(** ** The viability aggregator *)

Lemma num_ge_iff (a b : PyNum) :
  num_ge a b = true <-> (num_val b <= num_val a)%Q.
Proof. unfold num_ge. apply Qle_bool_iff. Qed.

Lemma num_lt_iff (a b : PyNum) :
  num_lt a b = true <-> (num_val a < num_val b)%Q.
Proof. unfold num_lt. apply Qlt_bool_true_iff. Qed.

Lemma num_lt_false_iff (a b : PyNum) :
  num_lt a b = false <-> (num_val b <= num_val a)%Q.
Proof. unfold num_lt. apply Qlt_bool_false_iff. Qed.

Lemma has_false_iff {A : Type} (o : option A) : has o = false <-> o = None.
Proof. destruct o; cbn; split; congruence. Qed.

Lemma sum_from (l : list Z) (a : Z) : fold_left Z.add l a = a + sum l.
Proof.
  unfold sum. revert a.
  induction l as [|x l IH]; intros a; cbn [fold_left].
  - lia.
  - rewrite (IH (a + x)), (IH (0 + x)). lia.
Qed.

Lemma sum_cons (x : Z) (l : list Z) : sum (x :: l) = x + sum l.
Proof. unfold sum at 1. cbn [fold_left]. rewrite sum_from. lia. Qed.

(** The score the aggregator reports when the bundle has no error marker:
    the guarded overall trip score, else the single-point score, else 50. *)
Lemma check_weather_viability_score (wd : WeatherData) :
  wd_error wd = None ->
  score (check_weather_viability wd)
  = match guarded_overall_trip_score
            (dict_get (wd_extended_analysis wd)
                      (mkExtendedAnalysis None None None None)) with
    | Some s => s
    | None => dict_get (wd_viability_score wd) (PyInt 50)
    end.
Proof.
  intros Herr. unfold check_weather_viability. rewrite Herr. cbn [has].
  destruct (guarded_overall_trip_score _); reflexivity.
Qed.

(** Verdict and warnings are computed from the reported score. *)
Lemma check_weather_viability_verdict (wd : WeatherData) :
  wd_error wd = None ->
  let r := check_weather_viability wd in
  viable r = num_ge (score r) (PyInt 40)
  /\ warnings r
     = if num_lt (score r) (PyInt 30)
       then ["Poor weather conditions expected"]
       else if num_lt (score r) (PyInt 50)
       then ["Moderate weather conditions"]
       else [].
Proof.
  intros Herr. cbv zeta. unfold check_weather_viability.
  rewrite Herr. cbn [has].
  destruct (guarded_overall_trip_score _) as [s|]; cbn [viable score warnings];
    split; try reflexivity;
    repeat match goal with
    | |- context [if ?b then _ else _] => destruct b
    end; reflexivity.
Qed.

(** An overall trip score stored in a bundle makes its extended analysis
    truthy, so the guarded read returns it. *)
Lemma guarded_overall_trip_score_some (ea : ExtendedAnalysis) (s : PyNum) :
  ea_overall_trip_score ea = Some s ->
  guarded_overall_trip_score ea = Some s.
Proof.
  intros H. unfold guarded_overall_trip_score, extended_analysis_truthy.
  rewrite H. cbn [has]. now rewrite !orb_true_r.
Qed.

Lemma guarded_overall_trip_score_none (ea : ExtendedAnalysis) :
  ea_overall_trip_score ea = None ->
  guarded_overall_trip_score ea = None.
Proof.
  intros H. unfold guarded_overall_trip_score. rewrite H.
  now destruct (extended_analysis_truthy ea).
Qed.

(** ** Rounding to a double *)

Lemma round_half_even_cases (x : Q) :
  round_half_even x = Qfloor x
  \/ (round_half_even x = Qfloor x + 1
      /\ (inject_Z (Qfloor x) + (1 # 2) <= x)%Q).
Proof.
  unfold round_half_even.
  destruct (x - inject_Z (Qfloor x) ?= 1 # 2)%Q eqn:E.
  - apply Qeq_alt in E. destruct (Z.even (Qfloor x)); [now left|].
    right. split; [reflexivity | lra].
  - now left.
  - apply Qgt_alt in E. right. split; [reflexivity | lra].
Qed.

Lemma round_half_even_floor (x : Q) :
  round_half_even x = Qfloor x -> (x <= inject_Z (Qfloor x) + (1 # 2))%Q.
Proof.
  unfold round_half_even.
  destruct (x - inject_Z (Qfloor x) ?= 1 # 2)%Q eqn:E.
  - apply Qeq_alt in E. intros _. lra.
  - apply Qlt_alt in E. intros _. lra.
  - intros H. lia.
Qed.

Lemma round_half_even_le (x : Q) (k : Z) :
  (x <= inject_Z k)%Q -> round_half_even x <= k.
Proof.
  intros Hx. pose proof (Qfloor_le x) as Hf.
  destruct (round_half_even_cases x) as [-> | [-> Hhalf]].
  - rewrite Zle_Qle. lra.
  - assert (inject_Z (Qfloor x) < inject_Z k)%Q as Hlt by lra.
    rewrite <- Zlt_Qlt in Hlt. lia.
Qed.

Lemma round_half_even_ge (x : Q) (k : Z) :
  (inject_Z k <= x)%Q -> k <= round_half_even x.
Proof.
  intros Hx. apply Qfloor_resp_le in Hx. rewrite Qfloor_Z in Hx.
  destruct (round_half_even_cases x) as [-> | [-> _]]; lia.
Qed.

Lemma round_half_even_near (x : Q) :
  (Qabs (inject_Z (round_half_even x) - x) <= 1 # 2)%Q.
Proof.
  apply Qabs_Qle_condition.
  pose proof (Qfloor_le x) as Hf. pose proof (Qlt_floor x) as Hc.
  rewrite inject_Z_plus in Hc.
  destruct (round_half_even_cases x) as [E | [E Hhalf]].
  - pose proof (round_half_even_floor x E) as Hle. rewrite E. split; lra.
  - rewrite E, inject_Z_plus. change (inject_Z 1) with 1%Q in *. split; lra.
Qed.

Lemma floor_log2_le (x : Q) (n : Z) :
  0 <= n -> (x < inject_Z (2 ^ (n + 1)))%Q -> floor_log2 x <= n.
Proof.
  intros Hn Hx. unfold floor_log2.
  destruct (Qle_bool 1 x) eqn:E.
  - apply Qle_bool_iff in E.
    assert (1 <= Qfloor x) as Hpos
      by (rewrite <- (Qfloor_Z 1); apply Qfloor_resp_le; exact E).
    assert (Qfloor x < 2 ^ (n + 1)) as Hlt.
    { rewrite Zlt_Qlt. apply Qle_lt_trans with x; [apply Qfloor_le | exact Hx]. }
    apply Z.log2_lt_pow2 in Hlt; lia.
  - pose proof (Z.log2_up_nonneg (Qceiling (/ x))). lia.
Qed.

Lemma ulp_exponent_le (x : Q) (n : Z) :
  0 <= n -> (x < inject_Z (2 ^ (n + 1)))%Q -> ulp_exponent x <= Z.max (-1074) (n - 52).
Proof.
  intros Hn Hx. unfold ulp_exponent.
  pose proof (floor_log2_le x n Hn Hx). lia.
Qed.

Lemma Qpower_2_pos (e : Z) : (0 < 2 ^ e)%Q.
Proof. apply Qpower_0_lt. reflexivity. Qed.

(** Below [2^53] the doubles are multiples of [2^e] for an [e <= 0]. *)
Lemma Qpower_2_nonpos (e : Z) :
  e <= 0 -> (2 ^ e == / inject_Z (2 ^ (- e)))%Q.
Proof.
  intros He. rewrite Zpower_Qpower by lia.
  change (inject_Z 2) with 2%Q. rewrite <- Qpower_opp.
  now rewrite Z.opp_involutive.
Qed.

(** An integer [k] is the multiple [k * 2^(-e)] of [2^e]. *)
Lemma inject_Z_scaled (k e : Z) :
  e <= 0 ->
  (inject_Z k / 2 ^ e == inject_Z (k * 2 ^ (- e)))%Q
  /\ (inject_Z (k * 2 ^ (- e)) * 2 ^ e == inject_Z k)%Q.
Proof.
  intros He. pose proof (Qpower_2_nonpos e He) as Hinv.
  assert (0 < 2 ^ (- e)) as Hp by (apply Z.pow_pos_nonneg; lia).
  assert (~ inject_Z (2 ^ (- e)) == 0)%Q as Hne.
  { change 0%Q with (inject_Z 0). rewrite inject_Z_injective. lia. }
  rewrite inject_Z_mult, Hinv. split; field; exact Hne.
Qed.

Lemma float_round_le (x : Q) (k : Z) :
  ulp_exponent (Qabs x) <= 0 ->
  (x <= inject_Z k)%Q -> (float_round x <= inject_Z k)%Q.
Proof.
  intros He Hx. unfold float_round.
  set (e := ulp_exponent (Qabs x)) in *.
  pose proof (Qpower_2_pos e) as Hpos.
  destruct (inject_Z_scaled k e He) as [Hdiv Hback].
  assert (round_half_even (x / 2 ^ e) <= k * 2 ^ (- e)) as Hr.
  { apply round_half_even_le. rewrite <- Hdiv.
    apply Qmult_le_compat_r; [exact Hx|].
    apply Qlt_le_weak, Qinv_lt_0_compat, Hpos. }
  rewrite Zle_Qle in Hr. rewrite <- Hback.
  apply Qmult_le_compat_r; [exact Hr | apply Qlt_le_weak; exact Hpos].
Qed.

Lemma float_round_ge (x : Q) (k : Z) :
  ulp_exponent (Qabs x) <= 0 ->
  (inject_Z k <= x)%Q -> (inject_Z k <= float_round x)%Q.
Proof.
  intros He Hx. unfold float_round.
  set (e := ulp_exponent (Qabs x)) in *.
  pose proof (Qpower_2_pos e) as Hpos.
  destruct (inject_Z_scaled k e He) as [Hdiv Hback].
  assert (k * 2 ^ (- e) <= round_half_even (x / 2 ^ e)) as Hr.
  { apply round_half_even_ge. rewrite <- Hdiv.
    apply Qmult_le_compat_r; [exact Hx|].
    apply Qlt_le_weak, Qinv_lt_0_compat, Hpos. }
  rewrite Zle_Qle in Hr. rewrite <- Hback.
  apply Qmult_le_compat_r; [exact Hr | apply Qlt_le_weak; exact Hpos].
Qed.

Lemma float_round_near (x : Q) :
  (Qabs (float_round x - x) <= (1 # 2) * 2 ^ ulp_exponent (Qabs x))%Q.
Proof.
  unfold float_round. set (e := ulp_exponent (Qabs x)).
  pose proof (Qpower_2_pos e) as Hpos.
  pose proof (round_half_even_near (x / 2 ^ e)) as Hn.
  apply Qabs_Qle_condition in Hn. apply Qabs_Qle_condition.
  set (r := inject_Z (round_half_even (x / 2 ^ e))) in *.
  assert (r * 2 ^ e - x == (r - x / 2 ^ e) * 2 ^ e)%Q as ->
    by (field; lra).
  set (d := (r - x / 2 ^ e)%Q) in *. set (p := (2 ^ e)%Q) in *.
  clearbody d p. destruct Hn as [H1 H2]. split; nra.
Qed.

(** The doubles around an [x] of magnitude below [2^(n+1)], where
    [0 <= n <= 52], are multiples of [2^(n-52)] at the coarsest. *)
Lemma ulp_exponent_below (x : Q) (n : Z) :
  0 <= n ->
  (Qabs x < inject_Z (2 ^ (n + 1)))%Q ->
  ulp_exponent (Qabs x) <= Z.max (-1074) (n - 52).
Proof. intros Hn Hx. apply ulp_exponent_le; assumption. Qed.

(** True division of an int between [0] and [100 * b] by [b]: the
    quotient stays between 0 and 100, is within [2^(-47)] of the exact
    quotient, and is exact when [b] divides [a]. *)
Lemma true_div_spec (a b : Z) :
  0 < b -> 0 <= a <= 100 * b ->
  let q := num_val (true_div a b) in
  (0 <= q <= 100)%Q
  /\ (Qabs (q - inject_Z a / inject_Z b) <= 2 ^ (-47))%Q
  /\ (forall m : Z, a = m * b -> (q == inject_Z m)%Q).
Proof.
  intros Hb [Hlo Hhi]. cbv zeta. unfold true_div. cbn [num_val].
  rewrite Qred_correct.
  set (x := (inject_Z a / inject_Z b)%Q).
  assert (HbQ : (0 < inject_Z b)%Q)
    by (change 0%Q with (inject_Z 0); rewrite <- Zlt_Qlt; exact Hb).
  assert (Hx0 : (inject_Z 0 <= x)%Q).
  { apply Qle_shift_div_l; [exact HbQ|].
    rewrite <- inject_Z_mult, <- Zle_Qle. lia. }
  assert (Hx100 : (x <= inject_Z 100)%Q).
  { apply Qle_shift_div_r; [exact HbQ|].
    rewrite <- inject_Z_mult, <- Zle_Qle. exact Hhi. }
  assert (He : ulp_exponent (Qabs x) <= -46).
  { apply (ulp_exponent_below x 6); [lia|].
    rewrite (Qabs_pos x Hx0).
    apply Qle_lt_trans with (inject_Z 100); [exact Hx100 | reflexivity]. }
  split; [|split].
  - split.
    + apply (float_round_ge x 0); [lia | exact Hx0].
    + apply (float_round_le x 100); [lia | exact Hx100].
  - apply Qle_trans with ((1 # 2) * 2 ^ ulp_exponent (Qabs x))%Q;
      [apply float_round_near|].
    apply Qle_trans with ((1 # 2) * 2 ^ (-46))%Q; [|vm_compute; discriminate].
    apply Qmult_le_l; [reflexivity|].
    apply Qpower_le_compat_l; [exact He | vm_compute; discriminate].
  - intros m Hm. rewrite Qred_correct.
    assert (Hxm : (x == inject_Z m)%Q).
    { unfold x. rewrite Hm, inject_Z_mult. field.
      intros H0. rewrite H0 in HbQ. discriminate HbQ. }
    apply Qle_antisym.
    + apply (float_round_le x m); [lia | rewrite Hxm; apply Qle_refl].
    + apply (float_round_ge x m); [lia | rewrite Hxm; apply Qle_refl].
Qed.

(** ** Bounds along the weather pipeline *)

Lemma sum_bounds (l : list Z) :
  (forall x, In x l -> 0 <= x <= 100) ->
  0 <= sum l <= 100 * Z.of_nat (List.length l).
Proof.
  induction l as [|x l IH]; intros H.
  - cbn. lia.
  - rewrite sum_cons. cbn [List.length]. rewrite Nat2Z.inj_succ.
    assert (Hx : 0 <= x <= 100) by (apply H; left; reflexivity).
    assert (Hl : 0 <= sum l <= 100 * Z.of_nat (List.length l))
      by (apply IH; intros y Hy; apply H; right; exact Hy).
    lia.
Qed.

(** The mean of scores between 0 and 100, as the code computes it. *)
Lemma mean_spec (l : list Z) :
  l <> [] ->
  (forall x, In x l -> 0 <= x <= 100) ->
  let q := num_val (mean l) in
  (0 <= q <= 100)%Q
  /\ (Qabs (q - inject_Z (sum l) / inject_Z (Z.of_nat (List.length l)))
      <= 2 ^ (-47))%Q
  /\ (forall m : Z,
        sum l = m * Z.of_nat (List.length l) -> (q == inject_Z m)%Q).
Proof.
  intros Hne H. unfold mean. apply true_div_spec.
  - destruct l; [congruence | cbn [List.length]; lia].
  - apply sum_bounds. exact H.
Qed.

Lemma mean_bounds (l : list Z) :
  l <> [] ->
  (forall x, In x l -> 0 <= x <= 100) ->
  (0 <= num_val (mean l) <= 100)%Q.
Proof. intros Hne H. exact (proj1 (mean_spec l Hne H)). Qed.

Lemma daily_score_bounds (t : Q) (d : string) (w r : Q) :
  0 <= _calculate_daily_suitability_score t d w r <= 100.
Proof. unfold _calculate_daily_suitability_score. cbv zeta. lia. Qed.

Lemma daily_entry_score_bounds
  (start_dt : Z) (current_weather : Observation)
  (forecast_data : list Observation) (day : nat) :
  0 <= df_suitability_score
         (daily_forecast_entry start_dt current_weather forecast_data day)
    <= 100.
Proof.
  unfold daily_forecast_entry. cbv zeta. cbn [df_suitability_score].
  apply daily_score_bounds.
Qed.

(** The bundle [get_extended_weather_forecast] builds when the basic
    forecast has no error and both dates parse. *)
Lemma get_extended_weather_forecast_success
  (strptime : string -> string + Z) (bf : WeatherData) (sd ed : string)
  (s e : Z) :
  wd_error bf = None -> strptime sd = inr s -> strptime ed = inr e ->
  let days :=
    map (daily_forecast_entry s
           (dict_get (wd_current_weather bf) empty_observation)
           (dict_get (wd_forecast bf) []))
        (seq 0 (Z.to_nat (e - s + 1))) in
  let overall :=
    match map df_suitability_score days with
    | _ :: _ => mean (map df_suitability_score days)
    | [] => dict_get (wd_viability_score bf) (PyInt 50)
    end in
  get_extended_weather_forecast strptime bf sd ed
  = {| wd_error := None;
       wd_city := wd_city bf;
       wd_current_weather := wd_current_weather bf;
       wd_forecast := wd_forecast bf;
       wd_weather_analysis := wd_weather_analysis bf;
       wd_viability_score := Some overall;
       wd_viability_reason := wd_viability_reason bf;
       wd_recommendations := wd_recommendations bf;
       wd_coordinates := wd_coordinates bf;
       wd_extended_analysis :=
         Some {| ea_daily_forecasts := Some days;
                 ea_trip_duration := Some (e - s + 1);
                 ea_overall_trip_score := Some overall;
                 ea_overall_recommendation :=
                   Some (_get_overall_recommendation overall) |} |}.
Proof.
  intros Herr Hs He. cbv zeta. unfold get_extended_weather_forecast.
  rewrite Herr, Hs, He. cbn [has]. reflexivity.
Qed.

(** What [get_extended_weather_forecast] returns when it does not fail:
    the analysis it attaches holds the per-day entries and, as the overall
    trip score, their mean when there is at least one day and the
    single-point score of the basic forecast (50 when it has none) when
    there is no day. *)
Lemma get_extended_weather_forecast_analysis
  (strptime : string -> string + Z) (bf : WeatherData) (sd ed : string) :
  let wd := get_extended_weather_forecast strptime bf sd ed in
  wd_error wd = None ->
  exists (ea : ExtendedAnalysis) (days : list DailyForecast),
    wd_extended_analysis wd = Some ea
    /\ ea_daily_forecasts ea = Some days
    /\ ea_overall_trip_score ea
       = Some match days with
              | _ :: _ => mean (map df_suitability_score days)
              | [] => dict_get (wd_viability_score bf) (PyInt 50)
              end.
Proof.
  cbv zeta. unfold get_extended_weather_forecast.
  destruct (has (wd_error bf)) eqn:Hbf.
  - intros Herr. destruct (wd_error bf); cbn in Hbf; congruence.
  - destruct (strptime sd) as [e|start_dt]; [cbn; discriminate|].
    destruct (strptime ed) as [e|end_dt]; [cbn; discriminate|].
    intros _. eexists. eexists.
    cbn [wd_extended_analysis ea_daily_forecasts ea_overall_trip_score].
    split; [reflexivity|]. split; [reflexivity|].
    destruct (map (daily_forecast_entry _ _ _) _) as [|d ds]; reflexivity.
Qed.

(** The three warning cases, by the rational the score denotes. *)
Lemma viability_warnings_cases (wd : WeatherData) :
  wd_error wd = None ->
  let r := check_weather_viability wd in
  ((num_val (score r) < 30)%Q
   /\ warnings r = ["Poor weather conditions expected"])
  \/ ((30 <= num_val (score r) < 50)%Q
      /\ warnings r = ["Moderate weather conditions"])
  \/ ((50 <= num_val (score r))%Q /\ warnings r = []).
Proof.
  intros Herr r.
  destruct (check_weather_viability_verdict wd Herr) as [_ Hw].
  fold r in Hw. rewrite Hw.
  destruct (num_lt (score r) (PyInt 30)) eqn:E30.
  - left. apply num_lt_iff in E30. split; [exact E30 | reflexivity].
  - apply num_lt_false_iff in E30.
    destruct (num_lt (score r) (PyInt 50)) eqn:E50.
    + right; left. apply num_lt_iff in E50.
      split; [split; [exact E30 | exact E50] | reflexivity].
    + right; right. apply num_lt_false_iff in E50.
      split; [exact E50 | reflexivity].
Qed.

(** The per-day scores of a bundle built by the extended forecast lie
    between 0 and 100. *)
Lemma daily_entries_score_bounds
  (start_dt : Z) (current_weather : Observation)
  (forecast_data : list Observation) (n : nat) (x : Z) :
  In x (map df_suitability_score
          (map (daily_forecast_entry start_dt current_weather forecast_data)
               (seq 0 n))) ->
  0 <= x <= 100.
Proof.
  intros Hx. apply in_map_iff in Hx. destruct Hx as (d & <- & Hd).
  apply in_map_iff in Hd. destruct Hd as (day & <- & _).
  apply daily_entry_score_bounds.
Qed.

(** C2, the claim as stated fails: the aggregator reads the stored
    overall trip score and never the per-day entries.  On the bundle
    without error marker whose days score 80, 60 and 40 and whose stored
    overall score is 10 it reports 10, not their mean 60. *)
Lemma aggregator_reports_stored_score :
  wd_error sample_stale_bundle = None
  /\ (exists ea : ExtendedAnalysis,
        wd_extended_analysis sample_stale_bundle = Some ea
        /\ option_map (map df_suitability_score) (ea_daily_forecasts ea)
           = Some [80; 60; 40])
  /\ num_val (mean [80; 60; 40]) = 60%Q
  /\ score (check_weather_viability sample_stale_bundle) = PyInt 10
  /\ ~ (num_val (score (check_weather_viability sample_stale_bundle))
        == 60)%Q.
Proof.
  split; [reflexivity|]. split.
  - eexists. split; reflexivity.
  - split; [vm_compute; reflexivity|].
    split; [reflexivity | vm_compute; discriminate].
Qed.

(** C2, amended: on a bundle without an error marker the aggregator
    reports the overall trip score stored in the extended analysis when
    one is stored, else the single-point viability score.  On the bundle
    that the extended forecast builds for a date range of at least one
    day, that stored score is the mean of the per-day suitability scores
    of the days of the range, as the true division [sum / len] gives it:
    the double nearest to the exact mean, within [2^(-47)] of it and
    equal to it when it is a whole number (60.0 for 80, 60 and 40); for an
    empty date range it is the single-point score of the basic forecast
    (50 when it has none).  The verdict is true exactly when the score is
    at least 40, the poor-conditions warning is present exactly when the
    score is below 30 and the moderate-conditions warning exactly when it
    is at least 30 and below 50. *)
Theorem viability_aggregator_rule :
  (forall (strptime : string -> string + Z) (bf : WeatherData)
          (sd ed : string) (s e : Z),
     wd_error bf = None -> strptime sd = inr s -> strptime ed = inr e ->
     s <= e ->
     let wd := get_extended_weather_forecast strptime bf sd ed in
     let days :=
       map (daily_forecast_entry s
              (dict_get (wd_current_weather bf) empty_observation)
              (dict_get (wd_forecast bf) []))
           (seq 0 (Z.to_nat (e - s + 1))) in
     let daily_scores := map df_suitability_score days in
     let r := check_weather_viability wd in
     wd_error wd = None
     /\ (exists ea : ExtendedAnalysis,
           wd_extended_analysis wd = Some ea
           /\ ea_daily_forecasts ea = Some days)
     /\ Z.of_nat (List.length days) = e - s + 1
     /\ score r
        = true_div (sum daily_scores) (Z.of_nat (List.length daily_scores))
     /\ (Qabs (num_val (score r)
               - inject_Z (sum daily_scores)
                 / inject_Z (Z.of_nat (List.length daily_scores)))
         <= 2 ^ (-47))%Q
     /\ (forall m : Z,
           sum daily_scores = m * Z.of_nat (List.length daily_scores) ->
           (num_val (score r) == inject_Z m)%Q))
  /\ (forall (strptime : string -> string + Z) (bf : WeatherData)
             (sd ed : string) (s e : Z),
        wd_error bf = None -> strptime sd = inr s -> strptime ed = inr e ->
        e < s ->
        score (check_weather_viability
                 (get_extended_weather_forecast strptime bf sd ed))
        = dict_get (wd_viability_score bf) (PyInt 50))
  /\ mean [80; 60; 40] = PyFloat 60
  /\ (forall wd : WeatherData,
        wd_error wd = None ->
        let r := check_weather_viability wd in
        (forall (ea : ExtendedAnalysis) (s : PyNum),
           wd_extended_analysis wd = Some ea ->
           ea_overall_trip_score ea = Some s ->
           score r = s)
        /\ ((forall ea : ExtendedAnalysis,
               wd_extended_analysis wd = Some ea ->
               ea_overall_trip_score ea = None) ->
            forall v : PyNum, wd_viability_score wd = Some v -> score r = v)
        /\ (viable r = true <-> (40 <= num_val (score r))%Q)
        /\ (In "Poor weather conditions expected" (warnings r)
            <-> (num_val (score r) < 30)%Q)
        /\ (In "Moderate weather conditions" (warnings r)
            <-> (30 <= num_val (score r) < 50)%Q)).
Proof.
  split; [|split; [|split]].
  - intros strptime bf sd ed s e Herr Hs He Hle.
    pose proof (get_extended_weather_forecast_success strptime bf sd ed s e
                  Herr Hs He) as Hwd.
    cbv zeta in Hwd |- *.
    set (current_weather :=
           dict_get (wd_current_weather bf) empty_observation) in *.
    set (forecast_data := dict_get (wd_forecast bf) []) in *.
    destruct (Z.to_nat (e - s + 1)) as [|n] eqn:Hn; [lia|].
    set (days := map (daily_forecast_entry s current_weather forecast_data)
                     (seq 0 (S n))) in *.
    assert (Hall : forall x, In x (map df_suitability_score days) ->
                             0 <= x <= 100)
      by (intros x; apply daily_entries_score_bounds).
    assert (Hne : map df_suitability_score days <> [])
      by (unfold days; cbn [seq map]; discriminate).
    assert (Hmean : match map df_suitability_score days with
                    | _ :: _ => mean (map df_suitability_score days)
                    | [] => dict_get (wd_viability_score bf) (PyInt 50)
                    end = mean (map df_suitability_score days))
      by (destruct (map df_suitability_score days); congruence).
    rewrite Hmean in Hwd. rewrite Hwd.
    split; [reflexivity|].
    split; [eexists; split; reflexivity|].
    split; [unfold days; rewrite length_map, length_seq; lia|].
    assert (Hscore :
              score (check_weather_viability
                       (get_extended_weather_forecast strptime bf sd ed))
              = mean (map df_suitability_score days)).
    { rewrite Hwd, check_weather_viability_score by reflexivity.
      cbn [wd_extended_analysis dict_get].
      erewrite guarded_overall_trip_score_some by reflexivity.
      reflexivity. }
    rewrite Hwd in Hscore. rewrite Hscore.
    destruct (mean_spec _ Hne Hall) as (_ & Hnear & Hexact).
    split; [reflexivity|]. split; [exact Hnear | exact Hexact].
  - intros strptime bf sd ed s e Herr Hs He Hlt.
    rewrite (get_extended_weather_forecast_success strptime bf sd ed s e
               Herr Hs He).
    cbv zeta. replace (Z.to_nat (e - s + 1)) with 0%nat by lia.
    cbn [seq map].
    rewrite check_weather_viability_score by reflexivity.
    cbn [wd_extended_analysis dict_get].
    erewrite guarded_overall_trip_score_some by reflexivity.
    reflexivity.
  - vm_compute. reflexivity.
  - intros wd Herr r.
    pose proof (check_weather_viability_score wd Herr) as Hs.
    destruct (check_weather_viability_verdict wd Herr) as [Hv _].
    fold r in Hs, Hv.
    split; [|split; [|split; [|split]]].
    + intros ea s Hea Hsome. rewrite Hs, Hea. cbn [dict_get].
      now rewrite (guarded_overall_trip_score_some ea s Hsome).
    + intros Hnone v Hv'. rewrite Hs.
      destruct (wd_extended_analysis wd) as [ea|] eqn:Hea; cbn [dict_get].
      * rewrite (guarded_overall_trip_score_none ea (Hnone ea eq_refl)).
        now rewrite Hv'.
      * cbn. now rewrite Hv'.
    + rewrite Hv. apply num_ge_iff.
    + destruct (viability_warnings_cases wd Herr) as [[Hq Hw']|[[Hq Hw']|[Hq Hw']]];
        fold r in Hq, Hw'; rewrite Hw'; cbn [In]; split.
      * intros _. exact Hq.
      * intros _. left. reflexivity.
      * intros [H|[]]. discriminate H.
      * intros H. lra.
      * intros [].
      * intros H. lra.
    + destruct (viability_warnings_cases wd Herr) as [[Hq Hw']|[[Hq Hw']|[Hq Hw']]];
        fold r in Hq, Hw'; rewrite Hw'; cbn [In]; split.
      * intros [H|[]]. discriminate H.
      * intros H. lra.
      * intros _. exact Hq.
      * intros _. left. reflexivity.
      * intros [].
      * intros H. lra.
Qed.

(** The sample trip, 1 to 3 June: three days, which score 80, 60 and 40,
    and the aggregator reports 60.0 and finds the trip viable. *)
Lemma viability_aggregator_rule_witness :
  let wd := sample_weather_data in
  let daily_scores := map df_suitability_score sample_days in
  let r := check_weather_viability wd in
  (wd_error wd = None
   /\ (exists ea : ExtendedAnalysis,
         wd_extended_analysis wd = Some ea
         /\ ea_daily_forecasts ea = Some sample_days)
   /\ Z.of_nat (List.length sample_days) = 739040 - 739038 + 1
   /\ score r
      = true_div (sum daily_scores) (Z.of_nat (List.length daily_scores))
   /\ (Qabs (num_val (score r)
             - inject_Z (sum daily_scores)
               / inject_Z (Z.of_nat (List.length daily_scores)))
       <= 2 ^ (-47))%Q
   /\ (forall m : Z,
         sum daily_scores = m * Z.of_nat (List.length daily_scores) ->
         (num_val (score r) == inject_Z m)%Q))
  /\ (viable r = true <-> (40 <= num_val (score r))%Q).
Proof.
  assert (Herr : wd_error sample_weather_data = None)
    by (vm_compute; reflexivity).
  assert (Hle : 739038 <= 739040) by lia.
  split.
  - exact (proj1 viability_aggregator_rule
             sample_strptime sample_basic_forecast
             "2024-06-01" "2024-06-03" 739038 739040
             eq_refl eq_refl eq_refl Hle).
  - exact (proj1 (proj2 (proj2
             (proj2 (proj2 (proj2 viability_aggregator_rule))
                    sample_weather_data Herr)))).
Defined.

(** On the sample trip the three days score 80, 60 and 40 and the
    aggregator reports their mean. *)
Lemma sample_trip_scores :
  wd_extended_analysis sample_weather_data = Some sample_extended_analysis
  /\ ea_daily_forecasts sample_extended_analysis = Some sample_days
  /\ map df_suitability_score sample_days = [80; 60; 40]
  /\ score (check_weather_viability sample_weather_data)
     = mean [80; 60; 40].
Proof. repeat split; vm_compute; reflexivity. Qed.

(** C3: a bundle that carries an error marker gets score 0, a false
    verdict and the reason that the weather data is unavailable. *)
Theorem viability_on_error (wd : WeatherData) :
  wd_error wd <> None ->
  let r := check_weather_viability wd in
  score r = PyInt 0
  /\ viable r = false
  /\ reason r = "Weather data unavailable"
  /\ contains "data unavailable" (reason r) = true.
Proof.
  intros Herr. cbv zeta. unfold check_weather_viability.
  destruct (wd_error wd) as [msg|]; [|congruence].
  cbn [has score viable reason]. repeat split.
Qed.

Lemma viability_on_error_witness :
  let r := check_weather_viability
             (error_weather_data "Could not find weather data for Atlantis") in
  score r = PyInt 0
  /\ viable r = false
  /\ reason r = "Weather data unavailable"
  /\ contains "data unavailable" (reason r) = true.
Proof.
  apply (viability_on_error
           (error_weather_data "Could not find weather data for Atlantis")).
  cbn. discriminate.
Defined.

(** C10, the claim as stated fails: the bundle with no keys at all gets
    the default score 50 and a true verdict, but no warning; 50 is not
    below 50. *)
Lemma default_score_has_no_warning :
  let r := check_weather_viability empty_weather_data in
  score r = PyInt 50
  /\ viable r = true
  /\ ~ In "Moderate weather conditions" (warnings r).
Proof.
  cbv zeta. split; [reflexivity | split; [reflexivity | ]].
  vm_compute. intros H. exact H.
Qed.

(** C10, amended: a bundle with no error marker, no overall trip score in
    an extended analysis and no single-point viability score gets the
    default score 50, a true verdict and no warning. *)
Theorem viability_default_score (wd : WeatherData) :
  wd_error wd = None ->
  (forall ea : ExtendedAnalysis,
     wd_extended_analysis wd = Some ea -> ea_overall_trip_score ea = None) ->
  wd_viability_score wd = None ->
  let r := check_weather_viability wd in
  score r = PyInt 50 /\ viable r = true /\ warnings r = [].
Proof.
  intros Herr Hea Hvs r.
  assert (Hs : score r = PyInt 50).
  { unfold r. rewrite (check_weather_viability_score wd Herr).
    destruct (wd_extended_analysis wd) as [ea|]; cbn [dict_get].
    - rewrite (guarded_overall_trip_score_none ea (Hea ea eq_refl)).
      now rewrite Hvs.
    - cbn. now rewrite Hvs. }
  destruct (check_weather_viability_verdict wd Herr) as [Hv Hw].
  fold r in Hv, Hw. rewrite Hs in Hv, Hw.
  repeat split; assumption.
Qed.

Lemma viability_default_score_witness :
  let r := check_weather_viability empty_weather_data in
  score r = PyInt 50 /\ viable r = true /\ warnings r = [].
Proof.
  apply (viability_default_score empty_weather_data).
  - reflexivity.
  - cbn. discriminate.
  - reflexivity.
Defined.

(** ** One canonical weather score *)

(** The aggregator and the consistent-score helper read the score the same
    way: they report the same number on every bundle. *)
Lemma consistent_score_agrees
  (float_repr : Q -> string) (wd : WeatherData) :
  cs_score (get_consistent_weather_score float_repr wd)
  = score (check_weather_viability wd).
Proof.
  unfold get_consistent_weather_score, check_weather_viability.
  destruct (has (wd_error wd)); [reflexivity|].
  destruct (guarded_overall_trip_score _); reflexivity.
Qed.

(** No modelled node writes the key [weather_score] that
    [analyze_weather] reads. *)
Lemma weather_score_never_written
  (float_repr : Q -> string) (state : TripPlannerState) (wd : WeatherData) :
  weather_score (gather_travel_data_success state wd) = None
  /\ weather_score (analyze_weather float_repr state) = None
  /\ weather_score (handle_feedback state) = None.
Proof.
  repeat split. unfold analyze_weather.
  destruct (viability_viable state); reflexivity.
Qed.

(** [analyze_weather] prints the number under [weather_score], whatever
    the weather bundle and the stored viability are. *)
Lemma analyze_weather_text
  (float_repr : Q -> string) (state : TripPlannerState) :
  weather_analysis (analyze_weather float_repr state)
  = Some (dict_get (weather_analysis state) ""
          ++ newline ++ "Weather Viability Score: "
          ++ py_str float_repr (dict_get (weather_score state) (PyInt 0))
          ++ "/100").
Proof.
  unfold analyze_weather, analyze_weather_displayed_score.
  destruct (viability_viable state); reflexivity.
Qed.

(** C1, the code at the sample trip: the bundle carries an extended
    analysis whose overall trip score is 60; the aggregator stores 60 as
    the viability score and the consistent-score helper reports the same
    number, but the analysis text that [analyze_weather] writes shows
    0/100, the default of a key that was never written. *)
Theorem analyze_weather_shows_another_score (float_repr : Q -> string) :
  weather_data sample_state = Some sample_weather_data
  /\ weather_viability sample_state
     = Some (check_weather_viability sample_weather_data)
  /\ (num_val (score (check_weather_viability sample_weather_data))
      == 60)%Q
  /\ cs_score (get_consistent_weather_score float_repr sample_weather_data)
     = score (check_weather_viability sample_weather_data)
  /\ analyze_weather_displayed_score sample_state = PyInt 0
  /\ weather_analysis (analyze_weather float_repr sample_state)
     = Some ("Current weather in Bergen: 15 C, light rain. "
             ++ newline ++ "Weather Viability Score: 0/100").
Proof.
  split; [reflexivity|].
  split; [reflexivity|].
  split; [vm_compute; reflexivity|].
  split; [apply consistent_score_agrees|].
  split; [reflexivity|].
  rewrite analyze_weather_text. reflexivity.
Qed.

(** ** Routing *)

(** C4, the claim as stated fails: with an error message set and the
    feedback "looks fine", the decision after feedback is "regenerate"
    and the next node is [generate_itinerary], not
    [provide_alternatives]. *)
Lemma feedback_routing_ignores_error :
  let state :=
    with_error (with_feedback "looks fine") "Data collection failed" in
  opt_str_truthy (error_message state) = true
  /\ decide_after_feedback state = "regenerate"
  /\ next_node "handle_feedback" state = Some "generate_itinerary"
  /\ next_node "handle_feedback" state <> Some "provide_alternatives".
Proof.
  cbv zeta. repeat split. vm_compute. discriminate.
Qed.

(** The decision after weather analysis does not read the error message
    either: on the sample trip, whose weather is viable, it stays
    "favorable" when an error message is set. *)
Lemma weather_routing_with_error :
  let state := with_error sample_state "Weather analysis error" in
  opt_str_truthy (error_message state) = true
  /\ decide_after_weather_analysis state = "favorable"
  /\ next_node "analyze_weather" state = Some "search_accommodations".
Proof. cbv zeta. repeat split; vm_compute; reflexivity. Qed.

(** The decision after feedback reads the feedback text only, and each of
    its keys leads to a planning node. *)
Lemma decide_after_feedback_targets (state : TripPlannerState) :
  In (next_node "handle_feedback" state)
     [Some "analyze_weather"; Some "gather_travel_data";
      Some "generate_itinerary"].
Proof.
  unfold next_node. cbn [lookup edges String.eqb Ascii.eqb Bool.eqb].
  unfold decide_after_feedback.
  destruct (any_in ["weather"; "rain"] _); [left; reflexivity|].
  destruct (any_in ["hotel"; "flight"] _);
    [right; left; reflexivity | right; right; left; reflexivity].
Qed.

(** C4, amended: when the error message is set (a non-empty text), the
    routing functions after input collection, after data gathering and
    after itinerary generation route to [provide_alternatives].  The
    decision after feedback has no failure key: it depends on the feedback
    text alone and selects [analyze_weather], [gather_travel_data] or
    [generate_itinerary]; the decision after finalization always
    accepts. *)
Theorem error_routes_to_alternatives (state : TripPlannerState) :
  opt_str_truthy (error_message state) = true ->
  next_node "collect_user_input" state = Some "provide_alternatives"
  /\ next_node "gather_travel_data" state = Some "provide_alternatives"
  /\ next_node "generate_itinerary" state = Some "provide_alternatives"
  /\ (forall state' : TripPlannerState,
        user_feedback state' = user_feedback state ->
        decide_after_feedback state' = decide_after_feedback state)
  /\ In (next_node "handle_feedback" state)
        [Some "analyze_weather"; Some "gather_travel_data";
         Some "generate_itinerary"]
  /\ next_node "finalize_recommendation" state = Some END.
Proof.
  intros Herr.
  split; [|split; [|split; [|split; [|split]]]].
  - unfold next_node. cbn [lookup edges String.eqb Ascii.eqb Bool.eqb].
    unfold decide_after_input_collection. rewrite Herr. reflexivity.
  - unfold next_node. cbn [lookup edges String.eqb Ascii.eqb Bool.eqb].
    unfold decide_after_data_collection. rewrite Herr. reflexivity.
  - unfold next_node. cbn [lookup edges String.eqb Ascii.eqb Bool.eqb].
    unfold decide_after_itinerary. rewrite Herr. reflexivity.
  - intros state' Hfb. unfold decide_after_feedback. now rewrite Hfb.
  - apply decide_after_feedback_targets.
  - reflexivity.
Qed.

Lemma error_routes_to_alternatives_witness :
  let state := with_error sample_state "Data collection failed" in
  next_node "collect_user_input" state = Some "provide_alternatives"
  /\ next_node "gather_travel_data" state = Some "provide_alternatives"
  /\ next_node "generate_itinerary" state = Some "provide_alternatives"
  /\ (forall state' : TripPlannerState,
        user_feedback state' = user_feedback state ->
        decide_after_feedback state' = decide_after_feedback state)
  /\ In (next_node "handle_feedback" state)
        [Some "analyze_weather"; Some "gather_travel_data";
         Some "generate_itinerary"]
  /\ next_node "finalize_recommendation" state = Some END.
Proof.
  apply (error_routes_to_alternatives
           (with_error sample_state "Data collection failed")).
  reflexivity.
Defined.

(** ** Feedback classification *)

(** The classification that the node [handle_feedback] announces follows
    the three keyword groups, first match first, on the lower-cased
    feedback. *)
Lemma handle_feedback_classification (state : TripPlannerState) :
  let feedback := lower (dict_get (user_feedback state) "") in
  let next_action := handle_feedback_next_action state in
  (any_in ["weather"; "rain"; "storm"] feedback = true ->
   next_action = "weather_recheck")
  /\ (any_in ["weather"; "rain"; "storm"] feedback = false ->
      any_in ["hotel"; "accommodation"; "stay"] feedback = true ->
      next_action = "new_search")
  /\ (any_in ["weather"; "rain"; "storm"] feedback = false ->
      any_in ["hotel"; "accommodation"; "stay"] feedback = false ->
      next_action = "regenerate")
  /\ current_step (handle_feedback state) = Some next_action.
Proof.
  cbv zeta. unfold handle_feedback_next_action.
  repeat split.
  - intros ->. reflexivity.
  - intros -> ->. reflexivity.
  - intros -> ->. now destruct (any_in ["itinerary"; "schedule"; "plan"] _).
Qed.

(** The three feedback texts of the specification are routed as it says,
    by the node and by the routing function alike. *)
Lemma feedback_examples :
  decide_after_feedback (with_feedback "the weather looks stormy")
  = "weather_recheck"
  /\ decide_after_feedback (with_feedback "need a different hotel")
     = "new_search"
  /\ decide_after_feedback (with_feedback "looks fine") = "regenerate"
  /\ handle_feedback_next_action (with_feedback "the weather looks stormy")
     = "weather_recheck"
  /\ handle_feedback_next_action (with_feedback "need a different hotel")
     = "new_search"
  /\ handle_feedback_next_action (with_feedback "looks fine") = "regenerate".
Proof. repeat split. Qed.

(** C9, the code where it departs from the claim: on the feedback
    "a storm is coming" the node [handle_feedback] announces
    "weather_recheck", as the claim says, but the routing function
    [decide_after_feedback], which lacks the keyword "storm", returns
    "regenerate" and the graph goes to [generate_itinerary].  Likewise
    "other accommodation please" is announced as "new_search" and routed
    to "regenerate". *)
Theorem feedback_router_departs_from_node :
  handle_feedback_next_action (with_feedback "a storm is coming")
  = "weather_recheck"
  /\ decide_after_feedback (with_feedback "a storm is coming") = "regenerate"
  /\ next_node "handle_feedback" (with_feedback "a storm is coming")
     = Some "generate_itinerary"
  /\ handle_feedback_next_action (with_feedback "other accommodation please")
     = "new_search"
  /\ decide_after_feedback (with_feedback "other accommodation please")
     = "regenerate"
  /\ next_node "handle_feedback" (with_feedback "other accommodation please")
     = Some "generate_itinerary".
Proof. repeat split. Qed.

(** The routing function in full: it scans for "weather" and "rain", then
    for "hotel" and "flight". *)
Lemma decide_after_feedback_classification (state : TripPlannerState) :
  let feedback := lower (dict_get (user_feedback state) "") in
  (any_in ["weather"; "rain"] feedback = true ->
   decide_after_feedback state = "weather_recheck")
  /\ (any_in ["weather"; "rain"] feedback = false ->
      any_in ["hotel"; "flight"] feedback = true ->
      decide_after_feedback state = "new_search")
  /\ (any_in ["weather"; "rain"] feedback = false ->
      any_in ["hotel"; "flight"] feedback = false ->
      decide_after_feedback state = "regenerate").
Proof.
  cbv zeta. unfold decide_after_feedback.
  repeat split.
  - intros ->. reflexivity.
  - intros -> ->. reflexivity.
  - intros -> ->. reflexivity.
Qed.

(** ** Itinerary quality *)

Lemma str_truthy_false_iff (s : string) : str_truthy s = false <-> s = "".
Proof. destruct s; cbn; split; congruence. Qed.

(** C8: the quality score of the empty text is 0; of any other text it is
    50, plus 20 when the text has more than 500 characters, plus 20 when
    it contains one of the markers "Day 1", "Day 2", "Morning",
    "Afternoon", plus 10 when it contains all of "hotel", "activities",
    "restaurant", capped at 100.  A text of 600 characters that contains
    "Day 1" and the three keywords scores 100.  The length is counted in
    characters: [len] of the text. *)
Theorem itinerary_quality_formula
  (itinerary : string) (state : TripPlannerState) :
  let quality := _calculate_itinerary_quality itinerary state in
  (itinerary = "" -> quality = 0)
  /\ (itinerary <> "" ->
      quality
      = Z.min 100
          (50
           + (if (500 <? len itinerary)%nat then 20 else 0)
           + (if any_in ["Day 1"; "Day 2"; "Morning"; "Afternoon"] itinerary
              then 20 else 0)
           + (if all_in ["hotel"; "activities"; "restaurant"] itinerary
              then 10 else 0)))
  /\ (len itinerary = 600%nat ->
      contains "Day 1" itinerary = true ->
      contains "hotel" itinerary = true ->
      contains "activities" itinerary = true ->
      contains "restaurant" itinerary = true ->
      quality = 100).
Proof.
  cbv zeta. unfold _calculate_itinerary_quality.
  split; [|split].
  - intros ->. reflexivity.
  - intros Hne.
    destruct (str_truthy itinerary) eqn:E;
      [|apply str_truthy_false_iff in E; contradiction].
    cbn [negb].
    destruct (500 <? len itinerary)%nat,
             (any_in ["Day 1"; "Day 2"; "Morning"; "Afternoon"] itinerary),
             (all_in ["hotel"; "activities"; "restaurant"] itinerary);
      reflexivity.
  - intros Hlen Hday Hhotel Hact Hrest.
    destruct (str_truthy itinerary) eqn:E;
      [|apply str_truthy_false_iff in E; rewrite E in Hlen; discriminate].
    cbn [negb]. rewrite Hlen.
    unfold any_in, all_in. cbn [existsb forallb].
    rewrite Hday, Hhotel, Hact, Hrest. reflexivity.
Qed.

(** The empty text; the sample itinerary, whose 600 characters take 601
    bytes; and a text of 300 characters in 600 bytes, which gets nothing
    for its length. *)
Lemma itinerary_quality_formula_witness :
  _calculate_itinerary_quality "" sample_state = 0
  /\ (len sample_itinerary = 600%nat
      /\ String.length sample_itinerary = 601%nat
      /\ _calculate_itinerary_quality sample_itinerary sample_state = 100)
  /\ (len sample_degrees = 300%nat
      /\ String.length sample_degrees = 600%nat
      /\ _calculate_itinerary_quality sample_degrees sample_state = 50).
Proof.
  assert (Hlen : len sample_itinerary = 600%nat) by (vm_compute; reflexivity).
  assert (Hne : sample_degrees <> "") by (vm_compute; discriminate).
  assert (Hformula :
            Z.min 100
              (50
               + (if (500 <? len sample_degrees)%nat then 20 else 0)
               + (if any_in ["Day 1"; "Day 2"; "Morning"; "Afternoon"]
                            sample_degrees
                  then 20 else 0)
               + (if all_in ["hotel"; "activities"; "restaurant"]
                            sample_degrees
                  then 10 else 0)) = 50)
    by (vm_compute; reflexivity).
  split; [|split].
  - apply (proj1 (itinerary_quality_formula "" sample_state)). reflexivity.
  - split; [exact Hlen|]. split; [vm_compute; reflexivity|].
    apply (proj2 (proj2
             (itinerary_quality_formula sample_itinerary sample_state)));
      vm_compute; reflexivity.
  - split; [vm_compute; reflexivity|]. split; [vm_compute; reflexivity|].
    rewrite <- Hformula.
    exact (proj1 (proj2
             (itinerary_quality_formula sample_degrees sample_state)) Hne).
Defined.

(** * Further properties of the weather tool *)

(** ** Wind in the daily score *)

(** X1: a stronger wind never raises the daily suitability score. *)
Theorem daily_score_wind_monotone
  (t : Q) (d : string) (w w' : Q) (rain_prob : Q) :
  (w <= w')%Q ->
  _calculate_daily_suitability_score t d w' rain_prob
  <= _calculate_daily_suitability_score t d w rain_prob.
Proof.
  intros Hw. unfold _calculate_daily_suitability_score. cbv zeta.
  set (s := condition_adjustments _ _). unfold wind_adjustments.
  destruct (Qlt_bool 25 w) eqn:E1, (Qlt_bool 15 w) eqn:E2,
           (Qlt_bool 25 w') eqn:E3, (Qlt_bool 15 w') eqn:E4;
    reflect_comparisons; try lia; exfalso; lra.
Qed.

Lemma daily_score_wind_monotone_witness :
  _calculate_daily_suitability_score 20 "clear sky" 30 0
  <= _calculate_daily_suitability_score 20 "clear sky" 12 0.
Proof.
  apply (daily_score_wind_monotone 20 "clear sky" 12 30 0). lra.
Defined.

(** ** The single-point viability score *)

(** The single-point score as a function of the wind speed alone: a base
    that the temperature and the description fix, the wind penalty, and
    the clamp. *)
Lemma viability_score_by_wind
  (temp : option Q) (description : option string)
  (forecast : list Observation) :
  exists base : Z,
    forall wind : option Q,
      vs_score (_calculate_viability_score
                  (mkObservation None temp description wind) forecast)
      = Z.max 0 (Z.min 100
          (base + (if Qlt_bool 20 (dict_get wind 0%Q) then -15
                   else if Qlt_bool 15 (dict_get wind 0%Q) then -5
                   else 0))).
Proof.
  unfold _calculate_viability_score.
  cbn [has obs_error obs_temperature obs_description obs_wind_speed].
  repeat match goal with
  | |- context [if ?b then _ else _] =>
      lazymatch b with
      | context [Qlt_bool 20 _] => fail
      | context [Qlt_bool 15 _] => fail
      | _ => destruct b
      end
  end;
  (eexists; intros wind;
   destruct (Qlt_bool 20 (dict_get wind 0%Q));
   [|destruct (Qlt_bool 15 (dict_get wind 0%Q))];
   reflexivity).
Qed.

Lemma single_point_score_range
  (current_weather : Observation) (forecast : list Observation) :
  0 <= vs_score (_calculate_viability_score current_weather forecast) <= 100.
Proof.
  destruct current_weather as [err temp description wind].
  destruct err as [e|].
  - cbn. lia.
  - destruct (viability_score_by_wind temp description forecast)
      as [base Hbase].
    rewrite (Hbase wind). lia.
Qed.

(** X2: the single-point score lies between 0 and 100; it is 0, with the
    reason that the data is unavailable, when the current-weather dict
    carries an error; and a stronger wind never raises it. *)
Theorem single_point_score_properties :
  (forall (current_weather : Observation) (forecast : list Observation),
     let r := _calculate_viability_score current_weather forecast in
     0 <= vs_score r <= 100
     /\ (obs_error current_weather <> None ->
         vs_score r = 0
         /\ vs_reason r = "Weather data unavailable"
         /\ vs_recommendations r = []))
  /\ (forall (temp : option Q) (description : option string) (w w' : Q)
             (forecast : list Observation),
        (w <= w')%Q ->
        vs_score (_calculate_viability_score
                    (mkObservation None temp description (Some w')) forecast)
        <= vs_score (_calculate_viability_score
                       (mkObservation None temp description (Some w))
                       forecast)).
Proof.
  split.
  - intros [err temp description wind] forecast r. split.
    + apply single_point_score_range.
    + intros Herr. destruct err as [e|]; [|cbn in Herr; congruence].
      cbn. repeat split.
  - intros temp description w w' forecast Hw.
    destruct (viability_score_by_wind temp description forecast)
      as [base Hbase].
    rewrite (Hbase (Some w)), (Hbase (Some w')). cbn [dict_get].
    destruct (Qlt_bool 20 w) eqn:E1, (Qlt_bool 15 w) eqn:E2,
             (Qlt_bool 20 w') eqn:E3, (Qlt_bool 15 w') eqn:E4;
      reflect_comparisons; try lia; exfalso; lra.
Qed.

Lemma single_point_score_properties_witness :
  (let r := _calculate_viability_score
              (mkObservation (Some "Could not fetch current weather")
                             None None None) [] in
   vs_score r = 0
   /\ vs_reason r = "Weather data unavailable"
   /\ vs_recommendations r = [])
  /\ vs_score (_calculate_viability_score
                 (mkObservation None (Some 8%Q) (Some "light rain")
                                (Some 22%Q)) [])
     <= vs_score (_calculate_viability_score
                    (mkObservation None (Some 8%Q) (Some "light rain")
                                   (Some 4%Q)) []).
Proof.
  split.
  - apply (proj1 single_point_score_properties
             (mkObservation (Some "Could not fetch current weather")
                            None None None) []).
    cbn. discriminate.
  - apply (proj2 single_point_score_properties
             (Some 8%Q) (Some "light rain") 4%Q 22%Q []).
    lra.
Defined.

(** X3: the single-point score issues its storm warning exactly when the
    lower-cased description mentions "storm" or "thunder" and none of
    the keywords of the four groups tested before it; a description that
    also mentions rain is scored as rain. *)
Theorem storm_warning_iff
  (current_weather : Observation) (forecast : list Observation) :
  obs_error current_weather = None ->
  let description := lower (dict_get (obs_description current_weather) "") in
  In "Consider rescheduling - storm warning"
     (vs_recommendations
        (_calculate_viability_score current_weather forecast))
  <-> any_in ["storm"; "thunder"] description = true
      /\ any_in ["clear"; "sunny"; "fair"] description = false
      /\ any_in ["cloud"; "overcast"] description = false
      /\ any_in ["drizzle"; "light rain"] description = false
      /\ any_in ["rain"; "shower"] description = false.
Proof.
  intros Herr. cbv zeta. unfold _calculate_viability_score.
  rewrite Herr. cbn [has].
  set (description := lower _).
  destruct (any_in ["clear"; "sunny"; "fair"] description),
           (any_in ["cloud"; "overcast"] description),
           (any_in ["drizzle"; "light rain"] description),
           (any_in ["rain"; "shower"] description),
           (any_in ["storm"; "thunder"] description);
    repeat match goal with
    | |- context [if ?b then _ else _] => destruct b
    end;
    cbn; split;
    try (intros H; decompose [and] H; discriminate);
    try (intros H; repeat (destruct H as [H|H]; try discriminate H);
         contradiction);
    try (intros _; repeat split; reflexivity);
    try (intros _; tauto).
Qed.

Lemma storm_warning_iff_witness :
  (In "Consider rescheduling - storm warning"
      (vs_recommendations
         (_calculate_viability_score
            (mkObservation None (Some 20%Q)
                           (Some "Thunderstorm with heavy rain") (Some 3%Q))
            []))
   <-> any_in ["storm"; "thunder"] "thunderstorm with heavy rain" = true
       /\ any_in ["clear"; "sunny"; "fair"] "thunderstorm with heavy rain"
          = false
       /\ any_in ["cloud"; "overcast"] "thunderstorm with heavy rain" = false
       /\ any_in ["drizzle"; "light rain"] "thunderstorm with heavy rain"
          = false
       /\ any_in ["rain"; "shower"] "thunderstorm with heavy rain" = false).
Proof.
  apply (storm_warning_iff
           (mkObservation None (Some 20%Q)
                          (Some "Thunderstorm with heavy rain") (Some 3%Q))
           []).
  reflexivity.
Defined.

(** ** The basic forecast *)

Lemma string_app_assoc (a b c : string) : (a ++ b) ++ c = a ++ (b ++ c).
Proof. induction a as [|x a IH]; cbn; [reflexivity | now rewrite IH]. Qed.

(** A basic forecast without an error marker comes from three requests
    that all answered and a current-weather dict with a temperature and a
    description. *)
Lemma get_weather_forecast_success_inv
  (float_repr : Q -> string) (city : string) (geo_response : GeoResponse)
  (current_weather_call : string + Observation)
  (forecast_call : string + list Observation) :
  wd_error (get_weather_forecast float_repr city geo_response
              current_weather_call forecast_call) = None ->
  exists lat lon current_weather forecast temp description,
    geo_response = GeoOk lat lon
    /\ current_weather_call = inr current_weather
    /\ forecast_call = inr forecast
    /\ obs_temperature current_weather = Some temp
    /\ obs_description current_weather = Some description.
Proof.
  unfold get_weather_forecast, analyze_weather_conditions.
  cbn [wd_error wd_current_weather wd_city wd_viability_score lookup_key].
  destruct geo_response as [lat lon| |e]; [|discriminate..].
  destruct current_weather_call as [e|cw]; [discriminate|].
  destruct forecast_call as [e|fc]; [discriminate|].
  destruct (obs_temperature cw) as [temp|] eqn:Ht; cbn [lookup_key];
    [|discriminate].
  destruct (obs_description cw) as [description|] eqn:Hd; cbn [lookup_key];
    [|discriminate].
  intros _. exists lat, lon, cw, fc, temp, description.
  repeat split; assumption.
Qed.

(** X4: [get_weather_forecast] succeeds exactly when the geocoding
    request answers with coordinates, neither of the two weather requests
    raises, and the current-weather dict has a temperature and a
    description; every other outcome, among them a current-weather dict
    that only carries an error, gives a bundle that holds the error
    marker and nothing else.  On success the bundle holds a single-point
    score between 0 and 100 and no extended analysis. *)
Theorem get_weather_forecast_outcome
  (float_repr : Q -> string) (city : string) (geo_response : GeoResponse)
  (current_weather_call : string + Observation)
  (forecast_call : string + list Observation) :
  let wd := get_weather_forecast float_repr city geo_response
              current_weather_call forecast_call in
  (wd_error wd = None
   <-> exists lat lon current_weather forecast temp description,
         geo_response = GeoOk lat lon
         /\ current_weather_call = inr current_weather
         /\ forecast_call = inr forecast
         /\ obs_temperature current_weather = Some temp
         /\ obs_description current_weather = Some description)
  /\ (wd_error wd = None ->
      exists z : Z,
        wd_viability_score wd = Some (PyInt z)
        /\ 0 <= z <= 100
        /\ wd_extended_analysis wd = None)
  /\ (forall msg : string,
        wd_error wd = Some msg -> wd = error_weather_data msg).
Proof.
  cbv zeta. unfold get_weather_forecast, analyze_weather_conditions.
  cbn [wd_error wd_current_weather wd_city wd_viability_score lookup_key].
  destruct geo_response as [lat lon| |e];
    [|split; [split; [discriminate | intros (?&?&?&?&?&?&H&_); discriminate]
             |split; [discriminate | intros msg H; now injection H as <-]]..].
  destruct current_weather_call as [e|cw];
    [split; [split; [discriminate | intros (?&?&?&?&?&?&_&H&_); discriminate]
            |split; [discriminate | intros msg H; now injection H as <-]]|].
  destruct forecast_call as [e|fc];
    [split; [split; [discriminate | intros (?&?&?&?&?&?&_&_&H&_); discriminate]
            |split; [discriminate | intros msg H; now injection H as <-]]|].
  destruct (obs_temperature cw) as [temp|] eqn:Ht; cbn [lookup_key];
    [|split; [split; [discriminate
                     | intros (?&?&c&?&?&?&_&H&_&H'&_);
                       injection H as <-; congruence]
             |split; [discriminate | intros msg H; now injection H as <-]]].
  destruct (obs_description cw) as [description|] eqn:Hd; cbn [lookup_key];
    [|split; [split; [discriminate
                     | intros (?&?&c&?&?&?&_&H&_&_&H');
                       injection H as <-; congruence]
             |split; [discriminate | intros msg H; now injection H as <-]]].
  cbn [wd_error wd_viability_score wd_extended_analysis].
  split; [split; [intros _ | reflexivity] | split].
  - exists lat, lon, cw, fc, temp, description. repeat split; assumption.
  - intros _. exists (vs_score (_calculate_viability_score cw fc)).
    split; [reflexivity | split; [|reflexivity]].
    apply single_point_score_range.
  - discriminate.
Qed.

(** The current-weather dict of a failed request makes the whole
    forecast an error bundle, whatever the other two requests return. *)
Lemma get_weather_forecast_outcome_witness :
  let wd := get_weather_forecast (fun _ => "?") "Bergen" (GeoOk 60.39 5.32)
              (inr (mkObservation (Some "Could not fetch current weather")
                                  None None None))
              (inr []) in
  wd = error_weather_data "Weather API error: 'temperature'".
Proof.
  apply (proj2 (proj2 (get_weather_forecast_outcome
                         (fun _ => "?") "Bergen" (GeoOk 60.39 5.32)
                         (inr (mkObservation
                                 (Some "Could not fetch current weather")
                                 None None None))
                         (inr [])))).
  reflexivity.
Defined.

(** X5: the analysis text of a successful basic forecast always reports
    the viability score as 50/100 with the "Fair conditions" remark: the
    text is written before the score is computed, from a dict that has no
    score.  The score stored beside it is the single-point score. *)
Theorem forecast_analysis_reports_default_score
  (float_repr : Q -> string) (city : string) (geo_response : GeoResponse)
  (current_weather_call : string + Observation)
  (forecast_call : string + list Observation) :
  let wd := get_weather_forecast float_repr city geo_response
              current_weather_call forecast_call in
  wd_error wd = None ->
  exists (current_weather : Observation) (forecast : list Observation)
         (temp : Q) (description rest : string),
    current_weather_call = inr current_weather
    /\ forecast_call = inr forecast
    /\ obs_temperature current_weather = Some temp
    /\ obs_description current_weather = Some description
    /\ wd_weather_analysis wd
       = Some ("Current weather in " ++ city ++ ": " ++ float_repr temp
               ++ degree_sign ++ "C, " ++ description ++ ". "
               ++ "Weather viability score: 50/100. "
               ++ "Fair conditions - some adjustments needed. " ++ rest)
    /\ wd_viability_score wd
       = Some (PyInt (vs_score
                        (_calculate_viability_score current_weather
                                                    forecast))).
Proof.
  cbv zeta. intros Herr.
  destruct (get_weather_forecast_success_inv float_repr city geo_response
              current_weather_call forecast_call Herr)
    as (lat & lon & cw & fc & temp & description & -> & -> & -> & Ht & Hd).
  exists cw, fc, temp, description.
  unfold get_weather_forecast, analyze_weather_conditions.
  cbn [wd_error wd_current_weather wd_city wd_viability_score lookup_key].
  rewrite Ht, Hd. cbn [lookup_key dict_get].
  change (py_str float_repr (PyInt 50)) with "50".
  change (num_ge (PyInt 50) (PyInt 80)) with false.
  change (num_ge (PyInt 50) (PyInt 60)) with false.
  change (num_ge (PyInt 50) (PyInt 40)) with true.
  cbn [wd_weather_analysis wd_viability_score].
  destruct (Qlt_bool 30 temp); [|destruct (Qlt_bool temp 10)];
    destruct (contains "rain" (lower description));
    destruct (contains "wind" (lower description) || _);
    eexists; (split; [reflexivity|]); (split; [reflexivity|]);
    (split; [reflexivity|]); (split; [reflexivity|]);
    (split; [|reflexivity]);
    f_equal; rewrite !string_app_assoc; cbn [append];
    repeat (f_equal; try reflexivity); rewrite ?string_app_assoc;
    reflexivity.
Qed.

Lemma forecast_analysis_reports_default_score_witness :
  let wd := get_weather_forecast (fun _ => "?") "Bergen" (GeoOk 60.39 5.32)
              (inr (mkObservation None (Some 22%Q) (Some "clear sky")
                                  (Some 3%Q)))
              (inr []) in
  exists (current_weather : Observation) (forecast : list Observation)
         (temp : Q) (description rest : string),
    inr (mkObservation None (Some 22%Q) (Some "clear sky") (Some 3%Q))
    = @inr string Observation current_weather
    /\ inr [] = @inr string (list Observation) forecast
    /\ obs_temperature current_weather = Some temp
    /\ obs_description current_weather = Some description
    /\ wd_weather_analysis wd
       = Some ("Current weather in " ++ "Bergen" ++ ": " ++ "?"
               ++ degree_sign ++ "C, " ++ description ++ ". "
               ++ "Weather viability score: 50/100. "
               ++ "Fair conditions - some adjustments needed. " ++ rest)
    /\ wd_viability_score wd
       = Some (PyInt (vs_score
                        (_calculate_viability_score current_weather
                                                    forecast))).
Proof.
  apply (forecast_analysis_reports_default_score
           (fun _ => "?") "Bergen" (GeoOk 60.39 5.32)
           (inr (mkObservation None (Some 22%Q) (Some "clear sky")
                               (Some 3%Q)))
           (inr [])).
  reflexivity.
Defined.

(** ** The extended forecast *)

(** The extended forecast either carries an error marker or was built
    from an error-free basic forecast and two dates that parse. *)
Lemma get_extended_weather_forecast_cases
  (strptime : string -> string + Z) (bf : WeatherData) (sd ed : string) :
  wd_error (get_extended_weather_forecast strptime bf sd ed) <> None
  \/ (wd_error bf = None
      /\ exists s e : Z, strptime sd = inr s /\ strptime ed = inr e).
Proof.
  unfold get_extended_weather_forecast.
  destruct (wd_error bf) as [msg|] eqn:Herr; cbn [has].
  - left. rewrite Herr. discriminate.
  - destruct (strptime sd) as [m|s]; [left; cbn; discriminate|].
    destruct (strptime ed) as [m|e]; [left; cbn; discriminate|].
    right. split; [reflexivity|]. exists s, e. split; reflexivity.
Qed.

(** X6: when the basic forecast has no error and both dates parse, the
    extended analysis holds one entry per day from the start date to the
    end date inclusive, in order, and none when the end date precedes the
    start date; the recorded trip duration is the difference of the dates
    plus one, which is then zero or negative. *)
Theorem extended_forecast_days
  (strptime : string -> string + Z) (bf : WeatherData) (sd ed : string)
  (s e : Z) :
  wd_error bf = None -> strptime sd = inr s -> strptime ed = inr e ->
  let wd := get_extended_weather_forecast strptime bf sd ed in
  exists (ea : ExtendedAnalysis) (days : list DailyForecast),
    wd_error wd = None
    /\ wd_extended_analysis wd = Some ea
    /\ ea_daily_forecasts ea = Some days
    /\ ea_trip_duration ea = Some (e - s + 1)
    /\ Z.of_nat (List.length days) = Z.max 0 (e - s + 1)
    /\ map df_date days
       = map (fun k => s + Z.of_nat k) (seq 0 (List.length days))
    /\ (e < s -> days = []).
Proof.
  intros Herr Hs He. cbv zeta.
  rewrite (get_extended_weather_forecast_success strptime bf sd ed s e
             Herr Hs He).
  cbv zeta. eexists. eexists.
  cbn [wd_error wd_extended_analysis ea_daily_forecasts ea_trip_duration].
  split; [reflexivity|]. split; [reflexivity|]. split; [reflexivity|].
  split; [reflexivity|].
  rewrite length_map, length_seq. split; [lia|]. split.
  - rewrite map_map. apply map_ext. intros k. reflexivity.
  - intros Hlt. replace (Z.to_nat (e - s + 1)) with 0%nat by lia.
    reflexivity.
Qed.

Lemma extended_forecast_days_witness :
  let wd := sample_weather_data in
  exists (ea : ExtendedAnalysis) (days : list DailyForecast),
    wd_error wd = None
    /\ wd_extended_analysis wd = Some ea
    /\ ea_daily_forecasts ea = Some days
    /\ ea_trip_duration ea = Some (739040 - 739038 + 1)
    /\ Z.of_nat (List.length days) = Z.max 0 (739040 - 739038 + 1)
    /\ map df_date days
       = map (fun k => 739038 + Z.of_nat k) (seq 0 (List.length days))
    /\ (739040 < 739038 -> days = []).
Proof.
  exact (extended_forecast_days sample_strptime sample_basic_forecast
           "2024-06-01" "2024-06-03" 739038 739040
           eq_refl eq_refl eq_refl).
Defined.

(** X7: each entry of the extended analysis is scored from its own
    temperature, description and wind speed, its level is the suitability
    level of that score, and the score lies between 0 and 100.  A day
    within the forecast list takes its conditions from that list (a
    missing key from the current weather); a day beyond it takes the
    current weather, with 25 degrees, "clear sky" and wind 5 for missing
    keys. *)
Theorem extended_forecast_entries
  (start_dt : Z) (current_weather : Observation)
  (forecast_data : list Observation) (day : nat) :
  let d := daily_forecast_entry start_dt current_weather forecast_data day in
  df_suitability_score d
  = _calculate_daily_suitability_score
      (df_temperature d) (df_description d) (df_wind_speed d) 0
  /\ 0 <= df_suitability_score d <= 100
  /\ df_suitability_level d
     = _get_suitability_level (PyInt (df_suitability_score d))
  /\ (forall o : Observation,
        nth_error forecast_data day = Some o ->
        df_temperature d
        = dict_get (obs_temperature o)
                   (dict_get (obs_temperature current_weather) 25%Q)
        /\ df_description d
           = dict_get (obs_description o)
                      (dict_get (obs_description current_weather)
                                "clear sky")
        /\ df_wind_speed d
           = dict_get (obs_wind_speed o)
                      (dict_get (obs_wind_speed current_weather) 5%Q))
  /\ (nth_error forecast_data day = None ->
      df_temperature d = dict_get (obs_temperature current_weather) 25%Q
      /\ df_description d
         = dict_get (obs_description current_weather) "clear sky"
      /\ df_wind_speed d = dict_get (obs_wind_speed current_weather) 5%Q).
Proof.
  cbv zeta. split; [reflexivity|]. split; [apply daily_entry_score_bounds|].
  split; [reflexivity|].
  unfold daily_forecast_entry.
  cbn [df_temperature df_description df_wind_speed].
  split.
  - intros o Hnth.
    assert (Hlt : (day < List.length forecast_data)%nat)
      by (apply nth_error_Some; congruence).
    apply Nat.ltb_lt in Hlt. rewrite Hlt.
    rewrite (nth_error_nth _ _ empty_observation Hnth).
    destruct forecast_data; [destruct day; discriminate Hnth|].
    cbn [andb]. repeat split.
  - intros Hnth. apply nth_error_None in Hnth.
    apply Nat.ltb_ge in Hnth. rewrite Hnth. cbn [andb]. repeat split.
Qed.

Lemma extended_forecast_entries_witness :
  let current := mkObservation None (Some 15%Q) None (Some 3%Q) in
  let d := daily_forecast_entry 739038 current [] 2 in
  df_temperature d = 15%Q
  /\ df_description d = "clear sky"
  /\ df_wind_speed d = 3%Q.
Proof.
  apply (proj2 (proj2 (proj2 (proj2
           (extended_forecast_entries 739038
              (mkObservation None (Some 15%Q) None (Some 3%Q)) [] 2))))).
  reflexivity.
Defined.

Lemma check_weather_viability_on_error (wd : WeatherData) :
  wd_error wd <> None ->
  score (check_weather_viability wd) = PyInt 0
  /\ viable (check_weather_viability wd) = false.
Proof.
  intros Herr. unfold check_weather_viability.
  destruct (wd_error wd); [|congruence]. split; reflexivity.
Qed.

(** The score the aggregator reports on an extended forecast lies between
    0 and 100 as soon as the single-point score of the basic forecast
    does. *)
Lemma extended_forecast_score_bounds
  (strptime : string -> string + Z) (bf : WeatherData) (sd ed : string) :
  (forall v : PyNum,
     wd_viability_score bf = Some v -> (0 <= num_val v <= 100)%Q) ->
  let wd := get_extended_weather_forecast strptime bf sd ed in
  let r := check_weather_viability wd in
  (0 <= num_val (score r) <= 100)%Q
  /\ (wd_error wd = None -> wd_viability_score wd = Some (score r))
  /\ (wd_error wd <> None -> score r = PyInt 0 /\ viable r = false).
Proof.
  intros Hbf wd r.
  destruct (get_extended_weather_forecast_cases strptime bf sd ed)
    as [Herr | (Herr & s & e & Hs & He)].
  - fold wd in Herr.
    destruct (check_weather_viability_on_error wd Herr)
      as (Hscore & Hviable).
    fold r in Hscore, Hviable.
    split; [rewrite Hscore; split; vm_compute; discriminate|].
    split; [intros H; congruence | intros _; split; assumption].
  - pose proof (get_extended_weather_forecast_success strptime bf sd ed s e
                  Herr Hs He) as Heq.
    cbv zeta in Heq. fold wd in Heq.
    assert (Hwd : wd_error wd = None) by (rewrite Heq; reflexivity).
    assert (Hscore :
      score r
      = match map df_suitability_score
                (map (daily_forecast_entry s
                        (dict_get (wd_current_weather bf) empty_observation)
                        (dict_get (wd_forecast bf) []))
                     (seq 0 (Z.to_nat (e - s + 1)))) with
        | _ :: _ =>
          mean (map df_suitability_score
                  (map (daily_forecast_entry s
                          (dict_get (wd_current_weather bf)
                                    empty_observation)
                          (dict_get (wd_forecast bf) []))
                       (seq 0 (Z.to_nat (e - s + 1)))))
        | [] => dict_get (wd_viability_score bf) (PyInt 50)
        end).
    { unfold r. rewrite (check_weather_viability_score wd Hwd).
      rewrite Heq. cbn [wd_extended_analysis dict_get].
      erewrite guarded_overall_trip_score_some by reflexivity.
      reflexivity. }
    split; [|split].
    + rewrite Hscore.
      set (scores := map df_suitability_score _).
      assert (Hall : forall x, In x scores -> 0 <= x <= 100).
      { intros x Hx. unfold scores in Hx.
        apply in_map_iff in Hx. destruct Hx as (d & <- & Hd).
        apply in_map_iff in Hd. destruct Hd as (k & <- & _).
        apply daily_entry_score_bounds. }
      destruct scores as [|x rest] eqn:Hscores.
      * destruct (wd_viability_score bf) as [v|] eqn:Hv; cbn [dict_get].
        -- apply Hbf. reflexivity.
        -- split; vm_compute; discriminate.
      * apply mean_bounds; [discriminate | exact Hall].
    + intros _. rewrite Hscore, Heq. reflexivity.
    + intros H. congruence.
Qed.

(** The single-point score stored in a basic forecast lies between 0 and
    100. *)
Lemma get_weather_forecast_score_bounds
  (float_repr : Q -> string) (city : string) (geo_response : GeoResponse)
  (current_weather_call : string + Observation)
  (forecast_call : string + list Observation) (v : PyNum) :
  wd_viability_score (get_weather_forecast float_repr city geo_response
                        current_weather_call forecast_call) = Some v ->
  (0 <= num_val v <= 100)%Q.
Proof.
  unfold get_weather_forecast.
  destruct geo_response as [lat lon| |e]; [|discriminate..].
  destruct current_weather_call as [e|cw]; [discriminate|].
  destruct forecast_call as [e|fc]; [discriminate|].
  destruct (analyze_weather_conditions _ _) as [e|text]; [discriminate|].
  cbn [wd_viability_score]. intros H. injection H as <-.
  pose proof (single_point_score_range cw fc) as [Hlo Hhi].
  cbn [num_val]. split.
  - change 0%Q with (inject_Z 0). rewrite <- Zle_Qle. exact Hlo.
  - change 100%Q with (inject_Z 100). rewrite <- Zle_Qle. exact Hhi.
Qed.

(** X8: whatever the three weather requests return and whatever the two
    date strings are, the score the aggregator reports on the resulting
    bundle lies between 0 and 100.  When the bundle has no error marker
    its single-point field holds the same number as its overall trip
    score, the one the aggregator reports; when it has one, the
    aggregator reports 0 and not viable. *)
Theorem weather_pipeline_score_bounds
  (float_repr : Q -> string) (city : string) (geo_response : GeoResponse)
  (current_weather_call : string + Observation)
  (forecast_call : string + list Observation)
  (strptime : string -> string + Z) (start_date end_date : string) :
  let basic_forecast :=
    get_weather_forecast float_repr city geo_response
      current_weather_call forecast_call in
  let wd :=
    get_extended_weather_forecast strptime basic_forecast
      start_date end_date in
  let r := check_weather_viability wd in
  (0 <= num_val (score r) <= 100)%Q
  /\ (wd_error wd = None ->
      wd_viability_score wd = Some (score r)
      /\ exists ea : ExtendedAnalysis,
           wd_extended_analysis wd = Some ea
           /\ ea_overall_trip_score ea = Some (score r))
  /\ (wd_error wd <> None -> score r = PyInt 0 /\ viable r = false).
Proof.
  intros basic_forecast wd r.
  destruct (extended_forecast_score_bounds strptime basic_forecast
              start_date end_date
              (get_weather_forecast_score_bounds float_repr city geo_response
                 current_weather_call forecast_call))
    as (Hrange & Hfield & Herror).
  fold wd in Hrange, Hfield, Herror. fold r in Hrange, Hfield, Herror.
  split; [exact Hrange|]. split; [|exact Herror].
  intros Hwd. split; [exact (Hfield Hwd)|].
  destruct (get_extended_weather_forecast_analysis strptime basic_forecast
              start_date end_date Hwd)
    as (ea & days & Hea & _ & Hscore).
  fold wd in Hea. exists ea. split; [exact Hea|].
  unfold r. rewrite (check_weather_viability_score wd Hwd), Hea.
  cbn [dict_get].
  rewrite (guarded_overall_trip_score_some ea _ Hscore). exact Hscore.
Qed.

Lemma weather_pipeline_score_bounds_witness :
  let wd :=
    get_extended_weather_forecast sample_strptime
      (get_weather_forecast (fun _ => "?") "Bergen" GeoNotFound
         (inr empty_observation) (inr []))
      "2024-06-01" "2024-06-03" in
  score (check_weather_viability wd) = PyInt 0
  /\ viable (check_weather_viability wd) = false.
Proof.
  apply (proj2 (proj2 (weather_pipeline_score_bounds
                         (fun _ => "?") "Bergen" GeoNotFound
                         (inr empty_observation) (inr [])
                         sample_strptime "2024-06-01" "2024-06-03"))).
  cbn. discriminate.
Defined.

(** ** Verdict, level and recommendation *)

(** X9: on a bundle without an error marker the verdict of the
    aggregator is true exactly when the suitability level of the score it
    reports is "Excellent", "Good" or "Fair"; the consistent-score helper
    reports that level and shows the score followed by it. *)
Theorem verdict_matches_level
  (float_repr : Q -> string) (wd : WeatherData) :
  wd_error wd = None ->
  let r := check_weather_viability wd in
  let c := get_consistent_weather_score float_repr wd in
  (viable r = true
   <-> In (_get_suitability_level (score r)) ["Excellent"; "Good"; "Fair"])
  /\ cs_level c = _get_suitability_level (score r)
  /\ cs_display_text c
     = Some (py_str float_repr (score r) ++ "/100 - "
             ++ _get_suitability_level (score r)).
Proof.
  intros Herr r c.
  assert (Hc : cs_score c = score r) by apply consistent_score_agrees.
  destruct (check_weather_viability_verdict wd Herr) as [Hv _].
  fold r in Hv.
  split; [|split].
  - rewrite Hv. unfold _get_suitability_level, num_ge.
    cbn [num_val].
    destruct (Qle_bool (inject_Z 80) (num_val (score r))) eqn:E80,
             (Qle_bool (inject_Z 60) (num_val (score r))) eqn:E60,
             (Qle_bool (inject_Z 40) (num_val (score r))) eqn:E40,
             (Qle_bool (inject_Z 20) (num_val (score r))) eqn:E20;
      reflect_comparisons;
      change (inject_Z 80) with 80%Q in *;
      change (inject_Z 60) with 60%Q in *;
      change (inject_Z 40) with 40%Q in *;
      change (inject_Z 20) with 20%Q in *;
      try (exfalso; lra);
      cbn [In]; split; intros H;
      try reflexivity; try discriminate H;
      try (left; reflexivity); try (right; left; reflexivity);
      try (right; right; left; reflexivity);
      repeat (destruct H as [H|H]; try discriminate H); contradiction.
  - revert Hc. unfold c, r, get_consistent_weather_score,
      check_weather_viability, _get_suitability_level.
    rewrite Herr. cbn [has].
    destruct (guarded_overall_trip_score _); cbn; reflexivity.
  - revert Hc. unfold c, r, get_consistent_weather_score,
      check_weather_viability, _get_suitability_level.
    rewrite Herr. cbn [has].
    destruct (guarded_overall_trip_score _); cbn; reflexivity.
Qed.

Lemma verdict_matches_level_witness :
  let r := check_weather_viability sample_weather_data in
  let c := get_consistent_weather_score (fun _ => "60.0")
             sample_weather_data in
  (viable r = true
   <-> In (_get_suitability_level (score r)) ["Excellent"; "Good"; "Fair"])
  /\ cs_level c = _get_suitability_level (score r)
  /\ cs_display_text c
     = Some (py_str (fun _ => "60.0") (score r) ++ "/100 - "
             ++ _get_suitability_level (score r)).
Proof.
  assert (Herr : wd_error sample_weather_data = None)
    by (vm_compute; reflexivity).
  exact (verdict_matches_level (fun _ => "60.0") sample_weather_data Herr).
Defined.

(** X10: on a bundle that the extended forecast built, the reason the
    aggregator gives is the overall recommendation for the score it
    reports, and the verdict is false exactly when that reason is the
    poor-weather recommendation. *)
Theorem forecast_reason_matches_verdict
  (strptime : string -> string + Z) (bf : WeatherData) (sd ed : string) :
  let wd := get_extended_weather_forecast strptime bf sd ed in
  let r := check_weather_viability wd in
  wd_error wd = None ->
  reason r = _get_overall_recommendation (score r)
  /\ (viable r = false
      <-> reason r
          = "Poor weather conditions - consider rescheduling or indoor alternatives.").
Proof.
  intros wd r Hwd.
  destruct (get_extended_weather_forecast_cases strptime bf sd ed)
    as [Herr | (Herr & s & e & Hs & He)]; [fold wd in Herr; congruence|].
  pose proof (get_extended_weather_forecast_success strptime bf sd ed s e
                Herr Hs He) as Heq.
  cbv zeta in Heq. fold wd in Heq.
  assert (Hreason : reason r = _get_overall_recommendation (score r)).
  { unfold r, check_weather_viability. rewrite Heq.
    cbn [wd_error has wd_extended_analysis dict_get].
    erewrite guarded_overall_trip_score_some by reflexivity.
    reflexivity. }
  split; [exact Hreason|].
  rewrite Hreason.
  destruct (check_weather_viability_verdict wd Hwd) as [Hv _].
  fold r in Hv. rewrite Hv.
  unfold _get_overall_recommendation, num_ge. cbn [num_val].
  destruct (Qle_bool (inject_Z 80) (num_val (score r))) eqn:E80,
           (Qle_bool (inject_Z 60) (num_val (score r))) eqn:E60,
           (Qle_bool (inject_Z 40) (num_val (score r))) eqn:E40;
    reflect_comparisons;
    change (inject_Z 80) with 80%Q in *;
    change (inject_Z 60) with 60%Q in *;
    change (inject_Z 40) with 40%Q in *;
    try (exfalso; lra);
    split; intros H; try reflexivity; discriminate H.
Qed.

Lemma forecast_reason_matches_verdict_witness :
  let r := check_weather_viability sample_weather_data in
  reason r = _get_overall_recommendation (score r)
  /\ (viable r = false
      <-> reason r
          = "Poor weather conditions - consider rescheduling or indoor alternatives.").
Proof.
  assert (Herr : wd_error sample_weather_data = None)
    by (vm_compute; reflexivity).
  exact (forecast_reason_matches_verdict sample_strptime
           sample_basic_forecast "2024-06-01" "2024-06-03" Herr).
Defined.

(** ** Daily recommendations and the five-day forecast *)

(** X11: the daily recommendations are never empty and never more than
    six; the fallback "Generally good conditions for activities" is given
    exactly when the temperature is between 10 and 30 degrees and the
    lower-cased description mentions none of rain, drizzle, storm,
    thunder, clear and sunny. *)
Theorem daily_recommendations_shape (temp : Q) (description : string)
  (rain_prob : Q) :
  let r := _get_daily_recommendations temp description rain_prob in
  let desc_lower := lower description in
  r <> []
  /\ (List.length r <= 6)%nat
  /\ (In "Generally good conditions for activities" r
      <-> (10 <= temp <= 30)%Q
          /\ any_in ["rain"; "drizzle"] desc_lower = false
          /\ any_in ["storm"; "thunder"] desc_lower = false
          /\ contains "clear" desc_lower = false
          /\ contains "sunny" desc_lower = false).
Proof.
  cbv zeta. unfold _get_daily_recommendations.
  destruct (Qlt_bool 30 temp) eqn:E1, (Qlt_bool temp 10) eqn:E2,
           (any_in ["rain"; "drizzle"] (lower description)),
           (any_in ["storm"; "thunder"] (lower description)),
           (contains "clear" (lower description)),
           (contains "sunny" (lower description));
    reflect_comparisons; cbn;
    (split; [discriminate|]); (split; [lia|]);
    split;
    try (intros H; repeat (destruct H as [H|H]; try discriminate H);
         contradiction);
    try (intros (H & ? & ? & ? & ?); try discriminate; exfalso; lra);
    try (intros _; left; reflexivity);
    try (intros _; repeat split; (reflexivity || lra)).
Qed.

Lemma range_step_8 (stop : nat) :
  let l := range_step stop 8 in
  List.length l = ((stop + 7) / 8)%nat
  /\ forall k : nat,
       (k < List.length l)%nat ->
       nth_error l k = Some (k * 8)%nat /\ (k * 8 < stop)%nat.
Proof.
  cbv zeta. unfold range_step.
  replace (stop + 8 - 1)%nat with (stop + 7)%nat by lia.
  rewrite length_map, length_seq. split; [reflexivity|].
  intros k Hk. split.
  - rewrite nth_error_map.
    rewrite (nth_error_nth' _ 0%nat) by (rewrite length_seq; exact Hk).
    rewrite seq_nth by exact Hk. reflexivity.
  - pose proof (Nat.Div0.mul_div_le (stop + 7) 8). nia.
Qed.

(** X12: [_get_5day_forecast] returns nothing when the status is not
    200; otherwise it returns at most five entries, one for every eighth
    item among the first forty, the k-th entry (from 0) holding the
    temperature, description and wind speed of item 8k. *)
Theorem get_5day_forecast_entries
  (status_code : Z) (items : list ForecastItem) :
  let r := _get_5day_forecast status_code items in
  (List.length r <= 5)%nat
  /\ (status_code <> 200 -> r = [])
  /\ (status_code = 200 ->
      List.length r = ((Nat.min 40 (List.length items) + 7) / 8)%nat
      /\ forall k : nat,
           (k < List.length r)%nat ->
           exists item : ForecastItem,
             nth_error items (8 * k) = Some item
             /\ nth_error r k
                = Some (mkObservation None (Some (fi_temp item))
                          (Some (fi_description item))
                          (Some (fi_wind_speed item)))).
Proof.
  cbv zeta. unfold _get_5day_forecast.
  change (5 * 8)%nat with 40%nat.
  destruct (range_step_8 (Nat.min 40 (List.length items))) as [Hlen Hnth].
  destruct (status_code =? 200) eqn:E.
  - apply Z.eqb_eq in E.
    rewrite length_map, Hlen.
    assert (Hle : ((Nat.min 40 (List.length items) + 7) / 8 <= 5)%nat).
    { apply (Nat.le_trans _ (47 / 8)%nat);
        [apply Nat.Div0.div_le_mono; lia | apply Nat.le_refl]. }
    split; [exact Hle|]. split; [congruence|].
    intros _. split; [reflexivity|].
    intros k Hk. rewrite <- Hlen in Hk.
    destruct (Hnth k Hk) as [Hk8 Hlt].
    assert (Hin : (8 * k < List.length items)%nat) by lia.
    destruct (nth_error items (8 * k)) as [item|] eqn:Hitem;
      [|apply nth_error_None in Hitem; lia].
    exists item. split; [reflexivity|].
    rewrite nth_error_map, Hk8. cbn [option_map].
    replace (k * 8)%nat with (8 * k)%nat by lia.
    rewrite (nth_error_nth _ _ default_forecast_item Hitem). reflexivity.
  - apply Z.eqb_neq in E. cbn [List.length].
    split; [lia|]. split; [reflexivity | congruence].
Qed.

Lemma get_5day_forecast_entries_witness :
  _get_5day_forecast 404 [mkForecastItem "2024-06-01 00:00:00" 15%Q "mist"
                                         80%Q 3%Q] = [].
Proof.
  apply (proj1 (proj2 (get_5day_forecast_entries 404
           [mkForecastItem "2024-06-01 00:00:00" 15%Q "mist" 80%Q 3%Q]))).
  discriminate.
Defined.

(** * Properties of the data collection and of the workflow *)

Import Workflow WorkflowSamples.

(** ** The travel dates *)

Lemma string_app_nil_r (s : string) : s ++ "" = s.
Proof. induction s as [|c s IH]; cbn; [reflexivity | now rewrite IH]. Qed.

Lemma no_space_cons (c : ascii) (s : string) :
  contains " " (String c s) = false ->
  c <> " "%char /\ contains " " s = false.
Proof.
  cbn [contains prefix]. intros H. apply orb_false_iff in H.
  destruct H as [Hp Hs]. split; [|exact Hs].
  intros ->. destruct (ascii_dec " " " ") as [_|n]; [|congruence].
  destruct s; discriminate Hp.
Qed.

(** Reading a text without spaces, [split] on " to " only extends the
    current piece. *)
Lemma split_from_no_space (a : string) :
  contains " " a = false ->
  forall piece rest : string,
    split_from " to " 0 piece (a ++ rest)
    = split_from " to " 0 (piece ++ a) rest.
Proof.
  induction a as [|c a IH]; intros Ha piece rest.
  - cbn [append]. now rewrite string_app_nil_r.
  - destruct (no_space_cons c a Ha) as [Hc Ha'].
    cbn [append split_from prefix].
    destruct (ascii_dec " " c) as [e|_]; [congruence|].
    rewrite (IH Ha'), string_app_assoc. reflexivity.
Qed.

Lemma split_single_date (a : string) :
  contains " " a = false -> split a " to " = [a].
Proof.
  intros Ha. unfold split.
  rewrite <- (string_app_nil_r a) at 1.
  rewrite (split_from_no_space a Ha). reflexivity.
Qed.

Lemma split_date_range (a b : string) :
  contains " " a = false -> contains " " b = false ->
  split (a ++ " to " ++ b) " to " = [a; b].
Proof.
  intros Ha Hb. unfold split.
  rewrite (split_from_no_space a Ha). cbn.
  replace (prefix "" b) with true by (destruct b; reflexivity).
  f_equal. rewrite <- (string_app_nil_r b) at 1.
  rewrite (split_from_no_space b Hb). reflexivity.
Qed.

Section TravelDataProperties.

Variable float_repr : Q -> string.
Variable strptime : string -> string + Z.
Variable weather_requests :
  string -> GeoResponse * (string + Observation) * (string + list Observation).
Variable search_hotels : string -> Q -> list Listing.
Variable search_attractions : string -> list string -> list Listing.
Variable search_flights_tool :
  string -> string -> string -> Q -> string + FlightResult.
Variable search_travel_info : string -> string -> list Listing.

Local Abbreviation forecast_for :=
  (extended_weather_forecast_for float_repr strptime weather_requests).
Local Abbreviation travel_data_for :=
  (get_comprehensive_travel_data float_repr strptime weather_requests
     search_hotels search_attractions search_flights_tool
     search_travel_info).

(** What [get_comprehensive_travel_data] returns once the two dates are
    known. *)
Lemma travel_data_for_dates
  (destination dates start_date end_date : string) (budget : Q)
  (preferences : list string) (origin_city : string) :
  nth 0 (split dates " to ") "" = start_date ->
  (if (1 <? List.length (split dates " to "))%nat
   then nth 1 (split dates " to ") "" else start_date) = end_date ->
  travel_data_for destination dates budget preferences origin_city
  = match search_flights_tool origin_city destination start_date budget with
    | inl e => TravelError ("Travel data collection failed: " ++ e)
    | inr flight_result =>
      let wd := forecast_for destination start_date end_date in
      TravelSuccess wd
        (dict_get (wd_weather_analysis wd)
                  "Weather information not available")
        (check_weather_viability wd)
        (search_hotels destination budget)
        (search_attractions destination preferences)
        (dict_get (fr_flights flight_result) [])
        (search_travel_info destination "general")
        destination
    end.
Proof.
  intros Hs He. unfold get_comprehensive_travel_data. cbv zeta.
  rewrite Hs, He. reflexivity.
Qed.

(** X13: [get_comprehensive_travel_data] reads a travel-dates text
    "A to B", with A and B free of spaces, as the start date A and the
    end date B, and a text A without " to " as a trip that starts and
    ends on A: these are the dates of the weather forecast, and A is the
    date of the flight search.  The call fails only when the flight
    search raises; a weather bundle with an error marker does not make it
    fail. *)
Theorem travel_dates_parsing
  (destination a b : string) (budget : Q)
  (preferences : list string) (origin_city : string) :
  contains " " a = false -> contains " " b = false ->
  let result_for (start_date end_date : string) :=
    match search_flights_tool origin_city destination start_date budget with
    | inl e => TravelError ("Travel data collection failed: " ++ e)
    | inr flight_result =>
      let wd := forecast_for destination start_date end_date in
      TravelSuccess wd
        (dict_get (wd_weather_analysis wd)
                  "Weather information not available")
        (check_weather_viability wd)
        (search_hotels destination budget)
        (search_attractions destination preferences)
        (dict_get (fr_flights flight_result) [])
        (search_travel_info destination "general")
        destination
    end in
  travel_data_for destination (a ++ " to " ++ b) budget preferences
                  origin_city
  = result_for a b
  /\ travel_data_for destination a budget preferences origin_city
     = result_for a a.
Proof.
  intros Ha Hb result_for. split.
  - apply travel_data_for_dates; rewrite (split_date_range a b Ha Hb);
      reflexivity.
  - apply travel_data_for_dates; rewrite (split_single_date a Ha);
      reflexivity.
Qed.


End TravelDataProperties.

Lemma travel_dates_parsing_witness :
  let result_for (start_date end_date : string) :=
    match sample_search_flights "Oslo" "Bergen" start_date 1500 with
    | inl e => TravelError ("Travel data collection failed: " ++ e)
    | inr flight_result =>
      let wd := sample_forecast_for "Bergen" start_date end_date in
      TravelSuccess wd
        (dict_get (wd_weather_analysis wd)
                  "Weather information not available")
        (check_weather_viability wd)
        (sample_search_hotels "Bergen" 1500)
        (sample_search_attractions "Bergen" ["hiking"])
        (dict_get (fr_flights flight_result) [])
        (sample_search_travel_info "Bergen" "general")
        "Bergen"
    end in
  sample_travel_data_for "Bergen" ("2024-06-01" ++ " to " ++ "2024-06-03")
                         1500 ["hiking"] "Oslo"
  = result_for "2024-06-01" "2024-06-03"
  /\ sample_travel_data_for "Bergen" "2024-06-01" 1500 ["hiking"] "Oslo"
     = result_for "2024-06-01" "2024-06-01".
Proof.
  exact (travel_dates_parsing sample_float_repr sample_strptime
           sample_weather_requests sample_search_hotels
           sample_search_attractions sample_search_flights
           sample_search_travel_info
           "Bergen" "2024-06-01" "2024-06-03" 1500 ["hiking"] "Oslo"
           eq_refl eq_refl).
Defined.


(** ** The steps of the graph *)

Lemma override_none_l {A : Type} (new : option A) : override None new = new.
Proof. destruct new; reflexivity. Qed.

Lemma override_none_r {A : Type} (old : option A) : override old None = old.
Proof. reflexivity. Qed.

Section WorkflowProperties.

Variable float_repr : Q -> string.
Variable strptime : string -> string + Z.
Variable weather_requests :
  string -> GeoResponse * (string + Observation) * (string + list Observation).
Variable search_hotels : string -> Q -> list Listing.
Variable search_attractions : string -> list string -> list Listing.
Variable search_flights_tool :
  string -> string -> string -> Q -> string + FlightResult.
Variable search_travel_info : string -> string -> list Listing.
Variable generate_itinerary_text : PlannerState -> string.
Variable generate_alternative_suggestions :
  string -> string -> list string -> list string.

Local Abbreviation step :=
  (superstep float_repr strptime weather_requests search_hotels
     search_attractions search_flights_tool search_travel_info
     generate_itinerary_text generate_alternative_suggestions).
Local Abbreviation run :=
  (invoke_from float_repr strptime weather_requests search_hotels
     search_attractions search_flights_tool search_travel_info
     generate_itinerary_text generate_alternative_suggestions).
Local Abbreviation gather :=
  (gather_travel_data float_repr strptime weather_requests search_hotels
     search_attractions search_flights_tool search_travel_info).
Local Abbreviation travel_data_from origin state :=
  (get_comprehensive_travel_data float_repr strptime weather_requests
     search_hotels search_attractions search_flights_tool
     search_travel_info
     (dict_get (destination (core state)) "")
     (dict_get (travel_dates (core state)) "")
     (dict_get (budget state) DEFAULT_BUDGET)
     (dict_get (preferences state) [])
     origin).
Local Abbreviation travel_data_of state :=
  (get_comprehensive_travel_data float_repr strptime weather_requests
     search_hotels search_attractions search_flights_tool
     search_travel_info
     (dict_get (destination (core state)) "")
     (dict_get (travel_dates (core state)) "")
     (dict_get (budget state) DEFAULT_BUDGET)
     (dict_get (preferences state) [])
     (dict_get (origin_city state) "New York")).
Local Abbreviation generate := (generate_itinerary generate_itinerary_text).
Local Abbreviation provide :=
  (provide_alternatives generate_alternative_suggestions).
Local Abbreviation finalized_from state :=
  (merge_state state (finalize_recommendation state)).

Lemma superstep_finalize (state : PlannerState) :
  step "finalize_recommendation" state = Some (END, finalized_from state).
Proof. reflexivity. Qed.

Lemma superstep_provide (state : PlannerState) :
  step "provide_alternatives" state
  = Some ("finalize_recommendation", merge_state state (provide state)).
Proof. reflexivity. Qed.

Lemma superstep_search_flights (state : PlannerState) :
  step "search_flights" state
  = Some ("generate_itinerary", merge_state state (search_flights state)).
Proof. reflexivity. Qed.

Lemma superstep_search_accommodations (state : PlannerState) :
  step "search_accommodations" state
  = Some ("search_flights",
          merge_state state (search_accommodations state)).
Proof. reflexivity. Qed.

Lemma superstep_generate (state : PlannerState) :
  step "generate_itinerary" state
  = Some (if opt_str_truthy (error_message (core state))
          then "provide_alternatives"
          else if 70 <=? _calculate_itinerary_quality
                           (generate_itinerary_text state) (core state)
               then "finalize_recommendation"
               else "provide_alternatives",
          merge_state state (generate state)).
Proof.
  unfold superstep.
  change (node_function float_repr strptime weather_requests search_hotels
            search_attractions search_flights_tool search_travel_info
            generate_itinerary_text generate_alternative_suggestions
            "generate_itinerary")
    with (Some generate).
  cbv zeta. unfold next_node.
  change (lookup "generate_itinerary" edges)
    with (Some (Conditional decide_after_itinerary
                  [("success", "finalize_recommendation");
                   ("needs_improvement", "provide_alternatives");
                   ("error", "provide_alternatives")])).
  cbv iota. unfold decide_after_itinerary.
  change (error_message (core (merge_state state (generate state))))
    with (error_message (core state)).
  change (itinerary_quality_score
            (core (merge_state state (generate state))))
    with (Some (_calculate_itinerary_quality
                  (generate_itinerary_text state) (core state))).
  cbn [dict_get].
  destruct (opt_str_truthy (error_message (core state))); [reflexivity|].
  destruct (70 <=? _); reflexivity.
Qed.

Lemma superstep_analyze (state : PlannerState) :
  step "analyze_weather" state
  = Some (if viability_viable (core state) then "search_accommodations"
          else if num_lt (viability_score (core state)) (PyInt 30)
               then "provide_alternatives"
               else "search_flights",
          merge_state state
            (core_update (analyze_weather float_repr (core state)))).
Proof.
  unfold superstep.
  change (node_function float_repr strptime weather_requests search_hotels
            search_attractions search_flights_tool search_travel_info
            generate_itinerary_text generate_alternative_suggestions
            "analyze_weather")
    with (Some (fun s : PlannerState =>
                  core_update (analyze_weather float_repr (core s)))).
  cbv zeta beta. unfold next_node.
  change (lookup "analyze_weather" edges)
    with (Some (Conditional decide_after_weather_analysis
                  [("favorable", "search_accommodations");
                   ("unfavorable", "provide_alternatives");
                   ("conditional", "search_flights")])).
  cbv iota. unfold decide_after_weather_analysis.
  assert (Hv : weather_viability
                 (core (merge_state state
                          (core_update
                             (analyze_weather float_repr (core state)))))
               = weather_viability (core state)).
  { unfold analyze_weather.
    destruct (viability_viable (core state)); reflexivity. }
  unfold viability_viable, viability_score. rewrite Hv.
  destruct (weather_viability (core state)) as [v|]; cbn [lookup].
  - destruct (viable v); [reflexivity|].
    destruct (num_lt (score v) (PyInt 30)); reflexivity.
  - reflexivity.
Qed.

(** Every bundle the extended forecast returns is a non-empty dict. *)
Lemma get_extended_weather_forecast_truthy
  (bf : WeatherData) (sd ed : string) :
  weather_data_truthy (get_extended_weather_forecast strptime bf sd ed)
  = true.
Proof.
  unfold get_extended_weather_forecast.
  destruct (has (wd_error bf)) eqn:Hbf.
  - unfold weather_data_truthy. rewrite Hbf. reflexivity.
  - destruct (strptime sd) as [e|s]; [reflexivity|].
    destruct (strptime ed) as [e|e']; [reflexivity|].
    unfold weather_data_truthy.
    cbn [wd_viability_score wd_extended_analysis has].
    now rewrite !orb_true_r.
Qed.

Lemma travel_data_weather_truthy
  (state : PlannerState) (wd : WeatherData) (wa : string) (v : Viability)
  (h a f r : list Listing) (d : string) :
  travel_data_of state = TravelSuccess wd wa v h a f r d ->
  weather_data_truthy wd = true.
Proof.
  unfold get_comprehensive_travel_data. cbv zeta.
  destruct (search_flights_tool _ _ _ _); [discriminate|].
  intros H. injection H as <- _ _ _ _ _ _ _.
  unfold extended_weather_forecast_for.
  destruct (weather_requests _) as [[geo cw] fc].
  apply get_extended_weather_forecast_truthy.
Qed.

Lemma travel_data_error_truthy (state : PlannerState) (e : string) :
  travel_data_of state = TravelError e -> opt_str_truthy (Some e) = true.
Proof.
  unfold get_comprehensive_travel_data. cbv zeta.
  destruct (search_flights_tool _ _ _ _); [|discriminate].
  intros H. injection H as <-. reflexivity.
Qed.

Lemma superstep_gather (state : PlannerState) :
  step "gather_travel_data" state
  = Some (match travel_data_of state with
          | TravelError _ => "provide_alternatives"
          | TravelSuccess wd _ _ _ _ _ _ _ =>
            if opt_str_truthy (error_message (core state))
            then "provide_alternatives"
            else if has (wd_error wd) then "search_flights"
                 else "analyze_weather"
          end,
          merge_state state (gather state)).
Proof.
  unfold superstep.
  change (node_function float_repr strptime weather_requests search_hotels
            search_attractions search_flights_tool search_travel_info
            generate_itinerary_text generate_alternative_suggestions
            "gather_travel_data")
    with (Some gather).
  cbv zeta. unfold next_node.
  change (lookup "gather_travel_data" edges)
    with (Some (Conditional decide_after_data_collection
                  [("weather_check", "analyze_weather");
                   ("direct_planning", "search_flights");
                   ("error", "provide_alternatives")])).
  cbv iota. unfold decide_after_data_collection, gather_travel_data.
  cbv zeta.
  destruct (travel_data_of state) as [wd wa v h a f r d|e] eqn:Htd.
  - pose proof (travel_data_weather_truthy state wd wa v h a f r d Htd)
      as Htruthy.
    cbn [core merge_state merge error_message weather_data override].
    destruct (opt_str_truthy (error_message (core state))); [reflexivity|].
    rewrite Htruthy. cbn [andb].
    destruct (has (wd_error wd)); reflexivity.
  - pose proof (travel_data_error_truthy state e Htd) as Htruthy.
    cbn [core merge_state merge core_update error_message override].
    rewrite Htruthy. reflexivity.
Qed.

Lemma superstep_collect (state : PlannerState) :
  step "collect_user_input" state
  = Some (if opt_str_truthy (error_message (core state))
          then "provide_alternatives"
          else match new_missing state with
               | [] => "gather_travel_data"
               | _ :: _ => "collect_user_input"
               end,
          merge_state state (collect_user_input state)).
Proof.
  unfold superstep.
  change (node_function float_repr strptime weather_requests search_hotels
            search_attractions search_flights_tool search_travel_info
            generate_itinerary_text generate_alternative_suggestions
            "collect_user_input")
    with (Some collect_user_input).
  cbv zeta. unfold next_node.
  change (lookup "collect_user_input" edges)
    with (Some (Conditional decide_after_input_collection
                  [("complete", "gather_travel_data");
                   ("incomplete", "collect_user_input");
                   ("error", "provide_alternatives")])).
  cbv iota. unfold decide_after_input_collection, collect_user_input.
  cbv zeta.
  destruct (new_missing state) as [|m ms],
           (dict_get (missing_information state) []) as [|i rest];
    cbn [core merge_state merge core_update error_message requires_input
         override dict_get negb];
    destruct (opt_str_truthy (error_message (core state))); reflexivity.
Qed.

(** ** Runs of the graph *)

Local Abbreviation outcome state :=
  (alternative_suggestions (core state) <> None
   \/ exists q : Z,
        itinerary_quality_score (core state) = Some q
        /\ 70 <= q
        /\ opt_str_truthy (error_message (core state)) = false).

Local Abbreviation finished state :=
  (current_step (core state) = Some "completed"
   /\ requires_input (core state) = Some false
   /\ should_continue state = Some false
   /\ final_recommendation state
      = Some (RecommendationSummary
                {| rec_status := "completed";
                   rec_itinerary := itinerary (core state);
                   rec_alternative_suggestions :=
                     dict_get (alternative_suggestions (core state)) [];
                   rec_quality_score :=
                     dict_get (itinerary_quality_score (core state)) 0;
                   rec_weather_analysis := weather_analysis (core state);
                   rec_hotel_options := dict_get (hotel_options state) [];
                   rec_flight_options :=
                     dict_get (flight_options state) [] |})).

Lemma run_end (n : nat) (state : PlannerState) : run n END state = Some state.
Proof. destruct n; reflexivity. Qed.

Lemma run_step (n : nat) (node next : string) (state state' : PlannerState) :
  String.eqb node END = false ->
  step node state = Some (next, state') ->
  run (S n) node state = run n next state'.
Proof. intros Hnode Hstep. cbn [invoke_from]. now rewrite Hnode, Hstep. Qed.

Lemma finalized_is_finished (state : PlannerState) :
  finished (finalized_from state).
Proof. repeat split. Qed.

Lemma finalized_keeps_outcome (state : PlannerState) :
  outcome state -> outcome (finalized_from state).
Proof. intros H. exact H. Qed.

Lemma run_from_finalize (n : nat) (state : PlannerState) :
  run (S n) "finalize_recommendation" state = Some (finalized_from state).
Proof.
  rewrite (run_step n "finalize_recommendation" _ _ _ eq_refl
             (superstep_finalize state)).
  apply run_end.
Qed.

Lemma run_from_provide (n : nat) (state : PlannerState) :
  exists state' : PlannerState,
    run (S (S n)) "provide_alternatives" state
    = Some (finalized_from state')
    /\ outcome state'.
Proof.
  exists (merge_state state (provide state)). split.
  - rewrite (run_step _ "provide_alternatives" _ _ _ eq_refl
               (superstep_provide state)).
    apply run_from_finalize.
  - left. cbn. discriminate.
Qed.

Lemma run_from_generate (n : nat) (state : PlannerState) :
  exists state' : PlannerState,
    run (S (S (S n))) "generate_itinerary" state
    = Some (finalized_from state')
    /\ outcome state'.
Proof.
  rewrite (run_step _ "generate_itinerary" _ _ _ eq_refl
             (superstep_generate state)).
  destruct (opt_str_truthy (error_message (core state))) eqn:Herr;
    [apply run_from_provide|].
  destruct (70 <=? _) eqn:Hq; [|apply run_from_provide].
  exists (merge_state state (generate state)). split.
  - apply run_from_finalize.
  - right. eexists. split; [reflexivity|]. split.
    + apply Z.leb_le. exact Hq.
    + exact Herr.
Qed.

Lemma run_from_search_flights (n : nat) (state : PlannerState) :
  exists state' : PlannerState,
    run (S (S (S (S n)))) "search_flights" state
    = Some (finalized_from state')
    /\ outcome state'.
Proof.
  rewrite (run_step _ "search_flights" _ _ _ eq_refl
             (superstep_search_flights state)).
  apply run_from_generate.
Qed.

Lemma run_from_search_accommodations (n : nat) (state : PlannerState) :
  exists state' : PlannerState,
    run (S (S (S (S (S n))))) "search_accommodations" state
    = Some (finalized_from state')
    /\ outcome state'.
Proof.
  rewrite (run_step _ "search_accommodations" _ _ _ eq_refl
             (superstep_search_accommodations state)).
  apply run_from_search_flights.
Qed.

Lemma run_from_analyze (n : nat) (state : PlannerState) :
  exists state' : PlannerState,
    run (S (S (S (S (S (S n)))))) "analyze_weather" state
    = Some (finalized_from state')
    /\ outcome state'.
Proof.
  rewrite (run_step _ "analyze_weather" _ _ _ eq_refl
             (superstep_analyze state)).
  destruct (viability_viable (core state));
    [apply run_from_search_accommodations|].
  destruct (num_lt _ _).
  - apply (run_from_provide (S (S (S n)))).
  - apply (run_from_search_flights (S n)).
Qed.

Lemma run_from_gather (n : nat) (state : PlannerState) :
  exists state' : PlannerState,
    run (S (S (S (S (S (S (S n))))))) "gather_travel_data" state
    = Some (finalized_from state')
    /\ outcome state'.
Proof.
  rewrite (run_step _ "gather_travel_data" _ _ _ eq_refl
             (superstep_gather state)).
  destruct (travel_data_of state) as [wd wa v h a f r d|e].
  - destruct (opt_str_truthy (error_message (core state)));
      [apply (run_from_provide (S (S (S (S n)))))|].
    destruct (has (wd_error wd)).
    + apply (run_from_search_flights (S (S n))).
    + apply run_from_analyze.
  - apply (run_from_provide (S (S (S (S n))))).
Qed.

(** X15: from [gather_travel_data] on, the graph reaches its end within
    seven steps, whatever the tools and the text generator return and
    whatever the state holds.  The final state is the one
    [finalize_recommendation] leaves: step "completed", no input
    required, [should_continue] false, and a recommendation summary of
    the itinerary, the alternatives, the quality score, the weather
    analysis and the hotel and flight options of that state.  It holds
    alternative suggestions unless the itinerary scored at least 70 with
    no error message set. *)
Theorem workflow_reaches_end (n : nat) (state : PlannerState) :
  exists final : PlannerState,
    run (7 + n) "gather_travel_data" state = Some final
    /\ finished final
    /\ outcome final.
Proof.
  destruct (run_from_gather n state) as (state' & Hrun & Hout).
  exists (finalized_from state'). split; [exact Hrun|]. split.
  - apply finalized_is_finished.
  - exact Hout.
Qed.

(** ** The input loop and [plan_trip] *)

Local Abbreviation plan :=
  (plan_trip float_repr strptime weather_requests search_hotels
     search_attractions search_flights_tool search_travel_info
     generate_itinerary_text generate_alternative_suggestions).

(** [collect_user_input] leaves the required fields and the error
    message as they are. *)
Lemma collect_user_input_preserves (state : PlannerState) :
  let state' := merge_state state (collect_user_input state) in
  new_missing state' = new_missing state
  /\ error_message (core state') = error_message (core state).
Proof.
  cbv zeta. unfold collect_user_input. cbv zeta.
  destruct (new_missing state) as [|m ms] eqn:Hm,
           (dict_get (missing_information state) []) as [|i rest];
    (split; [rewrite <- Hm|]; reflexivity).
Qed.

Lemma run_collect_loops (n : nat) :
  forall state : PlannerState,
    new_missing state <> [] ->
    opt_str_truthy (error_message (core state)) = false ->
    run n "collect_user_input" state = None.
Proof.
  induction n as [|n IH]; intros state Hmissing Herr; [reflexivity|].
  pose proof (superstep_collect state) as Hstep.
  rewrite Herr in Hstep.
  destruct (new_missing state) as [|m ms] eqn:Hm; [congruence|].
  rewrite (run_step n "collect_user_input" _ _ _ eq_refl Hstep).
  destruct (collect_user_input_preserves state) as [Hm' Herr'].
  apply IH.
  - rewrite Hm', Hm. discriminate.
  - rewrite Herr'. exact Herr.
Qed.

Lemma run_from_collect (n : nat) (state : PlannerState) :
  new_missing state = []
  \/ opt_str_truthy (error_message (core state)) = true ->
  exists state' : PlannerState,
    run (S (S (S (S (S (S (S (S n)))))))) "collect_user_input" state
    = Some (finalized_from state')
    /\ outcome state'.
Proof.
  intros H.
  rewrite (run_step _ "collect_user_input" _ _ _ eq_refl
             (superstep_collect state)).
  destruct (opt_str_truthy (error_message (core state)));
    [apply (run_from_provide (S (S (S (S (S n))))))|].
  destruct H as [H|H]; [|discriminate].
  rewrite H. apply run_from_gather.
Qed.

(** The defaults of [plan_trip] and the keys the graph takes from its
    input do not touch the required fields nor the error message of the
    request. *)
Lemma plan_trip_defaults_preserve
  (defaults initial_state : PlannerState) :
  destination (core defaults) = None ->
  travel_dates (core defaults) = None ->
  duration defaults = None ->
  budget defaults = None ->
  error_message (core defaults) = None ->
  new_missing (graph_input (merge_state defaults initial_state))
  = new_missing initial_state
  /\ error_message (core (graph_input (merge_state defaults initial_state)))
     = error_message (core initial_state).
Proof.
  intros Hd Ht Hdu Hb He. unfold new_missing.
  cbn [graph_input merge_state core merge destination travel_dates
       duration budget error_message].
  rewrite Hd, Ht, Hdu, Hb, He, !override_none_l. split; reflexivity.
Qed.

(** X16: a request that lacks one of the four required fields
    (destination, travel dates, a duration other than 0, a budget other
    than 0) and carries no error message never leaves
    [collect_user_input]: the graph runs out of steps whatever the
    limit, and [plan_trip] returns its failure state, with the error
    message "Trip planning failed: ...", no itinerary and the apology as
    final recommendation. *)
Theorem incomplete_request_never_finishes
  (initial_state : PlannerState) :
  new_missing initial_state <> [] ->
  opt_str_truthy (error_message (core initial_state)) = false ->
  (forall n : nat, run n "collect_user_input" initial_state = None)
  /\ forall (recursion_limit : nat) (recursion_error : string),
       let result := plan recursion_limit recursion_error initial_state in
       error_message (core result)
       = Some ("Trip planning failed: " ++ recursion_error)
       /\ itinerary (core result) = None
       /\ alternative_suggestions (core result) = None
       /\ final_recommendation result
          = Some (RecommendationText
                    "Unable to generate travel plan. Please try again.").
Proof.
  intros Hmissing Herr. split.
  - intros n. apply run_collect_loops; assumption.
  - intros recursion_limit recursion_error. cbv zeta.
    unfold plan_trip, invoke. cbv zeta.
    match goal with
    | |- context [merge_state ?d initial_state] =>
        destruct (plan_trip_defaults_preserve d initial_state
                    eq_refl eq_refl eq_refl eq_refl eq_refl) as [Hm He];
        set (state := graph_input (merge_state d initial_state)) in *
    end.
    change entry_point with "collect_user_input".
    rewrite run_collect_loops.
    + repeat split.
    + rewrite Hm. exact Hmissing.
    + rewrite He. exact Herr.
Qed.

(** X17: a request that has the four required fields, or that carries an
    error message, is always finished by [plan_trip] when the graph
    allows eight steps or more: the result is the state that
    [finalize_recommendation] leaves, and it holds alternative
    suggestions unless the itinerary scored at least 70 with no error
    message set. *)
Theorem plan_trip_finishes
  (initial_state : PlannerState) (n : nat) (recursion_error : string) :
  new_missing initial_state = []
  \/ opt_str_truthy (error_message (core initial_state)) = true ->
  let result := plan (8 + n) recursion_error initial_state in
  finished result /\ outcome result.
Proof.
  intros H. cbv zeta. unfold plan_trip, invoke. cbv zeta.
  match goal with
  | |- context [merge_state ?d initial_state] =>
      destruct (plan_trip_defaults_preserve d initial_state
                  eq_refl eq_refl eq_refl eq_refl eq_refl) as [Hm He];
      set (state := graph_input (merge_state d initial_state)) in *
  end.
  change entry_point with "collect_user_input".
  destruct (run_from_collect n state) as (state' & Hrun & Hout).
  { rewrite Hm, He. exact H. }
  change (8 + n)%nat with (S (S (S (S (S (S (S (S n)))))))).
  rewrite Hrun. split.
  - apply finalized_is_finished.
  - exact Hout.
Qed.

(** The arguments [gather_travel_data] passes on are those of the
    request: the defaults of [plan_trip] and [collect_user_input] leave
    them as they are. *)
Lemma collect_user_input_keeps_request (state : PlannerState) :
  let state' := merge_state state (collect_user_input state) in
  destination (core state') = destination (core state)
  /\ travel_dates (core state') = travel_dates (core state)
  /\ budget state' = budget state
  /\ preferences state' = preferences state
  /\ origin_city state' = origin_city state
  /\ alternative_suggestions (core state')
     = alternative_suggestions (core state).
Proof.
  cbv zeta. unfold collect_user_input. cbv zeta.
  destruct (new_missing state) as [|m ms],
           (dict_get (missing_information state) []) as [|i rest];
    repeat split.
Qed.

(** X18: a request with the four required fields and no error message,
    for which the data collection succeeds with an error-free weather
    bundle that the aggregator finds viable, and for which every
    itinerary text scores at least 70, is finished in seven steps:
    [collect_user_input], [gather_travel_data], [analyze_weather],
    [search_accommodations], [search_flights], [generate_itinerary],
    [finalize_recommendation].  The data collection is the one for a
    departure from New York, whatever origin city the request names: the
    graph does not take that key from its input, and the result has
    none.  The result holds the generated itinerary with its score, the
    weather bundle, at most three error-free hotels and the flights of
    the data collection, and no error message or alternative suggestion
    that the request did not already carry. *)
Theorem plan_trip_success
  (initial_state : PlannerState) (n : nat) (recursion_error : string)
  (wd : WeatherData) (wa : string) (v : Viability)
  (h a f r : list Listing) (d : string) :
  new_missing initial_state = [] ->
  opt_str_truthy (error_message (core initial_state)) = false ->
  travel_data_from "New York" initial_state
  = TravelSuccess wd wa v h a f r d ->
  wd_error wd = None ->
  viable (check_weather_viability wd) = true ->
  (forall s : PlannerState,
     70 <= _calculate_itinerary_quality (generate_itinerary_text s)
             (core s)) ->
  let result := plan (7 + n) recursion_error initial_state in
  finished result
  /\ (exists s : PlannerState,
        itinerary (core result) = Some (generate_itinerary_text s)
        /\ itinerary_quality_score (core result)
           = Some (_calculate_itinerary_quality (generate_itinerary_text s)
                     (core s)))
  /\ error_message (core result) = error_message (core initial_state)
  /\ alternative_suggestions (core result)
     = alternative_suggestions (core initial_state)
  /\ weather_data (core result) = Some wd
  /\ weather_viability (core result) = Some (check_weather_viability wd)
  /\ hotel_options result
     = Some (firstn 3
               (filter (fun hotel =>
                          negb (opt_str_truthy (listing_error hotel)))
                       h))
  /\ flight_options result = Some f
  /\ origin_city result = None.
Proof.
  intros Hmissing Herr Htd Hwd Hviable Hquality. cbv zeta.
  unfold plan_trip, invoke. cbv zeta.
  match goal with
  | |- context [merge_state ?dflt initial_state] =>
      destruct (plan_trip_defaults_preserve dflt initial_state
                  eq_refl eq_refl eq_refl eq_refl eq_refl) as [Hm He];
      assert (Htd0 : travel_data_of
                       (graph_input (merge_state dflt initial_state))
                     = TravelSuccess wd wa v h a f r d)
        by (rewrite <- Htd;
            cbn [graph_input merge_state core merge destination
                 travel_dates budget preferences origin_city dict_get];
            rewrite !override_none_l; reflexivity);
      assert (Halt0 : alternative_suggestions
                        (core (graph_input
                                 (merge_state dflt initial_state)))
                      = alternative_suggestions (core initial_state))
        by (cbn [graph_input merge_state core merge
                 alternative_suggestions];
            apply override_none_l);
      assert (Horigin0 : origin_city
                           (graph_input (merge_state dflt initial_state))
                         = None) by reflexivity;
      set (s0 := graph_input (merge_state dflt initial_state)) in *
  end.
  rewrite <- Hm in Hmissing. rewrite <- He in Herr |- *.
  rewrite <- Halt0. clear Hm He Halt0 Htd.
  change entry_point with "collect_user_input".
  change (7 + n)%nat with (S (S (S (S (S (S (S n))))))).
  (* collect_user_input *)
  rewrite (run_step _ "collect_user_input" _ _ _ eq_refl
             (superstep_collect s0)).
  rewrite Herr, Hmissing.
  destruct (collect_user_input_preserves s0) as [_ Herr1].
  destruct (collect_user_input_keeps_request s0)
    as (Hd1 & Ht1 & Hb1 & Hp1 & Ho1 & Ha1).
  cbv zeta in Herr1, Hd1, Ht1, Hb1, Hp1, Ho1, Ha1.
  set (s1 := merge_state s0 (collect_user_input s0)) in *.
  assert (Htd1 : travel_data_of s1 = TravelSuccess wd wa v h a f r d)
    by (rewrite Hd1, Ht1, Hb1, Hp1, Ho1; exact Htd0).
  assert (Horigin1 : origin_city s1 = None)
    by (rewrite Ho1; exact Horigin0).
  rewrite <- Herr1 in Herr |- *. rewrite <- Ha1.
  clear Herr1 Hd1 Ht1 Hb1 Hp1 Ho1 Ha1 Htd0 Hmissing.
  (* gather_travel_data *)
  rewrite (run_step _ "gather_travel_data" _ _ _ eq_refl
             (superstep_gather s1)).
  rewrite Htd1, Herr, Hwd. cbn [has].
  assert (Hs2 : merge_state s1 (gather s1)
                = merge_state s1
                    {| core :=
                         {| destination := None; travel_dates := None;
                            user_feedback := None;
                            current_step := Some "weather_analysis";
                            requires_input := None;
                            conversation_history :=
                              add_system_message (core s1)
                                "Travel data collected successfully";
                            weather_data := Some wd;
                            weather_analysis := Some wa;
                            weather_viability :=
                              Some (check_weather_viability wd);
                            weather_score := None; itinerary := None;
                            alternative_suggestions := None;
                            itinerary_quality_score := None;
                            error_message := None |};
                       duration := None; budget := None;
                       preferences := None; travel_type := None;
                       origin_city := None; missing_information := None;
                       hotel_options := Some h;
                       attraction_options := Some a;
                       flight_options := Some f;
                       search_results := Some r;
                       final_recommendation := None;
                       should_continue := None; max_iterations := None;
                       current_iteration := None; retry_count := None |})
    by (unfold gather_travel_data; cbv zeta; rewrite Htd1; reflexivity).
  rewrite Hs2. clear Hs2 Htd1.
  match goal with
  | |- context [run _ "analyze_weather" ?s] => set (s2 := s) in *
  end.
  (* analyze_weather *)
  rewrite (run_step _ "analyze_weather" _ _ _ eq_refl
             (superstep_analyze s2)).
  change (viability_viable (core s2))
    with (viable (check_weather_viability wd)).
  rewrite Hviable.
  assert (Hs3 : merge_state s2
                  (core_update (analyze_weather float_repr (core s2)))
                = merge_state s2
                    (core_update
                       {| destination := None; travel_dates := None;
                          user_feedback := None;
                          current_step := Some "accommodation_search";
                          requires_input := None;
                          conversation_history :=
                            add_system_message (core s2)
                              "Weather conditions favorable";
                          weather_data := None;
                          weather_analysis :=
                            Some (dict_get (weather_analysis (core s2)) ""
                                  ++ newline ++ "Weather Viability Score: "
                                  ++ py_str float_repr
                                       (analyze_weather_displayed_score
                                          (core s2))
                                  ++ "/100");
                          weather_viability := None; weather_score := None;
                          itinerary := None;
                          alternative_suggestions := None;
                          itinerary_quality_score := None;
                          error_message := None |})).
  { unfold analyze_weather. cbv zeta.
    change (viability_viable (core s2))
      with (viable (check_weather_viability wd)).
    rewrite Hviable. reflexivity. }
  rewrite Hs3. clear Hs3.
  match goal with
  | |- context [run _ "search_accommodations" ?s] => set (s3 := s) in *
  end.
  (* search_accommodations, search_flights *)
  rewrite (run_step _ "search_accommodations" _ _ _ eq_refl
             (superstep_search_accommodations s3)).
  set (s4 := merge_state s3 (search_accommodations s3)).
  rewrite (run_step _ "search_flights" _ _ _ eq_refl
             (superstep_search_flights s4)).
  set (s5 := merge_state s4 (search_flights s4)).
  (* generate_itinerary *)
  rewrite (run_step _ "generate_itinerary" _ _ _ eq_refl
             (superstep_generate s5)).
  change (error_message (core s5)) with (error_message (core s1)).
  rewrite Herr.
  pose proof (Hquality s5) as Hq. apply Z.leb_le in Hq. rewrite Hq.
  rewrite run_from_finalize.
  split; [apply finalized_is_finished|].
  split; [exists s5; split; reflexivity|].
  repeat split.
  - change (hotel_options (finalized_from (merge_state s5 (generate s5))))
    with (Some (firstn 3
                  (filter (fun hotel =>
                             negb (opt_str_truthy (listing_error hotel))
                             && _is_within_budget hotel
                                  (dict_get (budget s3) DEFAULT_BUDGET))
                          h))).
    f_equal. f_equal. apply filter_ext. intros hotel. apply andb_true_r.
  - exact Horigin1.
Qed.

(** ** After the data collection *)

(** X19: the step after [gather_travel_data], from a state without error
    message.  A flight search that raises is the only failure: the error
    message is set and the next node is [provide_alternatives].  A
    weather bundle with an error marker does not fail the step: the
    bundle is stored with a verdict of not viable and score 0, and the
    graph goes on to [search_flights], passing over [analyze_weather] and
    [search_accommodations].  An error-free bundle leads to
    [analyze_weather]. *)
Theorem gather_travel_data_routing (state : PlannerState) :
  opt_str_truthy (error_message (core state)) = false ->
  exists (next : string) (state' : PlannerState),
    step "gather_travel_data" state = Some (next, state')
    /\ match travel_data_of state with
       | TravelError e =>
         next = "provide_alternatives"
         /\ error_message (core state') = Some e
         /\ opt_str_truthy (Some e) = true
         /\ weather_data (core state') = weather_data (core state)
       | TravelSuccess wd _ _ h _ f _ _ =>
         weather_data (core state') = Some wd
         /\ weather_viability (core state')
            = Some (check_weather_viability wd)
         /\ hotel_options state' = Some h
         /\ flight_options state' = Some f
         /\ error_message (core state') = error_message (core state)
         /\ (wd_error wd <> None ->
             next = "search_flights"
             /\ viable (check_weather_viability wd) = false
             /\ score (check_weather_viability wd) = PyInt 0)
         /\ (wd_error wd = None -> next = "analyze_weather")
       end.
Proof.
  intros Herr. eexists. eexists. split; [apply superstep_gather|].
  unfold gather_travel_data. cbv zeta.
  destruct (travel_data_of state) as [wd wa v h a f r d|e] eqn:Htd.
  - rewrite Herr.
    split; [reflexivity|]. split; [reflexivity|]. split; [reflexivity|].
    split; [reflexivity|]. split; [reflexivity|]. split.
    + intros Hwd.
      destruct (check_weather_viability_on_error wd Hwd) as [Hs Hv].
      destruct (wd_error wd); [|congruence].
      split; [reflexivity|]. split; assumption.
    + intros ->. reflexivity.
  - split; [reflexivity|]. split; [reflexivity|].
    split; [exact (travel_data_error_truthy state e Htd) | reflexivity].
Qed.

(** ** The itinerary *)

Lemma itinerary_quality_at_least_70
  (text : string) (state : TripPlannerState) :
  (70 <=? _calculate_itinerary_quality text state)
  = (str_truthy text
     && ((500 <? len text)%nat
         || any_in ["Day 1"; "Day 2"; "Morning"; "Afternoon"] text)).
Proof.
  unfold _calculate_itinerary_quality.
  destruct (str_truthy text); [|reflexivity]. cbn [negb andb].
  destruct (500 <? len text)%nat,
           (any_in ["Day 1"; "Day 2"; "Morning"; "Afternoon"] text),
           (all_in ["hotel"; "activities"; "restaurant"] text);
    reflexivity.
Qed.

(** X20: after [generate_itinerary] the graph goes to
    [finalize_recommendation] exactly when no error message is set and
    the generated text is not empty and either is longer than 500
    characters ([len], not bytes) or contains one of the markers "Day 1", "Day 2",
    "Morning", "Afternoon"; otherwise it goes to
    [provide_alternatives].  The keywords "hotel", "activities" and
    "restaurant" play no part in that decision, and the quality score
    stored is one of 0, 50, 60, 70, 80, 90, 100. *)
Theorem itinerary_acceptance (state : PlannerState) :
  let text := generate_itinerary_text state in
  let accepted :=
    negb (opt_str_truthy (error_message (core state)))
    && str_truthy text
    && ((500 <? len text)%nat
        || any_in ["Day 1"; "Day 2"; "Morning"; "Afternoon"] text) in
  exists state' : PlannerState,
    step "generate_itinerary" state
    = Some (if accepted then "finalize_recommendation"
            else "provide_alternatives", state')
    /\ itinerary (core state') = Some text
    /\ exists q : Z,
         itinerary_quality_score (core state') = Some q
         /\ In q [0; 50; 60; 70; 80; 90; 100].
Proof.
  cbv zeta. eexists. split; [|split].
  - rewrite superstep_generate, itinerary_quality_at_least_70.
    destruct (opt_str_truthy (error_message (core state)));
      [reflexivity|].
    cbn [negb andb].
    destruct (str_truthy _ && _); reflexivity.
  - reflexivity.
  - eexists. split; [reflexivity|].
    unfold _calculate_itinerary_quality.
    destruct (str_truthy (generate_itinerary_text state));
      [|left; reflexivity].
    cbn [negb].
    destruct (500 <? len _)%nat,
             (any_in ["Day 1"; "Day 2"; "Morning"; "Afternoon"] _),
             (all_in ["hotel"; "activities"; "restaurant"] _);
      cbn; tauto.
Qed.

End WorkflowProperties.

(** ** The sample runs *)

Lemma incomplete_request_never_finishes_witness :
  let result := sample_plan_trip 25 sample_incomplete_request in
  error_message (core result)
  = Some ("Trip planning failed: " ++ "Recursion limit reached")
  /\ itinerary (core result) = None
  /\ alternative_suggestions (core result) = None
  /\ final_recommendation result
     = Some (RecommendationText
               "Unable to generate travel plan. Please try again.").
Proof.
  assert (Hmissing : new_missing sample_incomplete_request <> [])
    by (vm_compute; discriminate).
  exact (proj2 (incomplete_request_never_finishes
                  sample_float_repr sample_strptime sample_weather_requests
                  sample_search_hotels sample_search_attractions
                  sample_search_flights sample_search_travel_info
                  sample_generate_itinerary_text
                  sample_generate_alternative_suggestions
                  sample_incomplete_request Hmissing eq_refl)
           25%nat "Recursion limit reached").
Defined.

Lemma plan_trip_finishes_witness :
  let result := sample_plan_trip 25 sample_trip_request in
  current_step (core result) = Some "completed"
  /\ should_continue result = Some false.
Proof.
  pose proof (plan_trip_finishes
                sample_float_repr sample_strptime sample_weather_requests
                sample_search_hotels sample_search_attractions
                sample_search_flights sample_search_travel_info
                sample_generate_itinerary_text
                sample_generate_alternative_suggestions
                sample_trip_request 17 "Recursion limit reached"
                (or_introl eq_refl)) as H.
  cbv zeta in H. destruct H as ((Hstep & _ & Hcont & _) & _).
  split; [exact Hstep | exact Hcont].
Defined.

(** The sample request names Oslo as origin city; the flights found are
    those from New York. *)
Lemma plan_trip_success_witness :
  let result :=
    plan_trip sample_float_repr sample_strptime sample_weather_requests
      sample_search_hotels sample_search_attractions
      sample_search_flights_from sample_search_travel_info
      sample_generate_itinerary_text
      sample_generate_alternative_suggestions
      25 "Recursion limit reached" sample_trip_request in
  origin_city sample_trip_request = Some "Oslo"
  /\ error_message (core result) = error_message (core sample_trip_request)
  /\ flight_options result
     = Some [mkListing None (Some "Flight from New York") (Some 150%Q)]
  /\ origin_city result = None.
Proof.
  assert (Htd :
    get_comprehensive_travel_data sample_float_repr sample_strptime
      sample_weather_requests sample_search_hotels
      sample_search_attractions sample_search_flights_from
      sample_search_travel_info
      "Bergen" "2024-06-01 to 2024-06-03" 1500 ["hiking"] "New York"
    = TravelSuccess
        (sample_forecast_for "Bergen" "2024-06-01" "2024-06-03")
        (dict_get (wd_weather_analysis
                     (sample_forecast_for "Bergen" "2024-06-01"
                                          "2024-06-03"))
                  "Weather information not available")
        (check_weather_viability
           (sample_forecast_for "Bergen" "2024-06-01" "2024-06-03"))
        (sample_search_hotels "Bergen" 1500)
        (sample_search_attractions "Bergen" ["hiking"])
        [mkListing None (Some "Flight from New York") (Some 150%Q)]
        (sample_search_travel_info "Bergen" "general")
        "Bergen")
    by (vm_compute; reflexivity).
  assert (Hwd : wd_error (sample_forecast_for "Bergen" "2024-06-01"
                                               "2024-06-03") = None)
    by (vm_compute; reflexivity).
  assert (Hviable :
    viable (check_weather_viability
              (sample_forecast_for "Bergen" "2024-06-01" "2024-06-03"))
    = true)
    by (vm_compute; reflexivity).
  assert (Hquality : forall s : PlannerState,
    70 <= _calculate_itinerary_quality
            (sample_generate_itinerary_text s) (core s))
    by (intros s; vm_compute; discriminate).
  pose proof (plan_trip_success
                sample_float_repr sample_strptime sample_weather_requests
                sample_search_hotels sample_search_attractions
                sample_search_flights_from sample_search_travel_info
                sample_generate_itinerary_text
                sample_generate_alternative_suggestions
                sample_trip_request 18 "Recursion limit reached"
                _ _ _ _ _ _ _ _
                eq_refl eq_refl Htd Hwd Hviable Hquality) as H.
  cbv zeta in H.
  destruct H as (_ & _ & Herr & _ & _ & _ & _ & Hflights & Horigin).
  split; [reflexivity|].
  split; [exact Herr|]. split; [exact Hflights | exact Horigin].
Defined.

Lemma gather_travel_data_routing_witness :
  exists (next : string) (state' : PlannerState),
    superstep sample_float_repr sample_strptime sample_weather_requests
      sample_search_hotels sample_search_attractions sample_search_flights
      sample_search_travel_info sample_generate_itinerary_text
      sample_generate_alternative_suggestions
      "gather_travel_data" sample_incomplete_request
    = Some (next, state')
    /\ next = "search_flights"
    /\ viable (check_weather_viability (sample_forecast_for "" "2024-06-01"
                                          "2024-06-03")) = false.
Proof.
  pose proof (gather_travel_data_routing
                sample_float_repr sample_strptime sample_weather_requests
                sample_search_hotels sample_search_attractions
                sample_search_flights sample_search_travel_info
                sample_generate_itinerary_text
                sample_generate_alternative_suggestions
                sample_incomplete_request eq_refl) as H.
  destruct H as (next & state' & Hstep & Hcase).
  exists next, state'. split; [exact Hstep|].
  assert (Htd :
    sample_travel_data_for "" "2024-06-01 to 2024-06-03" 1500 [] "New York"
    = TravelSuccess
        (sample_forecast_for "" "2024-06-01" "2024-06-03")
        "Weather information not available"
        (check_weather_viability
           (sample_forecast_for "" "2024-06-01" "2024-06-03"))
        (sample_search_hotels "" 1500)
        (sample_search_attractions "" [])
        [mkListing None (Some "Morning flight") (Some 150%Q)]
        (sample_search_travel_info "" "general")
        "")
    by (vm_compute; reflexivity).
  change (get_comprehensive_travel_data _ _ _ _ _ _ _ _ _ _ _ _)
    with (sample_travel_data_for "" "2024-06-01 to 2024-06-03" 1500 []
                                 "New York") in Hcase.
  rewrite Htd in Hcase.
  destruct Hcase as (_ & _ & _ & _ & _ & Herror & _).
  assert (Hwd : wd_error (sample_forecast_for "" "2024-06-01" "2024-06-03")
                <> None)
    by (vm_compute; discriminate).
  destruct (Herror Hwd) as (Hnext & Hviable & _).
  split; [exact Hnext | exact Hviable].
Defined.

(** * Properties of the nodes and of the input validation *)

(** ** The required fields *)

(** X21: [collect_user_input] asks for exactly the required fields that
    are missing, in the order destination, travel dates, duration,
    budget; an empty destination or dates text, a duration of 0 and a
    budget of 0 count as missing.  With none missing it reports that no
    input is required; otherwise it requires input, records the missing
    fields and adds the request for them to the conversation. *)
Theorem collect_user_input_missing (state : PlannerState) :
  let update := collect_user_input state in
  let missing :=
    ((if opt_str_truthy (destination (core state))
      then [] else ["destination"])
     ++ (if opt_str_truthy (travel_dates (core state))
         then [] else ["travel_dates"])
     ++ (match duration state with
         | Some z => if z =? 0 then ["duration"] else []
         | None => ["duration"]
         end)
     ++ (match budget state with
         | Some q => if Qeq_bool q 0 then ["budget"] else []
         | None => ["budget"]
         end))%list in
  (missing = [] ->
   requires_input (core update) = Some false
   /\ current_step (core update) = Some "data_collection"
   /\ conversation_history (core update) = None)
  /\ (missing <> [] ->
      requires_input (core update) = Some true
      /\ current_step (core update) = Some "input_collection"
      /\ missing_information update = Some missing
      /\ conversation_history (core update)
         = Some (dict_get (conversation_history (core state)) []
                 ++ [("system",
                      ("Need information: " ++ join ", " missing)%string)])
             %list).
Proof.
  cbv zeta.
  assert (Hmissing :
    new_missing state
    = ((if opt_str_truthy (destination (core state))
        then [] else ["destination"])
       ++ (if opt_str_truthy (travel_dates (core state))
           then [] else ["travel_dates"])
       ++ (match duration state with
           | Some z => if z =? 0 then ["duration"] else []
           | None => ["duration"]
           end)
       ++ (match budget state with
           | Some q => if Qeq_bool q 0 then ["budget"] else []
           | None => ["budget"]
           end))%list).
  { unfold new_missing, opt_int_truthy, opt_num_truthy.
    destruct (duration state) as [z|]; [destruct (z =? 0)|];
      (destruct (budget state) as [q|]; [destruct (Qeq_bool q 0)|]);
      reflexivity. }
  rewrite <- Hmissing. unfold collect_user_input. cbv zeta.
  destruct (new_missing state) as [|m ms],
           (dict_get (missing_information state) []) as [|i rest];
    (split; [intros H; try discriminate H; repeat split
            |intros H; try congruence; repeat split]).
Qed.

Lemma collect_user_input_missing_witness :
  let update := collect_user_input sample_incomplete_request in
  requires_input (core update) = Some true
  /\ current_step (core update) = Some "input_collection"
  /\ missing_information update = Some ["destination"]
  /\ conversation_history (core update)
     = Some [("system", "Need information: destination")].
Proof.
  apply (proj2 (collect_user_input_missing sample_incomplete_request)).
  cbn. discriminate.
Defined.

(** ** The accommodation filter *)

Lemma in_firstn {A : Type} (n : nat) (l : list A) (x : A) :
  In x (firstn n l) -> In x l.
Proof.
  intros H. rewrite <- (firstn_skipn n l). apply in_or_app. now left.
Qed.

(** X22: [search_accommodations] keeps the first three hotels that carry
    no error, in their order, and fewer when there are fewer; the budget
    plays no part, so a hotel priced above the budget is kept. *)
Theorem search_accommodations_result (state : PlannerState) :
  let hotels := dict_get (hotel_options state) [] in
  let kept :=
    firstn 3 (filter (fun hotel =>
                        negb (opt_str_truthy (listing_error hotel)))
                     hotels) in
  hotel_options (search_accommodations state) = Some kept
  /\ (List.length kept <= 3)%nat
  /\ (forall hotel : Listing,
        In hotel kept ->
        In hotel hotels /\ opt_str_truthy (listing_error hotel) = false)
  /\ (forall state' : PlannerState,
        hotel_options state' = hotel_options state ->
        hotel_options (search_accommodations state')
        = hotel_options (search_accommodations state)).
Proof.
  cbv zeta.
  assert (Hfilter : forall l : list Listing,
    filter (fun hotel =>
              negb (opt_str_truthy (listing_error hotel))
              && _is_within_budget hotel
                   (dict_get (budget state) DEFAULT_BUDGET)) l
    = filter (fun hotel => negb (opt_str_truthy (listing_error hotel))) l)
    by (intros l; apply filter_ext; intros hotel; apply andb_true_r).
  split; [|split; [|split]].
  - unfold search_accommodations. cbv zeta. cbn [hotel_options].
    now rewrite Hfilter.
  - apply firstn_le_length.
  - intros hotel Hin. apply in_firstn in Hin.
    apply filter_In in Hin. destruct Hin as [Hin Herr].
    split; [exact Hin|]. now apply negb_true_iff in Herr.
  - intros state' Hsame. unfold search_accommodations. cbv zeta.
    cbn [hotel_options]. rewrite Hsame. reflexivity.
Qed.

Lemma search_accommodations_result_witness :
  hotel_options
    (search_accommodations
       (merge_state sample_trip_request (sample_gather sample_trip_request)))
  = Some [ mkListing None (Some "Harbour Hotel") (Some 120%Q);
           mkListing None (Some "Fjord Lodge") (Some 2500%Q);
           mkListing None (Some "City Hostel") (Some 40%Q) ].
Proof.
  rewrite (proj1 (search_accommodations_result
                    (merge_state sample_trip_request
                       (sample_gather sample_trip_request)))).
  vm_compute. reflexivity.
Defined.

(** ** The graph *)

(** X23: from every node of the graph the routing picks a successor,
    whatever the state holds: no routing function returns a key its
    mapping lacks.  The successor is never [handle_feedback]: the
    decision after finalization is always "accepted", so a run never
    reaches the feedback node.  A name that is not a node has no
    successor. *)
Theorem graph_successors (node : string) (state : TripPlannerState) :
  (In node ["collect_user_input"; "gather_travel_data"; "analyze_weather";
            "search_accommodations"; "search_flights";
            "generate_itinerary"; "provide_alternatives";
            "finalize_recommendation"; "handle_feedback"] ->
   exists next : string,
     next_node node state = Some next
     /\ In next ["collect_user_input"; "gather_travel_data";
                 "analyze_weather"; "search_accommodations";
                 "search_flights"; "generate_itinerary";
                 "provide_alternatives"; "finalize_recommendation"; END])
  /\ (String.eqb node "finalize_recommendation" = true ->
      next_node node state = Some END)
  /\ (existsb (String.eqb node)
        ["collect_user_input"; "gather_travel_data"; "analyze_weather";
         "search_accommodations"; "search_flights"; "generate_itinerary";
         "provide_alternatives"; "finalize_recommendation";
         "handle_feedback"] = false ->
      next_node node state = None).
Proof.
  split; [|split].
  - intros Hnode. cbn [In] in Hnode.
    repeat (destruct Hnode as [<-|Hnode]); [..|contradiction];
      unfold next_node, edges;
      cbn [lookup String.eqb Ascii.eqb Bool.eqb];
      unfold decide_after_input_collection, decide_after_data_collection,
        decide_after_weather_analysis, decide_after_itinerary,
        decide_after_finalization, decide_after_feedback;
      repeat match goal with
      | |- context [if ?b then _ else _] =>
          lazymatch b with
          | context [String.eqb] => fail
          | _ => destruct b
          end
      end;
      (eexists; split; [reflexivity | cbn; tauto]).
  - intros Hnode. apply String.eqb_eq in Hnode. subst node. reflexivity.
  - intros Hnode. cbn [existsb] in Hnode.
    repeat (apply orb_false_iff in Hnode; destruct Hnode as [? Hnode]).
    unfold next_node, edges. cbn [lookup].
    repeat match goal with
    | H : String.eqb node ?s = false |- _ => rewrite H; clear H
    end.
    reflexivity.
Qed.

Lemma graph_successors_witness :
  next_node "finalize_recommendation"
    (with_error (with_feedback "please change the hotel") "failed")
  = Some END.
Proof.
  apply (proj1 (proj2 (graph_successors "finalize_recommendation"
           (with_error (with_feedback "please change the hotel")
                       "failed")))).
  reflexivity.
Defined.

(** ** The input validation *)

Import Helpers.

(** X24: [validate_user_input] accepts an input exactly when the
    destination and the travel dates are non-empty texts, the duration is
    at least 1 and the budget is at least 50; it reports no error exactly
    when it accepts, and at most four. *)
Theorem validate_user_input_valid (input_data : PlannerState) :
  let r := validate_user_input input_data in
  (valid r = true
   <-> opt_str_truthy (destination (core input_data)) = true
       /\ opt_str_truthy (travel_dates (core input_data)) = true
       /\ (exists z : Z, duration input_data = Some z /\ 1 <= z)
       /\ (exists q : Q, budget input_data = Some q /\ (50 <= q)%Q))
  /\ (valid r = true <-> errors r = [])
  /\ (List.length (errors r) <= 4)%nat.
Proof.
  cbv zeta. unfold validate_user_input. cbv zeta.
  unfold opt_int_truthy, opt_num_truthy.
  destruct (opt_str_truthy (destination (core input_data))),
           (opt_str_truthy (travel_dates (core input_data)));
    (destruct (duration input_data) as [z|];
     [destruct (z =? 0) eqn:Ez0; [apply Z.eqb_eq in Ez0|apply Z.eqb_neq in Ez0];
      cbn [negb orb dict_get];
      (destruct (z <? 1) eqn:Ez1; [apply Z.ltb_lt in Ez1|apply Z.ltb_ge in Ez1])
     |cbn [negb orb dict_get]]);
    (destruct (budget input_data) as [q|];
     [destruct (Qeq_bool q 0) eqn:Eq0;
      [apply Qeq_bool_iff in Eq0|apply Qeq_bool_neq in Eq0];
      cbn [negb orb dict_get];
      (destruct (Qlt_bool q 50) eqn:Eq1; reflect_comparisons)
     |cbn [negb orb dict_get]]);
    cbn; (split; [split|split; [split|lia]]);
    try discriminate; try reflexivity;
    try (intros (H1 & H2 & (z' & Hz & Hz') & (q' & Hq & Hq'));
         try discriminate; try injection Hz as <-; try injection Hq as <-;
         try lia; try lra);
    try (intros _; repeat split;
         try (eexists; split; [reflexivity|]; (lia || lra))).
Qed.

(** X25: an input that [validate_user_input] accepts lacks none of the
    fields [collect_user_input] requires: that node asks for nothing and
    reports that no input is required, unless stale missing information
    is stored, in which case it still reports that no input is
    required. *)
Theorem validated_input_is_complete (input_data : PlannerState) :
  valid (validate_user_input input_data) = true ->
  new_missing input_data = []
  /\ requires_input (core (collect_user_input input_data)) = Some false
  /\ current_step (core (collect_user_input input_data))
     = Some "data_collection".
Proof.
  unfold validate_user_input. cbv zeta.
  unfold new_missing, collect_user_input, new_missing.
  destruct (opt_str_truthy (destination (core input_data)));
    [|destruct (opt_str_truthy (travel_dates (core input_data))),
               (negb (opt_int_truthy (duration input_data)) || _),
               (negb (opt_num_truthy (budget input_data)) || _);
      discriminate].
  destruct (opt_str_truthy (travel_dates (core input_data)));
    [|destruct (negb (opt_int_truthy (duration input_data)) || _),
               (negb (opt_num_truthy (budget input_data)) || _);
      discriminate].
  destruct (opt_int_truthy (duration input_data));
    [|cbn [negb orb];
      destruct (negb (opt_num_truthy (budget input_data)) || _);
      discriminate].
  destruct (opt_num_truthy (budget input_data));
    [|cbn [negb orb]; destruct (_ <? _); discriminate].
  intros _. cbn [app].
  destruct (dict_get (missing_information input_data) []);
    repeat split.
Qed.

Lemma validated_input_is_complete_witness :
  new_missing sample_trip_request = []
  /\ requires_input (core (collect_user_input sample_trip_request))
     = Some false
  /\ current_step (core (collect_user_input sample_trip_request))
     = Some "data_collection".
Proof.
  apply (validated_input_is_complete sample_trip_request).
  vm_compute. reflexivity.
Defined.
